(** * Multi-period model assembly and representative-day clustering

    A shallow embedding of

    - [idaes/apps/grid_integration/multiperiod/multiperiod.py]
      (class [MultiPeriodModel]) and
    - [idaes/apps/grid_integration/multiperiod/price_taker_model.py]
      (class [PriceTakerModel], the clustering pipeline),

    together with the properties of the assembly engine, of the
    rolling-horizon shift and of the clustering pipeline.

    Python objects that the code mutates in place are modelled by explicit
    state passing; a Python exception is a [Raise] result that keeps the
    state reached so far, because the objects mutated before the exception
    stay mutated.  The user callbacks, the solver, scikit-learn's [KMeans]
    and kneed's [KneeLocator] are external collaborators: they are
    [Variable]s of the sections below. *)

From stdpp Require Import gmap list sorting.
From Stdlib Require Import QArith.
From Stdlib Require String Ascii.

Local Open Scope Z_scope.

(** ** Exceptions and the state-and-exception monad *)

Inductive exn : Set :=
| AssertionError | KeyError | IndexError | AttributeError
| TypeError | ValueError | ZeroDivisionError | UnboundLocalError
| Diverges.  (* not an exception: the modelled loop does not terminate *)

Inductive result (A : Type) : Type :=
| Ok (a : A)
| Raise (e : exn).
Arguments Ok {A} a.
Arguments Raise {A} e.

Definition is_Ok {A} (r : result A) : bool :=
  match r with Ok _ => true | Raise _ => false end.

(** A computation over a mutable object of type [S].  The state is returned
    on both outcomes. *)
Definition Run (S A : Type) : Type := S → S * result A.

Global Instance Run_ret {S} : MRet (Run S) := λ A a s, (s, Ok a).
Global Instance Run_bind {S} : MBind (Run S) := λ A B f c s,
  match c s with
  | (s', Ok a) => f a s'
  | (s', Raise e) => (s', Raise e)
  end.

Definition raise {S A} (e : exn) : Run S A := λ s, (s, Raise e).
Definition get {S} : Run S S := λ s, (s, Ok s).
Definition modify {S} (f : S → S) : Run S unit := λ s, (f s, Ok ()).
Definition lift {S A} (r : result A) : Run S A := λ s, (s, r).

(** [for x in l: body x] *)
Fixpoint for_each {S A} (l : list A) (body : A → Run S unit) : Run S unit :=
  match l with
  | [] => mret ()
  | x :: l' => body x ;; for_each l' body
  end.

(** ** Python built-ins used by the code *)

(** [range(n)] *)
Definition py_range (n : Z) : list Z := seqZ 0 n.

(** [l[:k]], with Python's treatment of a negative bound. *)
Definition py_slice_to {A} (l : list A) (k : Z) : list A :=
  if decide (0 ≤ k) then take (Z.to_nat k) l
  else take (Z.to_nat (Z.of_nat (length l) + k)) l.

(** [enumerate(l)] *)
Definition enumerate {A} (l : list A) : list (nat * A) := imap (λ i x, (i, x)) l.

(** Containers indexed by a key and kept in declaration order: lookup of a
    key, and update in place of the value it holds. *)
Fixpoint assoc_get {A B} `{EqDecision A} (k : A) (l : list (A * B)) : option B :=
  match l with
  | [] => None
  | (k', v) :: l' => if decide (k' = k) then Some v else assoc_get k l'
  end.

Definition assoc_alter {A B} `{EqDecision A} (f : B → B) (k : A) (l : list (A * B))
  : list (A * B) :=
  (λ kv, if decide (kv.1 = k) then (kv.1, f kv.2) else kv) <$> l.

(** [sorted(d)] for a dict with integer keys: its keys in increasing order. *)
Definition sorted_keys {A} (d : gmap Z A) : list Z :=
  merge_sort Z.le (map_to_list d).*1.

(** ** The part of Pyomo the code relies on *)

Module Pyomo.

(** An ordered [Set]: members in insertion order, no duplicates. *)
Section OrderedSet.
Context {A : Type} `{EqDecision A}.

Definition Set_add (s : list A) (x : A) : list A :=
  if decide (x ∈ s) then s else s ++ [x].

Definition Set_initialize (l : list A) : list A := foldl Set_add [] l.

(** [s.first()]: [IndexError] on an empty set. *)
Definition Set_first (s : list A) : result A :=
  match s with
  | [] => Raise IndexError
  | x :: _ => Ok x
  end.

(** [s.last()] *)
Definition Set_last (s : list A) : result A :=
  match last s with
  | None => Raise IndexError
  | Some x => Ok x
  end.

(** Zero-based position of [x] in [s]. *)
Fixpoint Set_index (s : list A) (x : A) : option nat :=
  match s with
  | [] => None
  | y :: s' => if decide (x = y) then Some 0%nat else S <$> Set_index s' x
  end.

(** [s.next(x)]: the member after [x]; [IndexError] ("cannot advance
    past the end of the Set") when [x] is the last member. *)
Definition Set_next (s : list A) (x : A) : result A :=
  match Set_index s x with
  | None => Raise ValueError
  | Some i =>
      match s !! S i with
      | None => Raise IndexError
      | Some y => Ok y
      end
  end.
End OrderedSet.

(** An indexed [Constraint] container holding equalities [a == b], with
    its own activity flag. *)
Record Constraint (V : Type) : Type := mkConstraint {
  con_index : list nat;
  con_data : gmap nat (V * V);
  con_active : bool
}.
Arguments mkConstraint {V}.
Arguments con_index {V}.
Arguments con_data {V}.
Arguments con_active {V}.

(** [Constraint(range(n))]: declared over [0..n-1], no member yet, active. *)
Definition Constraint_new {V} (n : nat) : Constraint V :=
  mkConstraint (seq 0 n) ∅ true.

(** [c[i] = (a == b)] *)
Definition Constraint_setitem {V} (c : Constraint V) (ip : nat * (V * V))
  : Constraint V :=
  mkConstraint (con_index c) (<[ip.1 := ip.2]> (con_data c)) (con_active c).

(** [c.deactivate()] *)
Definition Constraint_deactivate {V} (c : Constraint V) : Constraint V :=
  mkConstraint (con_index c) (con_data c) false.

End Pyomo.
Import Pyomo.

(** ** [MultiPeriodModel]: [build_multi_period_model] and [advance_time] *)

Module MultiPeriod.
Section MultiPeriodModel.

(** [U]: what the user's process-model factory builds (its variables and
    constraints); [V]: the variables handed back by the linking callbacks;
    [K]: one period's keyword arguments, with [empty_kwargs] for [{}]. *)
Context {U V K : Type}.
Variable empty_kwargs : K.

(** A period's process block: the user's model, its activity flag and the
    two containers the code attaches under the names [link_constraints]
    and [periodic_constraints].  The factory returns a new model at each
    call, so a block is owned by its slot. *)
Record Process : Type := mkProcess {
  user_model : U;
  active : bool;
  link_constraints : option (Constraint V);
  periodic_constraints : option (Constraint V)
}.

(** The constructor's callbacks. *)
Variable create_process_model : K → U.
Variable get_linking_variable_pairs : Process → Process → list (V * V).
Variable get_periodic_variable_pairs : option (Process → Process → list (V * V)).

Record MultiPeriodModel : Type := mkModel {
  n_time_points : Z;
  TIME : list Z;
  blocks : gmap Z Process;
  _pyomo_model : bool;          (* [true] once it refers to the model *)
  _first_active_time : option Z
}.

(** [__init__] with [use_stochastic_build=False]. *)
Definition init (n : Z) : MultiPeriodModel := mkModel n [] ∅ false None.

Definition set_TIME (s : list Z) (m : MultiPeriodModel) : MultiPeriodModel :=
  mkModel (n_time_points m) s (blocks m) (_pyomo_model m) (_first_active_time m).
Definition set_blocks (b : gmap Z Process) (m : MultiPeriodModel) : MultiPeriodModel :=
  mkModel (n_time_points m) (TIME m) b (_pyomo_model m) (_first_active_time m).
Definition set_pyomo_model (b : bool) (m : MultiPeriodModel) : MultiPeriodModel :=
  mkModel (n_time_points m) (TIME m) (blocks m) b (_first_active_time m).
Definition set_first_active_time (t : option Z) (m : MultiPeriodModel)
  : MultiPeriodModel :=
  mkModel (n_time_points m) (TIME m) (blocks m) (_pyomo_model m) t.

(** The model a factory call returns, as [m.blocks[t].process] holds it. *)
Definition new_process (u : U) : Process := mkProcess u true None None.

(** [b.deactivate()] *)
Definition Process_deactivate (p : Process) : Process :=
  mkProcess (user_model p) false (link_constraints p) (periodic_constraints p).

Definition set_link_constraints (c : option (Constraint V)) (p : Process) : Process :=
  mkProcess (user_model p) (active p) c (periodic_constraints p).
Definition set_periodic_constraints (c : option (Constraint V)) (p : Process)
  : Process :=
  mkProcess (user_model p) (active p) (link_constraints p) c.

(** The container both [_create_*_constraints] methods build:
    [Constraint(range(len(pairs)))], then [c[i] = pair[0] == pair[1]] for
    [(i, pair)] in [enumerate(pairs)]. *)
Definition equality_constraints (variable_pairs : list (V * V)) : Constraint V :=
  foldl Constraint_setitem (Constraint_new (length variable_pairs))
        (enumerate variable_pairs).

Definition _create_linking_constraints (b1 : Process) (variable_pairs : list (V * V))
  : Process :=
  set_link_constraints (Some (equality_constraints variable_pairs)) b1.

Definition _create_periodic_constraints (b1 : Process) (variable_pairs : list (V * V))
  : Process :=
  set_periodic_constraints (Some (equality_constraints variable_pairs)) b1.

(** [m.blocks[t].process]: [KeyError] outside [m.TIME], [AttributeError]
    when the block has no [process] yet. *)
Definition blocks_process (t : Z) : Run MultiPeriodModel Process := λ m,
  if decide (t ∈ TIME m) then
    match blocks m !! t with
    | Some p => (m, Ok p)
    | None => (m, Raise AttributeError)
    end
  else (m, Raise KeyError).

(** Writing the block [m.blocks[t].process] back after a mutation. *)
Definition blocks_set_process (t : Z) (p : Process) : Run MultiPeriodModel unit := λ m,
  if decide (t ∈ TIME m) then (set_blocks (<[t := p]> (blocks m)) m, Ok ())
  else (m, Raise KeyError).

(** [d[t]] *)
Definition dict_getitem {A} (d : gmap Z A) (t : Z) : result A :=
  match d !! t with
  | Some a => Ok a
  | None => Raise KeyError
  end.

(** [{t: {} for t in range(n)}] *)
Definition default_kwargs (n : Z) : gmap Z K :=
  list_to_map ((λ t, (t, empty_kwargs)) <$> py_range n).

(** [assert list(range(len(d))) == sorted(d)] *)
Definition kwargs_assertion (d : gmap Z K) : bool :=
  bool_decide (py_range (Z.of_nat (size d)) = sorted_keys d).

Definition build_multi_period_model (model_data_kwargs : option (gmap Z K))
  : Run MultiPeriodModel unit :=
  self ← get;
  let n := n_time_points self in
  let model_data_kwargs := default (default_kwargs n) model_data_kwargs in
  (if kwargs_assertion model_data_kwargs then mret () else raise AssertionError);;
  modify (set_TIME (Set_initialize (py_range n)));;
  modify (set_blocks ∅);;
  (m ← get;
   for_each (TIME m) (λ t,
     kw ← lift (dict_getitem model_data_kwargs t);
     blocks_set_process t (new_process (create_process_model kw))));;
  (m ← get;
   for_each (py_slice_to (TIME m) (n - 1)) (λ t,
     b1 ← blocks_process t;
     b2 ← blocks_process (t + 1);
     let link_variable_pairs := get_linking_variable_pairs b1 b2 in
     blocks_set_process t (_create_linking_constraints b1 link_variable_pairs)));;
  match get_periodic_variable_pairs with
  | None => mret ()
  | Some periodic =>
      m ← get;
      let N := Z.of_nat (size (blocks m)) in
      b_last ← blocks_process (N - 1);
      b_first ← blocks_process 0;
      let periodic_variable_pairs := periodic b_last b_first in
      blocks_set_process (N - 1)
        (_create_periodic_constraints b_last periodic_variable_pairs)
  end;;
  modify (set_pyomo_model true);;
  m ← get;
  first ← lift (Set_first (TIME m));
  modify (set_first_active_time (Some first)).

Definition advance_time (model_data_kwargs : K) : Run MultiPeriodModel unit :=
  self ← get;
  (if _pyomo_model self then mret () else raise AttributeError);;
  previous_time ← lift (match _first_active_time self with
                        | Some t => Ok t
                        | None => Raise ValueError
                        end);
  current_time ← lift (Set_next (TIME self) previous_time);
  (* deactivate previous time *)
  b_prev ← blocks_process previous_time;
  blocks_set_process previous_time (Process_deactivate b_prev);;
  (* track the first time in the problem horizon *)
  modify (set_first_active_time (Some current_time));;
  (* populate new time for the end of the horizon *)
  last_time ← lift (Set_last (TIME self));
  let new_time := last_time + 1 in
  modify (λ m, set_TIME (Set_add (TIME m) new_time) m);;
  blocks_set_process new_time (new_process (create_process_model model_data_kwargs));;
  (* sequential time coupling *)
  b_last ← blocks_process last_time;
  b_new ← blocks_process new_time;
  let link_variable_pairs := get_linking_variable_pairs b_last b_new in
  blocks_set_process last_time
    (_create_linking_constraints b_last link_variable_pairs);;
  (* periodic time coupling *)
  match get_periodic_variable_pairs with
  | None => mret ()
  | Some periodic =>
      b_new ← blocks_process new_time;
      b_cur ← blocks_process current_time;
      let periodic_variable_pairs := periodic b_new b_cur in
      blocks_set_process new_time
        (_create_periodic_constraints b_new periodic_variable_pairs);;
      (* deactivate old periodic constraint *)
      b_last ← blocks_process last_time;
      match periodic_constraints b_last with
      | None => raise AttributeError
      | Some c =>
          blocks_set_process last_time
            (set_periodic_constraints (Some (Constraint_deactivate c)) b_last)
      end
  end.

(** [get_active_process_blocks] *)
Definition get_active_process_blocks (m : MultiPeriodModel) : list Process :=
  filter (λ p, active p = true) (omap (λ t, blocks m !! t) (TIME m)).

(** The sequential LinkEdges of a model: in [TIME] order, the source index
    and the [link_constraints] container of every block that has one. *)
Definition sequential_edges (m : MultiPeriodModel) : list (Z * Constraint V) :=
  omap (λ t, p ← blocks m !! t; c ← link_constraints p; Some (t, c)) (TIME m).

(** The periodic LinkEdges, likewise, and those that are active. *)
Definition periodic_edges (m : MultiPeriodModel) : list (Z * Constraint V) :=
  omap (λ t, p ← blocks m !! t; c ← periodic_constraints p; Some (t, c)) (TIME m).

Definition active_periodic_edges (m : MultiPeriodModel) : list (Z * Constraint V) :=
  filter (λ e, con_active e.2 = true) (periodic_edges m).

(** *** What a completed build looks like

    [fresh_block d t] is the block of period [t] as the factory call of
    the build leaves it, for per-index keyword arguments [d]; the pairs
    the linking callback returns for [t] and [t + 1] are [link_pairs d t],
    computed on the two blocks before either carries a container. *)
Definition fresh_block (d : gmap Z K) (t : Z) : Process :=
  new_process (create_process_model (default empty_kwargs (d !! t))).

Definition link_pairs (d : gmap Z K) (t : Z) : list (V * V) :=
  get_linking_variable_pairs (fresh_block d t) (fresh_block d (t + 1)).

Definition linked_block (d : gmap Z K) (n t : Z) : Process :=
  if decide (t < n - 1) then _create_linking_constraints (fresh_block d t) (link_pairs d t)
  else fresh_block d t.

Definition built_block (d : gmap Z K) (n t : Z) : Process :=
  match get_periodic_variable_pairs with
  | Some periodic =>
      if decide (t = n - 1) then
        _create_periodic_constraints (linked_block d n t)
          (periodic (linked_block d n (n - 1)) (linked_block d n 0))
      else linked_block d n t
  | None => linked_block d n t
  end.

(** The keyword arguments a build works with, and when it accepts them. *)
Definition effective_kwargs (n : Z) (model_data_kwargs : option (gmap Z K)) : gmap Z K :=
  default (default_kwargs n) model_data_kwargs.

(** The horizon window after [k] shifts of a model built with [w]
    periods: indices [0 .. k + w - 1], the first [k] of them deactivated;
    every block but the last carries its sequential edge; the periodic
    edges sit on the blocks that were last at some time, and only the one
    on the present last block is active. *)
Record window_invariant (m : MultiPeriodModel) (k w : Z) : Prop := {
  inv_shifts : 0 ≤ k;
  inv_length : 1 ≤ w;
  inv_n_time_points : n_time_points m = w;
  inv_TIME : TIME m = seqZ 0 (k + w);
  inv_first : _first_active_time m = Some k;
  inv_pyomo_model : _pyomo_model m = true;
  inv_blocks : ∀ t, is_Some (blocks m !! t) ↔ 0 ≤ t < k + w;
  inv_active : ∀ t p, blocks m !! t = Some p → active p = bool_decide (k ≤ t);
  inv_link : ∀ t p, blocks m !! t = Some p →
                    is_Some (link_constraints p) ↔ t < k + w - 1;
  inv_periodic : ∀ t p, blocks m !! t = Some p →
    match get_periodic_variable_pairs with
    | None => periodic_constraints p = None
    | Some _ =>
        (is_Some (periodic_constraints p) ↔ w - 1 ≤ t)
        ∧ ∀ c, periodic_constraints p = Some c →
               con_active c = bool_decide (t = k + w - 1)
    end
}.

(** The state after a list of [advance_time] calls, whatever each call's
    outcome. *)
Definition after_calls (m : MultiPeriodModel) (calls : list K) : MultiPeriodModel :=
  foldl (λ m model_data_kwargs, (advance_time model_data_kwargs m).1) m calls.

(** A model is in use once a build completed on it, and after every
    completed [advance_time]. *)
Inductive in_use : MultiPeriodModel → Prop :=
| in_use_build self model_data_kwargs m :
    build_multi_period_model model_data_kwargs self = (m, Ok ()) →
    in_use m
| in_use_advance m model_data_kwargs m' :
    in_use m →
    advance_time model_data_kwargs m = (m', Ok ()) →
    in_use m'.

End MultiPeriodModel.

(** ** [build_stochastic_multiperiod]

    With [use_stochastic_build=True] the constructor builds the model at
    once.  On this path the factory is called as
    [create_process_model(block, **flowsheet_options)] and fills the block it
    is given, so here it is a function on block contents. *)

Inductive PeriodIndex : Set :=
| idx_t (t : Z)
| idx_td (t d : Z)
| idx_ty (t y : Z)
| idx_tdy (t d y : Z).

Global Instance PeriodIndex_eq_dec : EqDecision PeriodIndex.
Proof. solve_decision. Defined.

(** Calls to the external collaborators, in the order they are made.  A
    period block is named by its scenario ([None] for the model itself) and
    its index. *)
Inductive event : Set :=
| ev_create_period (s : option Z) (p : PeriodIndex)
| ev_create_instance
| ev_initialize
| ev_solve
| ev_to_json
| ev_from_json (s : option Z) (p : PeriodIndex)
| ev_unfix_dof (s : option Z) (p : PeriodIndex).

Global Instance event_eq_dec : EqDecision event.
Proof. solve_decision. Defined.

Section StochasticBuild.

(** [U]: block contents; [V]: variables; [FO], [IO], [UO]: the three
    option dictionaries; [SR]: what the solver returns; [J]: the state
    dictionary of [to_json]. *)
Context {U V FO IO UO SR J : Type}.

(** The contents of a block on which nothing was declared yet (a member of
    [pyo.Block(set_period)], or [pyo.ConcreteModel()]). *)
Variable empty_block : U.
Variable create_process_model : U → FO → U.
Variable initialization_func : option (U → IO → U).
Variable unfix_dof_func : option (U → UO → U).
Variable flowsheet_options : FO.
Variable initialization_options : IO.
Variable unfix_dof_options : UO.
(** [solver.solve(blk)] loads its solution in [blk] and returns a result. *)
Variable solve : U → U * SR.
Variable check_optimal_termination : SR → bool.
Variable to_json : U → J.
Variable from_json : U → J → U.

Definition Period : Type := @Process U V.
Definition Periods : Type := list (PeriodIndex * Period).

Record StochasticModel : Type := mkStochastic {
  st_n_time_points : Z;
  set_time : list Z;
  set_days : option (list Z);
  set_years : option (list Z);
  set_scenarios : option (list Z);
  set_period : list PeriodIndex;
  scenario : list (Z * Periods);  (* [self.scenario[s].period] *)
  period : Periods;               (* [self.period] *)
  calls : list event
}.

Definition _multiple_days (m : StochasticModel) : bool := bool_decide (is_Some (set_days m)).
Definition _multiyear (m : StochasticModel) : bool := bool_decide (is_Some (set_years m)).
Definition _stochastic_model (m : StochasticModel) : bool :=
  bool_decide (is_Some (set_scenarios m)).

(** [RangeSet(n)]: the integers [1..n]. *)
Definition RangeSet (n : Z) : list Z := seqZ 1 n.

(** [__init__] with [use_stochastic_build=True], up to the call of
    [build_stochastic_multiperiod]. *)
Definition stochastic_init (n : Z) (days years scenarios : option (list Z))
  : StochasticModel :=
  mkStochastic n (RangeSet n) (Set_initialize <$> days) (Set_initialize <$> years)
               (Set_initialize <$> scenarios) [] [] [] [].

Definition set_set_period (l : list PeriodIndex) (m : StochasticModel) : StochasticModel :=
  mkStochastic (st_n_time_points m) (set_time m) (set_days m) (set_years m)
               (set_scenarios m) l (scenario m) (period m) (calls m).
Definition set_scenario (l : list (Z * Periods)) (m : StochasticModel) : StochasticModel :=
  mkStochastic (st_n_time_points m) (set_time m) (set_days m) (set_years m)
               (set_scenarios m) (set_period m) l (period m) (calls m).
Definition set_period_blocks (l : Periods) (m : StochasticModel) : StochasticModel :=
  mkStochastic (st_n_time_points m) (set_time m) (set_days m) (set_years m)
               (set_scenarios m) (set_period m) (scenario m) l (calls m).
Definition log (e : event) (m : StochasticModel) : StochasticModel :=
  mkStochastic (st_n_time_points m) (set_time m) (set_days m) (set_years m)
               (set_scenarios m) (set_period m) (scenario m) (period m) (calls m ++ [e]).

(** The set of time periods, by the four cases of the source. *)
Definition compose_set_period (m : StochasticModel) : list PeriodIndex :=
  match set_years m, set_days m with
  | Some years, Some days =>
      y ← years; d ← days; t ← set_time m; [idx_tdy t d y]
  | Some years, None => y ← years; t ← set_time m; [idx_ty t y]
  | None, Some days => d ← days; t ← set_time m; [idx_td t d]
  | None, None => t ← set_time m; [idx_t t]
  end.

(** Applying a callback to the contents of a block. *)
Definition on_user_model (f : U → U) (p : Period) : Period :=
  mkProcess (f (user_model p)) (active p) (link_constraints p) (periodic_constraints p).

(** The period container owning the blocks of scenario [s]. *)
Definition get_periods (s : option Z) (m : StochasticModel) : Periods :=
  match s with
  | None => period m
  | Some s => default [] (assoc_get s (scenario m))
  end.

Definition put_periods (s : option Z) (ps : Periods) (m : StochasticModel)
  : StochasticModel :=
  match s with
  | None => set_period_blocks ps m
  | Some s => set_scenario (assoc_alter (λ _, ps) s (scenario m)) m
  end.

(** [f(container.period[p])] for a callback mutating the block in place,
    recorded as the call [ev]. *)
Definition call_on_period (ev : event) (f : U → U) (s : option Z) (p : PeriodIndex)
  : Run StochasticModel unit :=
  modify (λ m,
    log ev (put_periods s (assoc_alter (on_user_model f) p (get_periods s m)) m)).

(** [_build_scenario_model(m)]: declare [m.period] over [set_period] and
    let the factory fill every member. *)
Definition _build_scenario_model (s : option Z) : Run StochasticModel unit :=
  set_defs ← get;
  modify (put_periods s ((λ i, (i, new_process empty_block)) <$> set_period set_defs));;
  for_each (set_period set_defs) (λ i,
    call_on_period (ev_create_period s i)
      (λ b, create_process_model b flowsheet_options) s i).

(** Every (scenario, period) slot, in the order of the source's loops. *)
Definition for_each_period (body : option Z → PeriodIndex → Run StochasticModel unit)
  : Run StochasticModel unit :=
  self ← get;
  match set_scenarios self with
  | Some scenarios =>
      for_each scenarios (λ s,
        m ← get; for_each (get_periods (Some s) m).*1 (body (Some s)))
  | None => m ← get; for_each (period m).*1 (body None)
  end.

Definition build_stochastic_multiperiod : Run StochasticModel unit :=
  self ← get;
  modify (set_set_period (Set_initialize (compose_set_period self)));;
  match set_scenarios self with
  | Some scenarios =>
      modify (set_scenario ((λ s, (s, [])) <$> scenarios));;
      for_each scenarios (λ i, _build_scenario_model (Some i))
  | None => _build_scenario_model None
  end;;
  (* Initialization routine *)
  match initialization_func with
  | None => mret ()
  | Some initialization_func =>
      let blk := empty_block in
      modify (log ev_create_instance);;
      let blk := create_process_model blk flowsheet_options in
      modify (log ev_initialize);;
      let blk := initialization_func blk initialization_options in
      modify (log ev_solve);;
      let '(blk, result) := solve blk in
      (if check_optimal_termination result then mret () else raise AssertionError);;
      (* Store the initialized model in [init_model] *)
      modify (log ev_to_json);;
      let init_model := to_json blk in
      (* Initialize the multiperiod optimization model *)
      for_each_period (λ s p,
        call_on_period (ev_from_json s p) (λ b, from_json b init_model) s p);;
      (* Unfix the degrees of freedom in each period model *)
      match unfix_dof_func with
      | None => mret ()
      | Some unfix_dof_func =>
          for_each_period (λ s p,
            call_on_period (ev_unfix_dof s p)
              (λ b, unfix_dof_func b unfix_dof_options) s p)
      end
  end.

(** All period containers of a model, one per scenario. *)
Definition all_periods (m : StochasticModel) : list (option Z * Periods) :=
  match set_scenarios m with
  | Some _ => (λ sp, (Some sp.1, sp.2)) <$> scenario m
  | None => [(None, period m)]
  end.

(** The sequential LinkEdges of a period container. *)
Definition period_sequential_edges (ps : Periods) : list (PeriodIndex * Constraint V) :=
  omap (λ ib, c ← link_constraints ib.2; Some (ib.1, c)) ps.

(** The adjacent index pairs of an ordered period sequence. *)
Definition adjacent_pairs {A} (l : list A) : list (A * A) := zip l (drop 1 l).

(** The block of period [p] in scenario [s]. *)
Definition period_block (s : option Z) (p : PeriodIndex) (m : StochasticModel)
  : option Period :=
  assoc_get p (get_periods s m).

(** A scenario is addressable when its container was declared; the keys
    of the scenario containers are distinct. *)
Definition valid_scenario (s : option Z) (m : StochasticModel) : Prop :=
  match s with
  | None => True
  | Some k => NoDup (scenario m).*1 ∧ is_Some (assoc_get k (scenario m))
  end.

(** The model after further calls [evs]. *)
Definition logs (evs : list event) (m : StochasticModel) : StochasticModel :=
  mkStochastic (st_n_time_points m) (set_time m) (set_days m) (set_years m)
               (set_scenarios m) (set_period m) (scenario m) (period m) (calls m ++ evs).

(** A container after a callback ran on the blocks of the indices [ps]. *)
Definition alter_in (ps : list PeriodIndex) (f : U → U) (X : Periods) : Periods :=
  (λ ib, if decide (ib.1 ∈ ps) then (ib.1, on_user_model f ib.2) else ib) <$> X.

(** *** What a stochastic build leaves

    Every (scenario, period) slot in loop order, and the model in which
    every period block has contents [u] and the calls [evs] were made. *)
Definition slots (scenarios : option (list Z)) (P : list PeriodIndex)
  : list (option Z * PeriodIndex) :=
  match scenarios with
  | Some scenarios => s ← scenarios; p ← P; [(Some s, p)]
  | None => p ← P; [(None, p)]
  end.

Definition uniform_periods (P : list PeriodIndex) (u : U) : Periods :=
  (λ p, (p, new_process u)) <$> P.

Definition uniform_model (m0 : StochasticModel) (P : list PeriodIndex) (u : U)
    (evs : list event) : StochasticModel :=
  mkStochastic (st_n_time_points m0) (set_time m0) (set_days m0) (set_years m0)
    (set_scenarios m0) P
    (match set_scenarios m0 with
     | Some scenarios => (λ s, (s, uniform_periods P u)) <$> scenarios
     | None => scenario m0
     end)
    (match set_scenarios m0 with
     | Some _ => period m0
     | None => uniform_periods P u
     end)
    evs.

End StochasticBuild.
End MultiPeriod.

(** ** [PriceTakerModel]: the representative-day clustering pipeline

    Prices are rationals: every finite float is one, and the code only
    compares and copies them.  Cluster weights are counts, kept as naturals
    (numpy holds them as floats). *)

Module PriceTaker.
Local Open Scope nat_scope.

Record PriceTakerModel : Set := mkPriceTaker {
  _seed : Z;
  _horizon_length : nat
}.

(** What a fitted [sklearn.cluster.KMeans] exposes. *)
Record KMeansFit : Set := mkFit {
  cluster_centers_ : list (list Q);
  labels_ : list nat;
  inertia_ : Q
}.

(** The literal [1e-4]. *)
Definition noise_threshold : Q := 1 # 10000.

(** A frame of daily columns: the column labels in order, each with its
    contents, [None] while nothing was assigned to it. *)
Definition DailyData : Type := list (nat * option (list Q)).

(** [pd.DataFrame(columns=day_list)] *)
Definition DataFrame_new (day_list : list nat) : DailyData :=
  (λ d, (d, None)) <$> day_list.

(** [df[day] = column]: replaces the column if the label exists, appends it
    otherwise. *)
Fixpoint DataFrame_setitem (df : DailyData) (day : nat) (column : list Q) : DailyData :=
  match df with
  | [] => [(day, Some column)]
  | (d, c) :: df' =>
      if decide (d = day) then (d, Some column) :: df'
      else (d, c) :: DataFrame_setitem df' day column
  end.

(** [l[i:j]] for [0 <= i], [0 <= j]. *)
Definition py_slice {A} (l : list A) (i j : nat) : list A := take (j - i) (drop i l).

(** The block of day [d] of a series cut in blocks of [h] samples (days
    count from 1): [raw_data[(d-1)*h : d*h]]. *)
Definition day_block (h : nat) (raw_data : list Q) (d : nat) : list Q :=
  py_slice raw_data ((d - 1) * h) (d * h).

(** The [while j <= len(raw_data)] loop of [generate_daily_data].  [None]
    when the fuel runs out. *)
Fixpoint generate_daily_loop (fuel : nat) (h : nat) (raw_data : list Q)
    (i j day : nat) (daily_data : DailyData) : option DailyData :=
  match fuel with
  | O => None
  | S fuel' =>
      if decide (j ≤ length raw_data) then
        generate_daily_loop fuel' h raw_data j (j + h) (day + 1)
          (DataFrame_setitem daily_data day (py_slice raw_data i j))
      else Some daily_data
  end.

(** [generate_daily_data]: with a positive horizon the loop makes at most
    [len(raw_data)] turns and one last test; with horizon [0] it never
    ends, whatever the fuel. *)
Definition generate_daily_data (self : PriceTakerModel) (raw_data : list Q)
    (day_list : list nat) : option DailyData :=
  generate_daily_loop (S (length raw_data)) (_horizon_length self) raw_data
    0 (_horizon_length self) 1 (DataFrame_new day_list).

(** [daily_data.transpose()] as the sample matrix given to [KMeans]: one row
    per day; a column that was never assigned holds no number. *)
Definition transpose (daily_data : DailyData) : result (list (list Q)) :=
  match mapM snd daily_data with
  | Some X => Ok X
  | None => Raise ValueError
  end.

(** The centroid clean-up of [cluster_lmp_data]:
    [if centroids[d][t] < 1e-4: centroids[d][t] = 0]. *)
Definition snap_entry (d t : nat) : Run (list (list Q)) unit := λ centroids,
  match centroids !! d with
  | None => (centroids, Raise IndexError)
  | Some row =>
      match row !! t with
      | None => (centroids, Raise IndexError)
      | Some x =>
          if Qlt_le_dec x noise_threshold
          then (<[d := <[t := 0%Q]> row]> centroids, Ok ())
          else (centroids, Ok ())
      end
  end.

(** What the clean-up does to one value, and to a centroid row when it has
    walked over it: the entries at [0 .. 23] are cleaned, the rest is as it
    was. *)
Definition snap (x : Q) : Q := if Qlt_le_dec x noise_threshold then 0%Q else x.

Definition snap_row (row : list Q) : list Q := (snap <$> take 24 row) ++ drop 24 row.

(** [for d in range(n_clusters): for t in range(24): ...] *)
Definition snap_centroids (n_clusters : nat) : Run (list (list Q)) unit :=
  for_each (seq 0 n_clusters) (λ d, for_each (seq 0 24) (λ t, snap_entry d t)).

(** The weight loop: [weights_counter[k] += 1] whenever [labels[j] == k]. *)
Definition count_weights (n_clusters : nat) (labels : list nat) : list nat :=
  foldl (λ weights_counter label,
           foldl (λ w k, if decide (label = k) then alter S k w else w)
                 weights_counter (seq 0 n_clusters))
        (replicate n_clusters 0) labels.

(** The sum of the weights of a returned [weights] dictionary
    [{0: {1: w1, ..., k: wk}}]. *)
Definition total_weight (n_clusters : nat) (weights : gmap nat (gmap nat nat)) : nat :=
  sum_list ((λ d, default 0 (weights !! 0 ≫= λ w, w !! d)) <$> seq 1 n_clusters).

Section Clustering.

(** [L]: column labels of the raw price table; [RNG]: states of numpy's
    global random generator. *)
Context {L : Type} `{EqDecision L}.
Context {RNG : Type}.

(** [np.random.seed(s)]: the state the global generator is set to. *)
Variable np_random_seed : Z → RNG.
(** [KMeans(n_clusters=k).fit(X)]: no [random_state] is passed, so the fit
    draws from the global generator and advances it. *)
Variable KMeans_fit : nat → list (list Q) → Run RNG KMeansFit.
(** [KneeLocator(x, y, curve="convex", direction="decreasing").knee]:
    [None] when the curve has no knee. *)
Variable KneeLocator_knee : list nat → list Q → option nat.

(** The raw price table: labelled columns of equal length. *)
Definition DataFrame : Type := list (L * list Q).

(** [len(raw_data)]: the number of rows. *)
Definition DataFrame_len (raw_data : DataFrame) : nat :=
  match raw_data with
  | [] => 0
  | (_, column) :: _ => length column
  end.

(** In a frame every column has the frame's number of rows. *)
Definition DataFrame_wf (raw_data : DataFrame) : Prop :=
  ∀ column, column ∈ raw_data → length column.2 = DataFrame_len raw_data.

(** [raw_data[i]] *)
Definition DataFrame_getitem (raw_data : DataFrame) (i : L) : result (list Q) :=
  match list_find (λ c, c.1 = i) raw_data with
  | Some (_, (_, column)) => Ok column
  | None => Raise KeyError
  end.

Definition reconfigure_raw_data (self : PriceTakerModel) (raw_data : DataFrame)
  : result (DailyData * list L) :=
  let column_head := raw_data.*1 in
  let scenarios := drop 2 column_head in
  if decide (_horizon_length self = 0) then Raise ZeroDivisionError else
  let day_list := seq 1 (DataFrame_len raw_data / _horizon_length self) in
  match take 1 scenarios with
  | [] => Raise UnboundLocalError
  | i :: _ =>
      match DataFrame_getitem raw_data i with
      | Raise e => Raise e
      | Ok column =>
          match generate_daily_data self column day_list with
          | Some daily_data => Ok (daily_data, scenarios)
          | None => Raise Diverges
          end
      end
  end.

(** The inertia loop of [get_optimal_n_clusters]. *)
Fixpoint inertia_loop (daily_data : DailyData) (k_values : list nat)
    (inertia_values : list Q) : Run RNG (list Q) :=
  match k_values with
  | [] => mret inertia_values
  | k :: k_values' =>
      X ← lift (transpose daily_data);
      kmeans ← KMeans_fit k X;
      inertia_loop daily_data k_values' (inertia_values ++ [inertia_ kmeans])
  end.

(** [get_optimal_n_clusters]; the warnings, the print and the plot do not
    change what is returned or raised. *)
Definition get_optimal_n_clusters (self : PriceTakerModel) (daily_data : DailyData)
    (kmin kmax : option nat) : Run RNG (nat * list Q) :=
  let kmin := default 4 kmin in
  let kmax := default 30 kmax in
  let k_values := seq kmin (kmax - kmin) in
  modify (λ _, np_random_seed (_seed self));;
  inertia_values ← inertia_loop daily_data k_values [];
  let n_clusters := KneeLocator_knee k_values inertia_values in
  match n_clusters with
  | None => raise TypeError     (* [None + 2 >= kmax] *)
  | Some n_clusters => mret (n_clusters, inertia_values)
  end.

Definition cluster_lmp_data (self : PriceTakerModel) (raw_data : DataFrame)
    (n_clusters : nat)
  : Run RNG (gmap nat (gmap nat Q) * gmap nat (gmap nat nat)) :=
  '(daily_data, scenarios) ← lift (reconfigure_raw_data self raw_data);
  X ← lift (transpose daily_data);
  kmeans ← KMeans_fit n_clusters X;
  let centroids := cluster_centers_ kmeans in
  let labels := labels_ kmeans in
  centroids ← lift (match snap_centroids n_clusters centroids with
                    | (centroids, Ok _) => Ok centroids
                    | (_, Raise e) => Raise e
                    end);
  let weights_counter := count_weights n_clusters labels in
  (* [pd.DataFrame(centroids.transpose(), columns=range(1, n_clusters+1))] *)
  (if decide (length centroids = n_clusters) then mret () else raise ValueError);;
  let lmp_data := map_seq 1 (map_seq 0 <$> centroids) in
  let weights := {[ 0 := map_seq 1 weights_counter ]} in
  mret (lmp_data, weights).

End Clustering.
End PriceTaker.

(** ** Small instances of the external collaborators, for the examples *)

Module Demo.
Import MultiPeriod.
Local Open Scope Z_scope.

(** A process model with one variable, named by the keyword argument it
    was built from; consecutive periods are linked on that variable. *)
Definition demo_create (label : Z) : Z := label.
Definition demo_link (b1 b2 : @Process Z Z) : list (Z * Z) :=
  [(user_model b1, user_model b2)].

Definition demo_build (n : Z)
    (periodic : option (@Process Z Z → @Process Z Z → list (Z * Z)))
    (model_data_kwargs : option (gmap Z Z)) : @MultiPeriodModel Z Z * result unit :=
  build_multi_period_model 0 demo_create demo_link periodic model_data_kwargs (init n).

Definition demo_advance
    (periodic : option (@Process Z Z → @Process Z Z → list (Z * Z)))
    (label : Z) (m : @MultiPeriodModel Z Z) : @MultiPeriodModel Z Z * result unit :=
  advance_time demo_create demo_link periodic label m.

(** A flowsheet whose contents are one number; building adds the option,
    the solver doubles it, the snapshot is the number itself. *)
Definition demo_stochastic_build (optimal : bool) (n : Z)
    (days years scenarios : option (list Z))
  : @StochasticModel Z Z * result unit :=
  build_stochastic_multiperiod (V := Z) 0 (λ b o, b + o)
    (Some (λ b o, b + o)) (Some (λ b o, b + o)) 1 10 100
    (λ b, (2 * b, optimal)) (λ r, r) (λ b, b) (λ _ j, j)
    (stochastic_init n days years scenarios).

Import PriceTaker.
Local Open Scope nat_scope.

(** A stand-in for k-means that keeps what matters here: the first [k]
    samples are the centers, numbered from a position drawn from the
    generator, and each fit advances the generator. *)
Definition demo_KMeans (k : nat) (X : list (list Q)) : Run nat KMeansFit := λ g,
  if decide (k = 0 ∨ length X < k) then (g, Raise ValueError)
  else
    let r := g mod k in
    (S g, Ok (mkFit (rotate r (take k X))
                    ((λ i, (i + k - r) mod k) <$> seq 0 (length X))
                    0%Q)).

Definition demo_cluster (h : nat) (raw_data : list (nat * list Q)) (k : nat)
  : Run nat (gmap nat (gmap nat Q) * gmap nat (gmap nat nat)) :=
  cluster_lmp_data demo_KMeans (mkPriceTaker 20 h) raw_data k.

(** A price table: a date column, an hour column and one price column. *)
Definition demo_table (prices : list Q) : list (nat * list Q) :=
  [(0, (λ _, 0%Q) <$> prices); (1, (λ _, 0%Q) <$> prices); (2, prices)].

(** Two days of 24 hourly prices: a day at 30 and a day at 50. *)
Definition two_days : list Q := replicate 24 (30 # 1)%Q ++ replicate 24 (50 # 1)%Q.

(** One day of 25 samples whose last price is [1e-5]. *)
Definition long_day : list Q := replicate 24 (30 # 1)%Q ++ [(1 # 100000)%Q].
End Demo.

(** ** Views used to state further properties *)

Module Views.
Import Pyomo.
Import MultiPeriod.

(** The indices a stochastic build of [n] time points declares, for the
    day and year sets given to the constructor. *)
Definition period_member (n : Z) (days years : option (list Z)) (p : PeriodIndex) : Prop :=
  match p, days, years with
  | idx_t t, None, None => 1 ≤ t ≤ n
  | idx_td t d, Some days, None => 1 ≤ t ≤ n ∧ d ∈ days
  | idx_ty t y, None, Some years => 1 ≤ t ≤ n ∧ y ∈ years
  | idx_tdy t d y, Some days, Some years => 1 ≤ t ≤ n ∧ d ∈ days ∧ y ∈ years
  | _, _, _ => False
  end.

(** The prices of one year, keyed by hour and year. *)
Definition year_prices (N y : Z) (prices : list Q) : list (PeriodIndex * Q) :=
  zip ((λ t, idx_ty t y) <$> seqZ 1 N) prices.

Section ClusteringViews.
Import PriceTaker.
Context {RNG : Type}.
Variable KMeans_fit : nat → list (list Q) → Run RNG KMeansFit.

(** Fits of the sample matrix [X] for the cluster counts [ks], one after
    the other, each starting from the generator state the one before
    left: their inertias, in order. *)
Inductive fits_chain (X : list (list Q)) : RNG → list nat → list Q → RNG → Prop :=
| fits_nil g : fits_chain X g [] [] g
| fits_cons g g1 g' k ks fit vs :
    KMeans_fit k X g = (g1, Ok fit) →
    fits_chain X g1 ks vs g' →
    fits_chain X g (k :: ks) (inertia_ fit :: vs) g'.

(** The shapes of what k-means returns: one centre per cluster, each
    with as many entries as a sample has. *)
Definition KMeans_shapes : Prop :=
  ∀ k X g0 g1 fit, KMeans_fit k X g0 = (g1, Ok fit) →
    length (cluster_centers_ fit) = k
    ∧ Forall (λ row, ∃ x, x ∈ X ∧ length row = length x) (cluster_centers_ fit).
End ClusteringViews.

End Views.

(** ** [PriceTakerModel]: the constructor and the two properties *)

Module PriceTakerProperties.
Import Pyomo.
Import PriceTaker.

(** [__init__(self, seed=20, horizon_length=24)]: both arguments are
    stored as given. *)
Definition __init__ (seed : option Z) (horizon_length : option nat) : PriceTakerModel :=
  mkPriceTaker (default 20 seed) (default 24%nat horizon_length).

(** The [seed] property and its setter. *)
Definition seed (self : PriceTakerModel) : Z := _seed self.

Definition seed_setter (value : Z) : Run PriceTakerModel unit :=
  modify (λ self, mkPriceTaker value (_horizon_length self)).

(** The [horizon_length] property and its setter, which refuses
    [value <= 0]. *)
Definition horizon_length (self : PriceTakerModel) : nat := _horizon_length self.

Definition horizon_length_setter (value : Z) : Run PriceTakerModel unit := λ self,
  if decide (value ≤ 0) then (self, Raise ValueError)
  else (mkPriceTaker (_seed self) (Z.to_nat value), Ok ()).

End PriceTakerProperties.

(** ** [PriceTakerModel.append_lmp_data] and [build_multiperiod_model]

    The price table is what [pd.read_excel(...)[sheet]] returns; reading
    the file is external.  The attributes the two methods assign on
    [self] are fields that are [Unset] until assigned; the theorems are
    about a model on which these names were not assigned before.  A Python
    [dict] is kept in insertion order. *)

Module PriceTakerSetup.
Import Pyomo.
Import MultiPeriod PriceTaker.

Inductive attr (A : Type) : Type :=
| Unset
| Value (a : A).
Arguments Unset {A}.
Arguments Value {A} a.

(** The keys of [self.WEIGHTS]: [d] or [(d, y)]. *)
Inductive WeightIndex : Set :=
| wt_d (d : Z)
| wt_dy (d y : Z).

Global Instance WeightIndex_eq_dec : EqDecision WeightIndex.
Proof. solve_decision. Defined.

(** [column_name]: one label, or a list of labels. *)
Inductive ColumnName (L : Type) : Type :=
| col_one (c : L)
| col_list (l : list L).
Arguments col_one {L} c.
Arguments col_list {L} l.

(** [d[k] = v] on a dict. *)
Fixpoint dict_setitem {A B} `{EqDecision A} (d : list (A * B)) (k : A) (v : B)
  : list (A * B) :=
  match d with
  | [] => [(k, v)]
  | (k', v') :: d' =>
      if decide (k' = k) then (k', v) :: d' else (k', v') :: dict_setitem d' k v
  end.

(** [[f(x) for x in l]]: the first exception ends the comprehension. *)
Fixpoint comprehension {A B} (f : A → result B) (l : list A) : result (list B) :=
  match l with
  | [] => Ok []
  | x :: l' =>
      match f x with
      | Raise e => Raise e
      | Ok y =>
          match comprehension f l' with
          | Raise e => Raise e
          | Ok ys => Ok (y :: ys)
          end
      end
  end.

(** [RangeSet(a, b)]: the integers [a..b]. *)
Definition RangeSet_from (a b : Z) : list Z := seqZ a (b - a + 1).

(** [l[i]] on a list, or on a [Series] with the default index, for
    [0 <= i]. *)
Definition list_getitem {A} (l : list A) (i : Z) : result A :=
  if decide (0 ≤ i) then
    match l !! Z.to_nat i with
    | Some a => Ok a
    | None => Raise IndexError
    end
  else Raise IndexError.

Definition Series_getitem {A} (l : list A) (i : Z) : result A :=
  if decide (0 ≤ i) then
    match l !! Z.to_nat i with
    | Some a => Ok a
    | None => Raise KeyError
    end
  else Raise KeyError.

(** [d[i][j]] on a dict of dicts with natural keys. *)
Definition getitem2 {A} (d : gmap nat (gmap nat A)) (i j : Z) : result A :=
  if decide (0 ≤ i ∧ 0 ≤ j) then
    match d !! Z.to_nat i ≫= (λ row, row !! Z.to_nat j) with
    | Some a => Ok a
    | None => Raise KeyError
    end
  else Raise KeyError.

Section AppendLmpData.

(** [F]: what designates the sheet to read ([file_path], [file_name],
    [sheet]); [L]: column labels; [RNG]: states of numpy's generator;
    [U], [V] and the option and result types: as for the stochastic build. *)
Context {F L : Type} `{EqDecision L}.
Context {RNG : Type}.
Context {U V FO IO UO SR J : Type}.

Variable read_excel : F → result (@DataFrame L).
(** [int(y)] on a label: [ValueError] when it is no number. *)
Variable int : L → result Z.
Variable KMeans_fit : nat → list (list Q) → Run RNG KMeansFit.

(** The keyword arguments [build_multiperiod_model] hands on to
    [MultiPeriodModel]. *)
Variable empty_block : U.
Variable process_model_func : U → FO → U.
Variable initialization_func : option (U → IO → U).
Variable unfix_dof_func : option (U → UO → U).
Variable flowsheet_options : FO.
Variable initialization_options : IO.
Variable unfix_dof_options : UO.
Variable solve : U → U * SR.
Variable check_optimal_termination : SR → bool.
Variable to_json : U → J.
Variable from_json : U → J → U.

Record PriceTaker : Type := mkPT {
  base : PriceTakerModel;          (* [_seed] and [_horizon_length] *)
  set_years : attr (option (list Z));
  set_days : attr (option (list Z));
  _n_time_points : attr Z;
  set_time : attr (list Z);
  LMP : attr (list (PeriodIndex * Q));
  WEIGHTS : attr (list (WeightIndex * nat));
  mp_model : attr (@StochasticModel U V)
}.

(** The object [PriceTakerModel(seed, horizon_length)] returns. *)
Definition new_model (self : PriceTakerModel) : PriceTaker :=
  mkPT self Unset Unset Unset Unset Unset Unset Unset.

Definition set_set_years (v : option (list Z)) (s : PriceTaker) : PriceTaker :=
  mkPT (base s) (Value v) (set_days s) (_n_time_points s) (set_time s) (LMP s)
       (WEIGHTS s) (mp_model s).
Definition set_set_days (v : option (list Z)) (s : PriceTaker) : PriceTaker :=
  mkPT (base s) (set_years s) (Value v) (_n_time_points s) (set_time s) (LMP s)
       (WEIGHTS s) (mp_model s).
Definition set_n_time_points (v : Z) (s : PriceTaker) : PriceTaker :=
  mkPT (base s) (set_years s) (set_days s) (Value v) (set_time s) (LMP s)
       (WEIGHTS s) (mp_model s).
Definition set_set_time (v : list Z) (s : PriceTaker) : PriceTaker :=
  mkPT (base s) (set_years s) (set_days s) (_n_time_points s) (Value v) (LMP s)
       (WEIGHTS s) (mp_model s).
Definition set_LMP (v : list (PeriodIndex * Q)) (s : PriceTaker) : PriceTaker :=
  mkPT (base s) (set_years s) (set_days s) (_n_time_points s) (set_time s) (Value v)
       (WEIGHTS s) (mp_model s).
Definition set_WEIGHTS (v : list (WeightIndex * nat)) (s : PriceTaker) : PriceTaker :=
  mkPT (base s) (set_years s) (set_days s) (_n_time_points s) (set_time s) (LMP s)
       (Value v) (mp_model s).
Definition set_mp_model (v : @StochasticModel U V) (s : PriceTaker) : PriceTaker :=
  mkPT (base s) (set_years s) (set_days s) (_n_time_points s) (set_time s) (LMP s)
       (WEIGHTS s) (Value v).

(** The state the methods run in: the object and numpy's generator. *)
Definition State : Type := PriceTaker * RNG.

(** [self.name = v] *)
Definition setattr (f : PriceTaker → PriceTaker) : Run State unit :=
  modify (λ s, (f s.1, s.2)).

(** [self.name]: [AttributeError] while the name was not assigned. *)
Definition getattr {A} (name : PriceTaker → attr A) : Run State A := λ s,
  match name s.1 with
  | Value a => (s, Ok a)
  | Unset => (s, Raise AttributeError)
  end.

Definition with_rng {A} (c : Run RNG A) : Run State A := λ s,
  let '(g, r) := c s.2 in ((s.1, g), r).

(** [self.LMP[k] = x] and [self.WEIGHTS[k] = w] *)
Definition LMP_setitem (k : PeriodIndex) (x : Q) : Run State unit :=
  lmp ← getattr LMP; setattr (set_LMP (dict_setitem lmp k x)).

Definition WEIGHTS_setitem (k : WeightIndex) (w : nat) : Run State unit :=
  weights ← getattr WEIGHTS; setattr (set_WEIGHTS (dict_setitem weights k w)).

(** What [append_lmp_data] hands to [cluster_lmp_data]: the table, or one
    column of it.  A column is a [Series], which has no attribute
    [columns]: [reconfigure_raw_data] raises on its first line. *)
Inductive PriceData : Type :=
| Frame (raw_data : @DataFrame L)
| Series (raw_data : list Q).

Definition cluster_lmp_data_on (self : PriceTakerModel) (raw_data : PriceData)
    (n_clusters : nat)
  : Run RNG (gmap nat (gmap nat Q) * gmap nat (gmap nat nat)) :=
  match raw_data with
  | Series _ => raise AttributeError
  | Frame raw_data => cluster_lmp_data KMeans_fit self raw_data n_clusters
  end.

(** [append_lmp_data(file_path, file_name, sheet, column_name, n_clusters,
    horizon_length)].  The third argument of [cluster_lmp_data] is
    [horizon_length]; the callee overwrites it before reading it. *)
Definition append_lmp_data (file : F) (column_name : ColumnName L)
    (n_clusters : option nat) (horizon_length : option Z) : Run State unit :=
  full_data ← lift (read_excel file);
  match column_name, n_clusters with
  | col_list column_name, Some n_clusters =>
      (* Multiple years and representative days *)
      years ← lift (comprehension int column_name);
      setattr (set_set_years (Some years));;
      let days := RangeSet_from 1 (Z.of_nat n_clusters) in
      setattr (set_set_days (Some days));;
      let n_time_points := default 24 horizon_length in
      setattr (set_n_time_points n_time_points);;
      let time := RangeSet n_time_points in
      setattr (set_set_time time);;
      setattr (set_LMP []);;
      setattr (set_WEIGHTS []);;
      for_each column_name (λ year,
        price_data ← lift (DataFrame_getitem full_data year);
        self ← get;
        '(lmp_data, weights) ←
          with_rng (cluster_lmp_data_on (base self.1) (Series price_data) n_clusters);
        y ← lift (int year);
        for_each days (λ d,
          for_each time (λ t,
            x ← lift (getitem2 lmp_data d t);
            LMP_setitem (idx_tdy t d y) x;;
            w ← lift (getitem2 weights 0 d);
            WEIGHTS_setitem (wt_dy d y) w)))
  | col_list column_name, None =>
      (* Multiple years, use fullyear price signal for each year *)
      years ← lift (comprehension int column_name);
      setattr (set_set_years (Some years));;
      setattr (set_set_days None);;
      let n_time_points := Z.of_nat (DataFrame_len full_data) in
      setattr (set_n_time_points n_time_points);;
      let time := RangeSet n_time_points in
      setattr (set_set_time time);;
      setattr (set_LMP []);;
      for_each column_name (λ year,
        price_data ← lift (DataFrame_getitem full_data year);
        y ← lift (int year);
        for_each time (λ t,
          x ← lift (Series_getitem price_data (t - 1));
          LMP_setitem (idx_ty t y) x))
  | col_one column_name, Some n_clusters =>
      (* Single price signal, use representative days *)
      setattr (set_set_years None);;
      let days := RangeSet_from 1 (Z.of_nat n_clusters) in
      setattr (set_set_days (Some days));;
      let n_time_points := default 24 horizon_length in
      setattr (set_n_time_points n_time_points);;
      let time := RangeSet (n_time_points - 1) in
      setattr (set_set_time time);;
      setattr (set_LMP []);;
      setattr (set_WEIGHTS []);;
      self ← get;
      '(lmp_data, weights) ←
        with_rng (cluster_lmp_data_on (base self.1) (Frame full_data) n_clusters);
      for_each days (λ d,
        for_each time (λ t,
          x ← lift (getitem2 lmp_data d t);
          LMP_setitem (idx_td t d) x;;
          w ← lift (getitem2 weights 0 d);
          WEIGHTS_setitem (wt_d d) w))
  | col_one column_name, None =>
      (* Single price signal, use full year's price signal *)
      setattr (set_set_years None);;
      setattr (set_set_days None);;
      let n_time_points := Z.of_nat (DataFrame_len full_data) in
      setattr (set_n_time_points n_time_points);;
      let time := RangeSet n_time_points in
      setattr (set_set_time time);;
      price_data ← lift (DataFrame_getitem full_data column_name);
      lmp ← lift (comprehension
                    (λ t, match list_getitem price_data (t - 1) with
                          | Ok x => Ok (idx_t t, x)
                          | Raise e => Raise e
                          end) time);
      setattr (set_LMP (foldl (λ d kv, dict_setitem d kv.1 kv.2) [] lmp))
  end.

(** [build_multiperiod_model]: the stochastic build of a
    [MultiPeriodModel] over the sets [append_lmp_data] stored;
    [set_scenarios] is among the keyword arguments. *)
Definition build_multiperiod_model (set_scenarios : option (list Z)) : Run State unit :=
  n_time_points ← getattr _n_time_points;
  days ← getattr set_days;
  years ← getattr set_years;
  match build_stochastic_multiperiod empty_block process_model_func initialization_func
          unfix_dof_func flowsheet_options initialization_options unfix_dof_options
          solve check_optimal_termination to_json from_json
          (stochastic_init n_time_points days years set_scenarios) with
  | (m, Ok _) => setattr (set_mp_model m)
  | (_, Raise e) => raise e
  end.

End AppendLmpData.
End PriceTakerSetup.

(** ** [deepgetattr]

    [reduce(getattr, attr.split('.'), obj)]: the attribute path is cut at
    every dot and followed from [obj].  Objects and their attributes are
    those of the caller: [getattr] is a [Variable]. *)

Module DeepGetAttr.
Import Pyomo.
Import String Ascii.

(** [s.split('.')]: the pieces between the dots; never the empty list. *)
Fixpoint split_dot (s : string) : list string :=
  match s with
  | EmptyString => [EmptyString]
  | String c s' =>
      if Ascii.eqb c "."%char then EmptyString :: split_dot s'
      else
        match split_dot s' with
        | [] => [String c EmptyString]
        | piece :: pieces => String c piece :: pieces
        end
  end.

(** [functools.reduce(f, l, init)] for an [f] that may raise. *)
Fixpoint reduce {A B} (f : A → B → result A) (l : list B) (init : A) : result A :=
  match l with
  | [] => Ok init
  | x :: l' =>
      match f init x with
      | Ok a => reduce f l' a
      | Raise e => Raise e
      end
  end.

Section DeepGetAttr.
Context {O : Type}.
Variable getattr : O → string → result O.

Definition deepgetattr (obj : O) (attr : string) : result O :=
  reduce getattr (split_dot attr) obj.

End DeepGetAttr.

(** A name holds no dot. *)
Fixpoint dotless (s : string) : bool :=
  match s with
  | EmptyString => true
  | String c s' => negb (Ascii.eqb c "."%char) && dotless s'
  end.

End DeepGetAttr.

(** ** [plot_lmp_signal] and [plot_lmp_and_schedule]

    The calls made to matplotlib are recorded in order.  The arguments
    whose type the code does not fix ([time], the ranges, the labels) are
    values of the caller with the operations the code applies to them;
    [None] is Python's [None]. *)

Module Plotting.
Import Pyomo.
Import String.
Local Abbreviation length := List.length.

(** What a call raises: a built-in exception, or [Exception(...)]. *)
Inductive raised : Set :=
| Builtin (e : exn)
| Exception.

Inductive outcome (A : Type) : Type :=
| Done (a : A)
| Raised (e : raised).
Arguments Done {A} a.
Arguments Raised {A} e.

Inductive axis : Set := ax | ax1.

Section Plots.

(** [K]: keys of the [lmp] and [schedule] dicts; [T]: time data given by
    the caller; [R]: a range argument; [B]: a bound taken from a range;
    [YL]: the [y_label] dict. *)
Context {K T R B YL : Type}.
Variable str : K → string.
(** [time[i]] *)
Variable time_getitem : T → K → result T.
(** [r[0]], [r[1]] on a range *)
Variable range_index : R → Z → result B.
(** [i in r] for a key and for a number, and [r[i]] for a key *)
Variable range_contains : R → K → result bool.
Variable range_contains_int : R → Z → result bool.
Variable range_getitem : R → K → result R.
(** [k in y_label] and [y_label[k]] *)
Variable label_contains : YL → K → result bool.
Variable label_getitem : YL → K → result string.

(** The x data of a curve: the list [[1, ..., n]] the code makes, or the
    caller's. *)
Inductive xdata : Type :=
| x_count (n : nat)
| x_given (t : T).

Inductive call : Type :=
| figure
| add_subplot (nrows ncols index : Z)
| plot (a : axis) (x : xdata) (y : list Q) (color drawstyle : string)
| set_xlabel (label : string)
| set_ylabel (a : axis) (label : string) (color : option string)
| set_title (title : string)
| set_xlim (lo hi : B)
| set_ylim (a : axis) (lo hi : B)
| tick_params (a : axis) (labelcolor : string)
| twinx
| tight_layout
| show.

(** A computation that records calls and may raise. *)
Definition Plot (A : Type) : Type := list call → list call * outcome A.

Definition ret {A} (a : A) : Plot A := λ log, (log, Done a).
Definition bind {A C} (c : Plot A) (f : A → Plot C) : Plot C := λ log,
  match c log with
  | (log', Done a) => f a log'
  | (log', Raised e) => (log', Raised e)
  end.
Definition throw {A} (e : raised) : Plot A := λ log, (log, Raised e).
Definition record (c : call) : Plot unit := λ log, (log ++ [c], Done ()).
Definition try {A} (r : result A) : Plot A := λ log,
  match r with
  | Ok a => (log, Done a)
  | Raise e => (log, Raised (Builtin e))
  end.

Notation "x ← c ; f" := (bind c (λ x, f))
  (at level 20, c at level 100, f at level 200, only parsing).
Notation "c ;; f" := (bind c (λ _, f))
  (at level 100, f at level 200, only parsing, right associativity).

Fixpoint each {A} (l : list A) (body : A → Plot unit) : Plot unit :=
  match l with
  | [] => ret ()
  | x :: l' => body x ;; each l' body
  end.

(** [r[i]] where [r] may be [None]: [TypeError] on [None]. *)
Definition index_opt (r : option R) (i : Z) : Plot B :=
  match r with
  | None => throw (Builtin TypeError)
  | Some r => try (range_index r i)
  end.

(** The literal [grid_shape] dicts, up to [limit] entries. *)
Definition grid_shape (limit : nat) (n : nat) : result (Z * Z) :=
  if decide (limit < n)%nat then Raise KeyError else
  match n with
  | 1%nat => Ok (1, 1)
  | 2%nat => Ok (1, 2)
  | 3%nat => Ok (2, 2)
  | 4%nat => Ok (2, 2)
  | 5%nat => Ok (2, 3)
  | 6%nat => Ok (2, 3)
  | _ => Raise KeyError
  end%Z.

(** The argument [lmp] of [plot_lmp_signal]: a list, a dict of lists, or
    of another type. *)
Inductive lmp_arg : Type :=
| lmp_list (l : list Q)
| lmp_dict (d : list (K * list Q))
| lmp_other.

(** One subplot's data, as the dicts [plt_time], [plt_lmp], [plt_title],
    [color], [plt_x_range] and [plt_y_range] hold it under its number. *)
Record subplot : Type := mkSubplot {
  sp_time : xdata;
  sp_lmp : list Q;
  sp_title : string;
  sp_color : string
}.

(** The loop of the dict branch of [plot_lmp_signal].  The names
    [plt_x_range] and [plt_y_range] are bound in the list branch only: the
    store [plt_x_range[counter] = ...] evaluates its right-hand side and
    then raises [UnboundLocalError]. *)
Definition signal_dict_body (time : option T) (x_range y_range : option R)
    (i : K) (signal : list Q) : Plot subplot :=
  t ← match time with
      | None => ret (x_count (length signal))
      | Some time => t ← try (time_getitem time i); ret (x_given t)
      end;
  (* [plt_x_range[counter] = (None if i not in x_range else x_range[i])] *)
  (match x_range with
   | None => throw (A := unit) (Builtin TypeError)
   | Some r =>
       b ← try (range_contains r i);
       (if b : bool then (try (range_getitem r i);; ret ()) else ret ());;
       throw (A := unit) (Builtin UnboundLocalError)
   end);;
  (* [plt_y_range[counter] = (None if i not in y_range else y_range[i])] *)
  (match y_range with
   | None => throw (A := unit) (Builtin TypeError)
   | Some r =>
       b ← try (range_contains r i);
       (if b : bool then (try (range_getitem r i);; ret ()) else ret ());;
       throw (A := unit) (Builtin UnboundLocalError)
   end);;
  ret (mkSubplot t signal (str i) "tab:red"%string).

Fixpoint signal_dict_loop (time : option T) (x_range y_range : option R)
    (d : list (K * list Q)) : Plot (list subplot) :=
  match d with
  | [] => ret []
  | (i, signal) :: d' =>
      sp ← signal_dict_body time x_range y_range i signal;
      sps ← signal_dict_loop time x_range y_range d';
      ret (sp :: sps)
  end.

(** The drawing loop of [plot_lmp_signal].  [ranges] is [None] when
    [plt_x_range] and [plt_y_range] are unbound; otherwise they hold
    [x_range] and [y_range] under the number 1. *)
Definition signal_draw (grid : Z * Z) (draw_style : string)
    (ranges : option (option R * option R)) (y_range : option R)
    (subplots : list subplot) : Plot unit :=
  record figure;;
  each (zip (seqZ 1 (Z.of_nat (length subplots))) subplots) (λ isp,
    let i := isp.1 in
    let sp := isp.2 in
    record (add_subplot grid.1 grid.2 i);;
    record (plot ax (sp_time sp) (sp_lmp sp) (sp_color sp) draw_style);;
    record (set_xlabel "time (hr)"%string);;
    record (set_ylabel ax "LMP ($/MWh)"%string None);;
    record (set_title (sp_title sp));;
    (* [if plt_x_range is not None:] *)
    (match ranges with
     | None => throw (Builtin UnboundLocalError)
     | Some (plt_x_range, _) =>
         lo ← index_opt plt_x_range 0;
         hi ← index_opt plt_x_range 1;
         record (set_xlim lo hi)
     end);;
    (* [if y_range is not None and i in y_range:] *)
    match y_range with
    | None => ret ()
    | Some r =>
        b ← try (range_contains_int r i);
        if b : bool then
          match ranges with
          | None => throw (Builtin UnboundLocalError)
          | Some (_, plt_y_range) =>
              lo ← index_opt plt_y_range 0;
              hi ← index_opt plt_y_range 1;
              record (set_ylim ax lo hi)
          end
        else ret ()
    end);;
  record tight_layout;;
  record show.

Definition plot_lmp_signal (lmp : lmp_arg) (time : option T) (draw_style : string)
    (x_range y_range : option R) (grid : option (Z * Z)) : Plot unit :=
  match lmp with
  | lmp_list l =>
      let grid := (1, 1) in
      let plt_time := match time with
                      | None => x_count (length l)
                      | Some time => x_given time
                      end in
      signal_draw grid draw_style (Some (x_range, y_range)) y_range
        [mkSubplot plt_time l ""%string "tab:red"%string]
  | lmp_dict d =>
      (if decide (6 < length d)%nat then throw Exception else ret ());;
      grid ← match grid with
             | None => try (grid_shape 6 (length d))
             | Some grid => ret grid
             end;
      subplots ← signal_dict_loop time x_range y_range d;
      signal_draw grid draw_style None y_range subplots
  | lmp_other =>
      (* [len(plt_lmp)] after [plt.figure()] *)
      record figure;;
      throw (Builtin UnboundLocalError)
  end.

(** [plot_lmp_and_schedule]: the colours of the schedule curves, by
    subplot number. *)
Definition default_colors : list string :=
  ["tab:blue"; "magenta"; "tab:green"; "tab:cyan"]%string.

Definition color_getitem (plt_color : list string) (i : Z) : result string :=
  if decide (1 ≤ i)%Z then
    match plt_color !! Z.to_nat (i - 1) with
    | Some c => Ok c
    | None => Raise KeyError
    end
  else Raise KeyError.

Definition plot_lmp_and_schedule {CK : Type} (lmp : option (list Q))
    (schedule : option (list (K * list Q))) (time : option T) (y_label : option YL)
    (x_range lmp_range y_range : option R) (x_label lmp_label : string)
    (color : option (list (CK * string))) (draw_style : string)
    (grid : option (Z * Z)) : Plot unit :=
  match lmp with
  | None => throw Exception
  | Some lmp =>
  match schedule with
  | None => throw Exception
  | Some schedule =>
      (if decide (4 < length schedule)%nat then throw Exception else ret ());;
      let key_list := schedule in
      let time := match time with
                  | None => x_count (length lmp)
                  | Some time => x_given time
                  end in
      grid ← match grid with
             | None => try (grid_shape 4 (length schedule))
             | Some grid => ret grid
             end;
      let lmp_color := "tab:red"%string in
      let plt_color := match color with
                       | None => default_colors
                       | Some color => color.*2
                       end in
      record figure;;
      each (zip (seqZ 1 (Z.of_nat (length schedule))) key_list) (λ ikv,
        let i := ikv.1 in
        let key := ikv.2.1 in
        let profile := ikv.2.2 in
        record (add_subplot grid.1 grid.2 i);;
        record (set_xlabel x_label);;
        record (set_ylabel ax lmp_label (Some lmp_color));;
        record (plot ax time lmp lmp_color "steps"%string);;
        record (tick_params ax lmp_color);;
        (match x_range with
         | None => ret ()
         | Some r =>
             lo ← try (range_index r 0); hi ← try (range_index r 1);
             record (set_xlim lo hi)
         end);;
        (match lmp_range with
         | None => ret ()
         | Some r =>
             lo ← try (range_index r 0); hi ← try (range_index r 1);
             record (set_ylim ax lo hi)
         end);;
        record twinx;;
        c ← try (color_getitem plt_color i);
        record (plot ax1 time profile c draw_style);;
        record (tick_params ax1 c);;
        named ← match y_label with
                | None => ret false
                | Some y_label => try (label_contains y_label key)
                end;
        (if named : bool then
           match y_label with
           | None => ret ()
           | Some y_label =>
               label ← try (label_getitem y_label key);
               record (set_ylabel ax1 label (Some c))
           end
         else record (set_ylabel ax1 (str key) (Some c)));;
        match y_range with
        | None => ret ()
        | Some r =>
            b ← try (range_contains r key);
            if b : bool then
              rk ← try (range_getitem r key);
              lo ← try (range_index rk 0);
              rk' ← try (range_getitem r key);
              hi ← try (range_index rk' 1);
              record (set_ylim ax1 lo hi)
            else ret ()
        end);;
      record tight_layout;;
      record show
  end
  end.

(** The calls [plot_lmp_and_schedule] makes for subplot [i] when no range
    and no label is given: the price curve in steps on the left axis, the
    profile of [key] on the twin axis in colour [c]. *)
Definition schedule_subplot_calls (grid : Z * Z) (time : xdata) (lmp : list Q)
    (x_label lmp_label draw_style : string) (i : Z) (key : K) (profile : list Q)
    (c : string) : list call :=
  [add_subplot grid.1 grid.2 i;
   set_xlabel x_label;
   set_ylabel ax lmp_label (Some "tab:red"%string);
   plot ax time lmp "tab:red"%string "steps"%string;
   tick_params ax "tab:red"%string;
   twinx;
   plot ax1 time profile c draw_style;
   tick_params ax1 c;
   set_ylabel ax1 (str key) (Some c)].

End Plots.
End Plotting.

(** ** Small instances for the examples of the further properties *)

Module DemoSetup.
Import Pyomo.
Import MultiPeriod PriceTaker PriceTakerSetup Demo.

(** A workbook of two sheets: sheet [0] holds a date column, an hour
    column and the column [2] with two days of hourly prices; sheet [1]
    holds the two year columns [2020] and [2021], three prices each. *)
Definition demo_read_excel (sheet : nat) : result (list (nat * list Q)) :=
  match sheet with
  | 0%nat => Ok (demo_table two_days)
  | 1%nat => Ok [(2020%nat, [(10 # 1)%Q; (20 # 1)%Q; (30 # 1)%Q]);
                 (2021%nat, [(11 # 1)%Q; (21 # 1)%Q; (31 # 1)%Q])]
  | _ => Raise KeyError
  end.

Definition demo_int (label : nat) : result Z := Ok (Z.of_nat label).

Definition demo_append (sheet : nat) (column_name : ColumnName nat)
    (n_clusters : option nat) (horizon_length : option Z)
  : Run (@State nat Z Z) unit :=
  append_lmp_data demo_read_excel demo_int demo_KMeans sheet column_name n_clusters
    horizon_length.

Definition demo_build_multiperiod_model : Run (@State nat Z Z) unit :=
  build_multiperiod_model (RNG := nat) (V := Z) 0 (λ b o, b + o) None None 1 10 100
    (λ b : Z, (b, true)) (λ r : bool, r) (λ b : Z, b) (λ _ j : Z, j) None.

Definition demo_model : @State nat Z Z := (new_model (mkPriceTaker 20 24), 0%nat).

End DemoSetup.

(** ** [add_startup_shutdown] and [add_ramping_constraints]

    Both methods fetch Pyomo objects by attribute path, one per period
    block, and declare constraints over the positions [1 ..
    len(set_period)] of the period set.  The objects fetched (variables,
    parameters, bounds) are those of the caller's flowsheet: [getattr] is
    a [Variable], and an arithmetic or comparison operator applied to
    them is recorded as the expression it builds.  The methods are
    modelled by the block they attach to [mp_model]; an exception leaves
    no block. *)

Module OperationalConstraints.
Import Pyomo.
Import String.
Import MultiPeriod PriceTakerSetup DeepGetAttr.
Local Abbreviation length := List.length.

(** Sequencing of steps that may raise. *)
Definition and_then {A B} (r : result A) (f : A → result B) : result B :=
  match r with
  | Ok a => f a
  | Raise e => Raise e
  end.

(** [s[i]] on an ordered Pyomo [Set]: positions count from [1], a
    negative position counts from the end, and any other position is an
    [IndexError]. *)
Definition Set_getitem {A} (s : list A) (i : Z) : result A :=
  if decide (1 ≤ i) then
    match s !! Z.to_nat (i - 1) with
    | Some x => Ok x
    | None => Raise IndexError
    end
  else if decide (i < 0) then
    if decide (i + Z.of_nat (length s) < 0) then Raise IndexError
    else
      match s !! Z.to_nat (i + Z.of_nat (length s)) with
      | Some x => Ok x
      | None => Raise IndexError
      end
  else Raise IndexError.

(** [d[k]] on a dict *)
Definition dict_getitem {A B} `{EqDecision A} (d : list (A * B)) (k : A) : result B :=
  match assoc_get k d with
  | Some v => Ok v
  | None => Raise KeyError
  end.

(** [range(a, b)] *)
Definition range (a b : Z) : list Z := seqZ a (b - a).

Section Constraints.

(** [U]: Pyomo objects, the contents of a period block among them; [R]:
    Python floats. *)
Context {U V R : Type}.
Variable getattr : U → string → result U.
Variable float_sub : R → R → R.
(** The model [self], as the object whose attributes [deepgetattr]
    follows. *)
Variable this : U.

Notation "x ← c ; f" := (and_then c (λ x, f))
  (at level 20, c at level 100, f at level 200, only parsing).

Inductive expr : Type :=
| e_obj (o : U)
| e_int (n : Z)
| e_float (x : R)
| e_add (a b : expr)
| e_sub (a b : expr)
| e_mul (a b : expr).

Inductive relation : Type :=
| r_le (a b : expr)
| r_ge (a b : expr).

(** [sum(terms)]: Python starts from [0] and adds from the left. *)
Definition py_sum (terms : list expr) : expr := foldl e_add (e_int 0) terms.

(** A block with its indexed constraints, by name, in declaration order. *)
Record ConstraintBlock : Type := mkBlock {
  range_time_steps : list Z;
  blk_name : string;
  constraints : list (string * list (Z * relation))
}.

(** [@blk.Constraint(index)]: the rule is called on every index in
    order; [Constraint.Skip] ([None]) declares nothing for the index, and
    an exception of the rule is the exception of the declaration. *)
Definition Constraint_construct (index : list Z) (rule : Z → result (option relation))
  : result (list (Z * relation)) :=
  rows ← comprehension (λ t, r ← rule t; Ok (t, r)) index;
  Ok (omap (λ tr : Z * option relation, (λ r, (tr.1, r)) <$> tr.2) rows).

(** [self.mp_model]: set by [build_multiperiod_model]. *)
Definition get_mp_model (self : @PriceTaker U V) : result (@StochasticModel U V) :=
  match mp_model self with
  | Value m => Ok m
  | Unset => Raise AttributeError
  end.

(** [mp_model.period]: [build_stochastic_multiperiod] declares [period]
    on the model itself only when there are no scenarios; with scenarios
    each [scenario[s]] has its own, and the model has none. *)
Definition get_period (m : @StochasticModel U V) : result (@Periods U V) :=
  if _stochastic_model m then Raise AttributeError else Ok (period m).

(** A dict from period indices to the objects fetched for them. *)
Definition Dict : Type := list (PeriodIndex * U).

(** [{t: deepgetattr(self.mp_model.period[t], path)
      for t in self.mp_model.period}] *)
Definition attr_dict (self : @PriceTaker U V) (path : string) : result Dict :=
  m ← get_mp_model self;
  period ← get_period m;
  comprehension (λ t,
    m ← get_mp_model self;
    period ← get_period m;
    b ← dict_getitem period t;
    o ← deepgetattr getattr (user_model b) path;
    Ok (t, o)) period.*1.

(** [op_blk.split(".")[-1]] *)
Definition last_piece (op_blk : string) : result string :=
  match last (split_dot op_blk) with
  | Some piece => Ok piece
  | None => Raise IndexError
  end.

Section Rules.
Variable set_period : list PeriodIndex.

(** [d[self.mp_model.set_period[i]]] *)
Definition at_position (d : Dict) (i : Z) : result expr :=
  p ← Set_getitem set_period i;
  o ← dict_getitem d p;
  Ok (e_obj o).

(** [o] is what the dict [d] holds for the period at position [i] of the
    period set, [i] counted from [1]. *)
Definition fetched (d : Dict) (i : Z) (o : U) : Prop :=
  ∃ p, 1 ≤ i ∧ set_period !! Z.to_nat (i - 1) = Some p ∧ assoc_get p d = Some o.

(** *** The rules of [add_startup_shutdown] *)

Definition design_op_relationship (start_up op_mode shut_down : Dict) (build : U)
    (t : Z) : result (option relation) :=
  a ← at_position start_up t;
  b ← at_position shut_down t;
  c ← at_position op_mode t;
  Ok (Some (r_le (e_add (e_add a b) c) (e_obj build))).

Definition minimum_up_time_con (start_up op_mode : Dict)
    (up_time number_time_steps : Z) (t : Z) : result (option relation) :=
  if decide (t < up_time ∨ number_time_steps ≤ t) then Ok None
  else
    terms ← comprehension (at_position start_up) (range (t - up_time + 2) (t + 1));
    o ← at_position op_mode (t + 1);
    Ok (Some (r_le (py_sum terms) o)).

Definition minimum_down_time_con (start_up op_mode : Dict)
    (down_time number_time_steps : Z) (t : Z) : result (option relation) :=
  if decide (t < down_time ∨ number_time_steps ≤ t) then Ok None
  else
    terms ← comprehension (at_position start_up) (range (t - down_time + 1) (t + 2));
    o ← at_position op_mode (t - down_time + 1);
    Ok (Some (r_le (py_sum terms) (e_sub (e_int 1) o))).

(** *** The rules of [add_ramping_constraints] *)

(** [aux[p] >= capacity + binary[p]*capacity_ub - capacity_ub], the form
    of [startup_mccor1], [shutdown_mccor1] and [op_mode_mccor1] *)
Definition mccor1 (aux binary : Dict) (capacity capacity_ub : U) (t : Z)
  : result (option relation) :=
  a ← at_position aux t;
  b ← at_position binary t;
  Ok (Some (r_ge a (e_sub (e_add (e_obj capacity) (e_mul b (e_obj capacity_ub)))
                        (e_obj capacity_ub)))).

(** [aux[p] <= binary[p]*capacity_ub], the form of [startup_mccor2],
    [shutdown_mccor2] and [op_mode_mccor2] *)
Definition mccor2 (aux binary : Dict) (capacity_ub : U) (t : Z)
  : result (option relation) :=
  a ← at_position aux t;
  b ← at_position binary t;
  Ok (Some (r_le a (e_mul b (e_obj capacity_ub)))).

Definition ramp_up_con (var aux_startup aux_op_mode : Dict)
    (op_range_lb_percentage startup_limit_percentage ramp_up_limit : R) (t : Z)
  : result (option relation) :=
  if decide (t = 1) then Ok None
  else
    v ← at_position var t;
    v' ← at_position var (t - 1);
    su ← at_position aux_startup t;
    su' ← at_position aux_startup (t - 1);
    om ← at_position aux_op_mode t;
    om' ← at_position aux_op_mode (t - 1);
    Ok (Some (r_le (e_sub v v')
      (e_sub
         (e_add
            (e_sub (e_mul (e_float startup_limit_percentage) su)
                   (e_mul (e_float op_range_lb_percentage) su'))
            (e_mul (e_float (float_sub ramp_up_limit op_range_lb_percentage)) om))
         (e_mul (e_float op_range_lb_percentage) om')))).

Definition ramp_down_con (var aux_shutdown aux_startup aux_op_mode : Dict)
    (op_range_lb_percentage shutdown_limit_percentage ramp_down_limit : R) (t : Z)
  : result (option relation) :=
  if decide (t = 1) then Ok None
  else
    v' ← at_position var (t - 1);
    v ← at_position var t;
    sd ← at_position aux_shutdown t;
    su ← at_position aux_startup t;
    su' ← at_position aux_startup (t - 1);
    om ← at_position aux_op_mode t;
    om' ← at_position aux_op_mode (t - 1);
    Ok (Some (r_le (e_sub v' v)
      (e_add
         (e_add
            (e_add
               (e_sub
                  (e_mul (e_float (float_sub shutdown_limit_percentage
                                     op_range_lb_percentage)) sd)
                  (e_mul (e_float op_range_lb_percentage) su))
               (e_mul (e_float op_range_lb_percentage) su'))
            (e_mul (e_float (float_sub ramp_down_limit op_range_lb_percentage)) om))
         (e_mul (e_float op_range_lb_percentage) om')))).

End Rules.

Definition add_startup_shutdown (self : @PriceTaker U V)
    (op_blk design_blk build_binary_var : string) (up_time down_time : Z)
  : result ConstraintBlock :=
  start_up ← attr_dict self (op_blk ++ ".startup")%string;
  op_mode ← attr_dict self (op_blk ++ ".op_mode")%string;
  shut_down ← attr_dict self (op_blk ++ ".shutdown")%string;
  build ← deepgetattr getattr this ((design_blk ++ ".") ++ build_binary_var)%string;
  m ← get_mp_model self;
  let range_time_steps := RangeSet (Z.of_nat (length (set_period m))) in
  m ← get_mp_model self;
  let number_time_steps := Z.of_nat (length (set_period m)) in
  piece ← last_piece op_blk;
  let blk_name := (piece ++ "_startup_shutdown")%string in
  m ← get_mp_model self;
  let P := set_period m in
  c1 ← Constraint_construct range_time_steps
         (design_op_relationship P start_up op_mode shut_down build);
  c2 ← Constraint_construct range_time_steps
         (minimum_up_time_con P start_up op_mode up_time number_time_steps);
  c3 ← Constraint_construct range_time_steps
         (minimum_down_time_con P start_up op_mode down_time number_time_steps);
  Ok (mkBlock range_time_steps blk_name
        [("design_op_relationship"%string, c1);
         ("minimum_up_time_con"%string, c2);
         ("minimum_down_time_con"%string, c3)]).

Definition add_ramping_constraints (self : @PriceTaker U V)
    (op_blk design_blk var : string)
    (op_range_lb_percentage startup_limit_percentage shutdown_limit_percentage : R)
    (ramp_up_limit ramp_down_limit : R)
  : result ConstraintBlock :=
  m ← get_mp_model self;
  let range_time_steps := RangeSet (Z.of_nat (length (set_period m))) in
  start_up ← attr_dict self (op_blk ++ ".startup")%string;
  op_mode ← attr_dict self (op_blk ++ ".op_mode")%string;
  shut_down ← attr_dict self (op_blk ++ ".shutdown")%string;
  aux_shutdown ← attr_dict self (op_blk ++ ".aux_shutdown")%string;
  aux_startup ← attr_dict self (op_blk ++ ".aux_startup")%string;
  aux_op_mode ← attr_dict self (op_blk ++ ".aux_op_mode")%string;
  capacity ← deepgetattr getattr this (design_blk ++ ".capacity")%string;
  capacity_ub ← deepgetattr getattr this (design_blk ++ ".capacity.ub")%string;
  var ← attr_dict self ((op_blk ++ ".") ++ var)%string;
  piece ← last_piece op_blk;
  let blk_name := (piece ++ "_rampup_rampdown")%string in
  m ← get_mp_model self;
  let P := set_period m in
  startup_mccor1 ← Constraint_construct range_time_steps
    (mccor1 P aux_startup start_up capacity capacity_ub);
  startup_mccor2 ← Constraint_construct range_time_steps
    (mccor2 P aux_startup start_up capacity_ub);
  shutdown_mccor1 ← Constraint_construct range_time_steps
    (mccor1 P aux_shutdown shut_down capacity capacity_ub);
  shutdown_mccor2 ← Constraint_construct range_time_steps
    (mccor2 P aux_shutdown shut_down capacity_ub);
  op_mode_mccor1 ← Constraint_construct range_time_steps
    (mccor1 P aux_op_mode op_mode capacity capacity_ub);
  op_mode_mccor2 ← Constraint_construct range_time_steps
    (mccor2 P aux_op_mode op_mode capacity_ub);
  ramp_up_con ← Constraint_construct range_time_steps
    (ramp_up_con P var aux_startup aux_op_mode op_range_lb_percentage
       startup_limit_percentage ramp_up_limit);
  ramp_down_con ← Constraint_construct range_time_steps
    (ramp_down_con P var aux_shutdown aux_startup aux_op_mode op_range_lb_percentage
       shutdown_limit_percentage ramp_down_limit);
  Ok (mkBlock range_time_steps blk_name
        [("startup_mccor1"%string, startup_mccor1);
         ("startup_mccor2"%string, startup_mccor2);
         ("shutdown_mccor1"%string, shutdown_mccor1);
         ("shutdown_mccor2"%string, shutdown_mccor2);
         ("op_mode_mccor1"%string, op_mode_mccor1);
         ("op_mode_mccor2"%string, op_mode_mccor2);
         ("ramp_up_con"%string, ramp_up_con);
         ("ramp_down_con"%string, ramp_down_con)]).

End Constraints.
End OperationalConstraints.

(** A small priced model for the operational constraints: the two year
    columns of the second demo sheet, whole series, and objects that are
    integers, an attribute adding the length of its name. *)
Module DemoOperation.
Import String.
Import PriceTakerSetup DemoSetup.

Definition demo_getattr (o : Z) (name : string) : result Z :=
  if String.eqb name "missing" then Raise AttributeError
  else Ok (o + Z.of_nat (String.length name)).

Definition demo_priced : @PriceTaker Z Z :=
  (demo_build_multiperiod_model
     (demo_append 1 (col_list [2020; 2021]%nat) None None demo_model).1).1.1.

End DemoOperation.

(** * Part II: the properties *)

Import MultiPeriod.

(** * Facts on the monad and on loops *)

Section RunFacts.
Context {S : Type}.

Lemma bind_unfold {A B} (f : A → Run S B) (c : Run S A) (s : S) :
  (c ≫= f) s =
  match c s with
  | (s', Ok a) => f a s'
  | (s', Raise e) => (s', Raise e)
  end.
Proof. reflexivity. Qed.

Lemma bind_Ok {A B} (f : A → Run S B) (c : Run S A) (s s' : S) (a : A) :
  c s = (s', Ok a) → (c ≫= f) s = f a s'.
Proof. intros Hc. rewrite bind_unfold, Hc. reflexivity. Qed.

Lemma bind_Raise {A B} (f : A → Run S B) (c : Run S A) (s s' : S) (e : exn) :
  c s = (s', Raise e) → (c ≫= f) s = (s', Raise e).
Proof. intros Hc. rewrite bind_unfold, Hc. reflexivity. Qed.

Lemma for_each_cons {A} (x : A) (l : list A) (body : A → Run S unit) (s : S) :
  for_each (x :: l) body s =
  match body x s with
  | (s', Ok _) => for_each l body s'
  | (s', Raise e) => (s', Raise e)
  end.
Proof. reflexivity. Qed.

Lemma for_each_app {A} (l1 l2 : list A) (body : A → Run S unit) (s : S) :
  for_each (l1 ++ l2) body s =
  match for_each l1 body s with
  | (s', Ok _) => for_each l2 body s'
  | (s', Raise e) => (s', Raise e)
  end.
Proof.
  revert s. induction l1 as [|x l1 IH]; intros s; [reflexivity|].
  rewrite <- app_comm_cons, !for_each_cons.
  destruct (body x s) as [s1 [[]|e]]; [apply IH | reflexivity].
Qed.
End RunFacts.

(** * Facts on Pyomo sets and containers *)

Lemma Set_initialize_aux {A} `{EqDecision A} (l acc : list A) :
  NoDup (acc ++ l) → foldl Set_add acc l = acc ++ l.
Proof.
  revert acc. induction l as [|x l IH]; intros acc Hnd; simpl.
  - by rewrite app_nil_r.
  - unfold Set_add at 2. rewrite decide_False.
    + rewrite IH; rewrite <- app_assoc; done.
    + apply NoDup_app in Hnd as (_ & Hnd & _). intros Hx. apply (Hnd x Hx). left.
Qed.

Lemma Set_initialize_NoDup {A} `{EqDecision A} (l : list A) :
  NoDup l → Set_initialize l = l.
Proof. intros Hnd. unfold Set_initialize. by rewrite Set_initialize_aux. Qed.

Lemma Set_index_seqZ (a n t : Z) :
  a ≤ t < a + n → Set_index (seqZ a n) t = Some (Z.to_nat (t - a)).
Proof.
  remember (Z.to_nat n) as k eqn:Hk. revert a n Hk.
  induction k as [|k IH]; intros a n Hk Ht; [lia|].
  rewrite seqZ_cons by lia. simpl. destruct (decide (t = a)) as [->|Hne].
  - f_equal. lia.
  - rewrite (IH (Z.succ a) (Z.pred n)) by lia. simpl. f_equal. lia.
Qed.

Lemma seqZ_snoc_last (a n : Z) : 0 < n → seqZ a n = seqZ a (n - 1) ++ [a + n - 1].
Proof.
  intros Hn. replace n with ((n - 1) + 1) at 1 by lia.
  rewrite seqZ_app by lia. f_equal.
  rewrite seqZ_cons, seqZ_nil by lia. f_equal; lia.
Qed.

Lemma last_seqZ (a n : Z) : 0 < n → last (seqZ a n) = Some (a + n - 1).
Proof.
  intros Hn. rewrite last_lookup, length_seqZ.
  rewrite lookup_seqZ_lt by lia. f_equal. lia.
Qed.

Section ConstraintFacts.
Context {V : Type}.

Lemma foldl_setitem_index (c : Constraint V) (l : list (nat * (V * V))) :
  con_index (foldl Constraint_setitem c l) = con_index c
  ∧ con_active (foldl Constraint_setitem c l) = con_active c.
Proof. revert c. induction l as [|x l IH]; intros c; [done|]. simpl. by destruct (IH (Constraint_setitem c x)) as [-> ->]. Qed.

Lemma foldl_setitem_data (l : list (V * V)) (k : nat) (c : Constraint V) (i : nat) :
  con_data (foldl Constraint_setitem c (imap (λ j x, ((k + j)%nat, x)) l)) !! i =
  if decide (k ≤ i < k + length l)%nat then l !! (i - k)%nat else con_data c !! i.
Proof.
  revert k c. induction l as [|x l IH]; intros k c; simpl.
  - rewrite decide_False by lia. done.
  - rewrite (imap_ext _ (λ j y, ((S k + j)%nat, y))) by (intros; simpl; f_equal; lia).
    rewrite IH. simpl. rewrite Nat.add_0_r.
    destruct (decide (i = k)) as [->|Hne].
    + rewrite decide_False by lia. rewrite decide_True by lia.
      rewrite lookup_insert_eq. by rewrite Nat.sub_diag.
    + rewrite lookup_insert_ne by done.
      repeat case_decide; try lia; try done.
      replace (i - k)%nat with (S (i - S k)) by lia. done.
Qed.

Lemma equality_constraints_index (pairs : list (V * V)) :
  con_index (equality_constraints pairs) = seq 0 (length pairs).
Proof. unfold equality_constraints. by rewrite (proj1 (foldl_setitem_index _ _)). Qed.

Lemma equality_constraints_active (pairs : list (V * V)) :
  con_active (equality_constraints pairs) = true.
Proof. unfold equality_constraints. by rewrite (proj2 (foldl_setitem_index _ _)). Qed.

Lemma equality_constraints_lookup (pairs : list (V * V)) (i : nat) :
  con_data (equality_constraints pairs) !! i = pairs !! i.
Proof.
  unfold equality_constraints, enumerate.
  rewrite (foldl_setitem_data pairs 0). simpl. rewrite Nat.sub_0_r.
  case_decide; [done|]. symmetry. apply lookup_ge_None. lia.
Qed.

Lemma equality_constraints_data (pairs : list (V * V)) :
  con_data (equality_constraints pairs) = map_seq 0 pairs.
Proof. apply map_eq. intros i. by rewrite equality_constraints_lookup, lookup_map_seq_0. Qed.

Lemma equality_constraints_size (pairs : list (V * V)) :
  size (con_data (equality_constraints pairs)) = length pairs.
Proof.
  rewrite equality_constraints_data, <- (size_dom (D:=gset nat)), dom_seq_L.
  apply size_set_seq.
Qed.
End ConstraintFacts.

(** * Facts on maps filled by a loop *)

Lemma lookup_foldl_insert {A} (g : Z → A) (ts : list Z) (b : gmap Z A) (t : Z) :
  foldl (λ b t, <[t := g t]> b) b ts !! t =
  if decide (t ∈ ts) then Some (g t) else b !! t.
Proof.
  revert b. induction ts as [|x ts IH]; intros b; cbn [foldl].
  - rewrite decide_False; [done|]. apply not_elem_of_nil.
  - rewrite IH. destruct (decide (t ∈ ts)) as [Hin|Hnin].
    + rewrite decide_True; [done|]. by right.
    + destruct (decide (t = x)) as [->|Hne].
      * rewrite decide_True by left. apply lookup_insert_eq.
      * rewrite decide_False by (intros Hx; apply elem_of_cons in Hx; tauto).
        by apply lookup_insert_ne.
Qed.

Lemma size_range_map {A} (b : gmap Z A) (n : Z) :
  (∀ t, is_Some (b !! t) ↔ 0 ≤ t < n) → size b = Z.to_nat n.
Proof.
  intros Hb. rewrite <- (size_dom (D:=gset Z)).
  assert (dom b = list_to_set (seqZ 0 n)) as ->.
  { apply set_eq. intros t.
    rewrite elem_of_dom, elem_of_list_to_set, elem_of_seqZ, Hb. lia. }
  rewrite size_list_to_set by apply NoDup_seqZ. apply length_seqZ.
Qed.

Lemma py_slice_to_range (n : Z) : 1 ≤ n → py_slice_to (seqZ 0 n) (n - 1) = seqZ 0 (n - 1).
Proof.
  intros Hn. unfold py_slice_to. rewrite decide_True by lia.
  assert (seqZ 0 n = seqZ 0 (n - 1) ++ seqZ (n - 1) 1) as ->.
  { rewrite <- seqZ_app by lia. f_equal. lia. }
  rewrite take_app_length'; [done|]. rewrite length_seqZ. lia.
Qed.

(** * Facts on [omap] and [filter] *)

Lemma omap_pointwise {A B} (f g : A → option B) (l : list A) :
  (∀ x, x ∈ l → f x = g x) → omap f l = omap g l.
Proof.
  induction l as [|x l IH]; intros Hfg; [done|]. cbn.
  rewrite (Hfg x) by left. rewrite IH; [done|]. intros y Hy. apply Hfg. by right.
Qed.

Lemma omap_all_None {A B} (f : A → option B) (l : list A) :
  (∀ x, x ∈ l → f x = None) → omap f l = [].
Proof.
  induction l as [|x l IH]; intros Hf; [done|]. cbn.
  rewrite (Hf x) by left. apply IH. intros y Hy. apply Hf. by right.
Qed.

Lemma omap_all_Some {A B} (f : A → option B) (g : A → B) (l : list A) :
  (∀ x, x ∈ l → f x = Some (g x)) → omap f l = g <$> l.
Proof.
  induction l as [|x l IH]; intros Hf; [done|]. cbn.
  rewrite (Hf x) by left. rewrite IH; [done|]. intros y Hy. apply Hf. by right.
Qed.

Lemma omap_fst_id {A B} (f : A → option (A * B)) (l : list A) :
  (∀ x, x ∈ l → ∃ c, f x = Some (x, c)) → (omap f l).*1 = l.
Proof.
  induction l as [|x l IH]; intros Hf; [done|]. cbn.
  destruct (Hf x) as [c ->]; [left|]. cbn. rewrite IH; [done|].
  intros y Hy. apply Hf. by right.
Qed.

Lemma filter_none {A} (P : A → Prop) `{∀ x, Decision (P x)} (l : list A) :
  (∀ x, x ∈ l → ¬ P x) → filter P l = [].
Proof.
  induction l as [|x l IH]; intros HP; [done|].
  rewrite filter_cons_False by (apply HP; left). apply IH. intros y Hy. apply HP. by right.
Qed.

Lemma seqZ_S_cons (a : Z) (len : nat) :
  seqZ a (Z.of_nat (S len)) = a :: seqZ (a + 1) (Z.of_nat len).
Proof. rewrite seqZ_cons by lia. f_equal. f_equal; lia. Qed.

Lemma zip_seqZ_succ (len : nat) (a : Z) :
  zip (seqZ a (Z.of_nat (S len))) (seqZ (a + 1) (Z.of_nat len))
  = (λ t, (t, t + 1)) <$> seqZ a (Z.of_nat len).
Proof.
  revert a. induction len as [|len IH]; intros a.
  - by rewrite seqZ_S_cons.
  - assert (∀ l, zip (a :: l) (seqZ (a + 1) (Z.of_nat (S len)))
                 = (a, a + 1) :: zip l (seqZ (a + 1 + 1) (Z.of_nat len))) as Hcons
      by (intros l; by rewrite seqZ_S_cons).
    rewrite (seqZ_S_cons a (S len)), Hcons, IH. by rewrite (seqZ_S_cons a len).
Qed.

Lemma adjacent_pairs_seqZ (a : Z) (len : nat) :
  adjacent_pairs (seqZ a (Z.of_nat (S len))) = (λ t, (t, t + 1)) <$> seqZ a (Z.of_nat len).
Proof.
  unfold adjacent_pairs. rewrite <- zip_seqZ_succ. f_equal.
  by rewrite seqZ_S_cons.
Qed.

(** * The assertion on the keyword arguments *)

Lemma Sorted_seqZ (a n : Z) : Sorted Z.le (seqZ a n).
Proof.
  remember (Z.to_nat n) as k eqn:Hk. revert a n Hk.
  induction k as [|k IH]; intros a n Hk.
  - rewrite seqZ_nil by lia. constructor.
  - rewrite seqZ_cons by lia. constructor; [apply IH; lia|].
    destruct k as [|k].
    + rewrite seqZ_nil by lia. constructor.
    + rewrite seqZ_cons by lia. constructor. lia.
Qed.

Lemma sorted_keys_elem_of {A} (d : gmap Z A) (t : Z) :
  t ∈ sorted_keys d ↔ is_Some (d !! t).
Proof.
  unfold sorted_keys. rewrite merge_sort_Permutation, list_elem_of_fmap. split.
  - intros [[t' x] [-> Hx]]. apply elem_of_map_to_list in Hx. by exists x.
  - intros [x Hx]. exists (t, x). split; [done|]. by apply elem_of_map_to_list.
Qed.

Section KwargsFacts.
Context {K : Type}.
Implicit Types (d : gmap Z K).

(** A dictionary passes the assertion exactly when its keys are
    [0 .. len(d) - 1]. *)
Lemma kwargs_assertion_keys d :
  kwargs_assertion d = true ↔ ∀ t, is_Some (d !! t) ↔ 0 ≤ t < Z.of_nat (size d).
Proof.
  unfold kwargs_assertion. rewrite bool_decide_eq_true. split.
  - intros Heq t. rewrite <- sorted_keys_elem_of, <- Heq. unfold py_range.
    rewrite elem_of_seqZ. lia.
  - intros Hkeys. unfold py_range.
    apply (Sorted_unique Z.le); [apply Sorted_seqZ|apply Sorted_merge_sort; apply _|].
    apply NoDup_Permutation.
    + apply NoDup_seqZ.
    + unfold sorted_keys. rewrite merge_sort_Permutation. apply NoDup_fst_map_to_list.
    + intros t. rewrite sorted_keys_elem_of, Hkeys, elem_of_seqZ. lia.
Qed.

Lemma default_kwargs_lookup (k : K) (n t : Z) :
  default_kwargs k n !! t = if decide (0 ≤ t < n) then Some k else None.
Proof.
  unfold default_kwargs, py_range. case_decide as Ht.
  - apply elem_of_list_to_map.
    + rewrite <- list_fmap_compose. simpl. rewrite list_fmap_id. apply NoDup_seqZ.
    + apply list_elem_of_fmap. exists t. split; [done|]. apply elem_of_seqZ. lia.
  - apply not_elem_of_list_to_map. rewrite <- list_fmap_compose. simpl.
    rewrite list_fmap_id, elem_of_seqZ. lia.
Qed.

Lemma default_kwargs_size (k : K) (n : Z) : size (default_kwargs k n) = Z.to_nat n.
Proof.
  apply size_range_map. intros t. rewrite default_kwargs_lookup.
  case_decide; [|split; [by intros [? ?]|done]]. split; [done|by eexists].
Qed.

Lemma default_kwargs_assertion (k : K) (n : Z) :
  kwargs_assertion (default_kwargs k n) = true.
Proof.
  apply kwargs_assertion_keys. intros t.
  rewrite default_kwargs_lookup, default_kwargs_size.
  case_decide; [|split; [by intros [? ?]|lia]]. split; [lia|by eexists].
Qed.
End KwargsFacts.

(** * The build *)

Section BuildFacts.
Context {U V K : Type}.
Variable empty_kwargs : K.
Variable create_process_model : K → U.
Variable get_linking_variable_pairs : @Process U V → @Process U V → list (V * V).
Variable get_periodic_variable_pairs : option (@Process U V → @Process U V → list (V * V)).

Local Abbreviation build :=
  (build_multi_period_model empty_kwargs create_process_model
     get_linking_variable_pairs get_periodic_variable_pairs).
Local Abbreviation advance :=
  (advance_time create_process_model get_linking_variable_pairs
     get_periodic_variable_pairs).
Local Abbreviation fresh := (fresh_block empty_kwargs create_process_model).
Local Abbreviation pairs := (link_pairs empty_kwargs create_process_model get_linking_variable_pairs).
Local Abbreviation linked :=
  (linked_block empty_kwargs create_process_model get_linking_variable_pairs).
Local Abbreviation built :=
  (built_block empty_kwargs create_process_model get_linking_variable_pairs
     get_periodic_variable_pairs).

Implicit Types (m : @MultiPeriodModel U V) (d : gmap Z K).

Lemma blocks_process_Ok m t p :
  t ∈ TIME m → blocks m !! t = Some p → blocks_process t m = (m, Ok p).
Proof. intros Ht Hp. unfold blocks_process. by rewrite decide_True, Hp. Qed.

Lemma blocks_set_process_Ok m t p :
  t ∈ TIME m → blocks_set_process t p m = (set_blocks (<[t := p]> (blocks m)) m, Ok ()).
Proof. intros Ht. unfold blocks_set_process. by rewrite decide_True. Qed.

(** The factory loop. *)
Lemma create_loop d ts m :
  (∀ t, t ∈ ts → t ∈ TIME m ∧ is_Some (d !! t)) →
  for_each ts (λ t,
    kw ← lift (dict_getitem d t);
    blocks_set_process t (new_process (create_process_model kw))) m
  = (set_blocks (foldl (λ b t, <[t := fresh d t]> b) (blocks m) ts) m, Ok ()).
Proof.
  revert m. induction ts as [|t ts IH]; intros m Hts.
  - by destruct m.
  - destruct (Hts t) as [Ht [k Hk]]; [left|].
    rewrite for_each_cons.
    rewrite (bind_Ok _ _ m m k) by (unfold lift, dict_getitem; by rewrite Hk).
    rewrite blocks_set_process_Ok by done.
    rewrite IH.
    + cbn [foldl]. unfold fresh_block. rewrite Hk. by destruct m.
    + intros t' Ht'. apply Hts. by right.
Qed.

(** The linking loop, started where the blocks from [a] on are as the
    factory left them. *)
Lemma link_loop d (len : nat) a m :
  (∀ t, a ≤ t ≤ a + Z.of_nat len → t ∈ TIME m ∧ blocks m !! t = Some (fresh d t)) →
  for_each (seqZ a (Z.of_nat len)) (λ t,
    b1 ← blocks_process t;
    b2 ← blocks_process (t + 1);
    blocks_set_process t
      (_create_linking_constraints b1 (get_linking_variable_pairs b1 b2))) m
  = (set_blocks
       (foldl (λ b t, <[t := _create_linking_constraints (fresh d t) (pairs d t)]> b)
              (blocks m) (seqZ a (Z.of_nat len))) m, Ok ()).
Proof.
  revert a m. induction len as [|len IH]; intros a m Hm.
  - by destruct m.
  - rewrite seqZ_cons by lia. rewrite for_each_cons.
    destruct (Hm a) as [Ha Hba]; [lia|].
    destruct (Hm (a + 1)) as [Ha1 Hba1]; [lia|].
    rewrite (bind_Ok _ _ m m (fresh d a)) by by apply blocks_process_Ok.
    rewrite (bind_Ok _ _ m m (fresh d (a + 1))) by by apply blocks_process_Ok.
    rewrite blocks_set_process_Ok by done.
    replace (Z.pred (Z.of_nat (S len))) with (Z.of_nat len) by lia.
    rewrite IH.
    + by destruct m.
    + intros t Ht. destruct (Hm t) as [Ht1 Ht2]; [lia|]. split; [done|].
      cbn. rewrite lookup_insert_ne by lia. done.
Qed.

Lemma build_spec self model_data_kwargs :
  let n := n_time_points self in
  let d := effective_kwargs empty_kwargs n model_data_kwargs in
  1 ≤ n → kwargs_assertion d = true → (∀ t, 0 ≤ t < n → is_Some (d !! t)) →
  ∃ m, build model_data_kwargs self = (m, Ok ())
       ∧ n_time_points m = n ∧ TIME m = seqZ 0 n
       ∧ _pyomo_model m = true ∧ _first_active_time m = Some 0
       ∧ ∀ t, blocks m !! t = if decide (0 ≤ t < n) then Some (built d n t) else None.
Proof.
  intros n d Hn Hassert Hkeys.
  unfold build_multi_period_model.
  rewrite (bind_Ok _ get self self self) by done.
  fold n. fold (effective_kwargs empty_kwargs n model_data_kwargs). fold d.
  rewrite Hassert.
  rewrite (bind_Ok _ (mret ()) self self ()) by done.
  set (m1 := set_blocks ∅ (set_TIME (Set_initialize (py_range n)) self)).
  rewrite (bind_Ok _ _ self (set_TIME (Set_initialize (py_range n)) self) ()) by done.
  rewrite (bind_Ok _ _ _ m1 ()) by done.
  assert (TIME m1 = seqZ 0 n) as HT1.
  { unfold m1, py_range. cbn. apply Set_initialize_NoDup, NoDup_seqZ. }
  (* the factory loop *)
  set (m2 := set_blocks (foldl (λ b t, <[t := fresh d t]> b) ∅ (seqZ 0 n)) m1).
  rewrite (bind_Ok _ _ m1 m2 ()); cycle 1.
  { rewrite (bind_Ok _ get m1 m1 m1) by done. rewrite HT1.
    rewrite create_loop; [done|].
    intros t Ht. rewrite HT1. split; [done|]. apply Hkeys.
    apply elem_of_seqZ in Ht. lia. }
  assert (∀ t, blocks m2 !! t = if decide (0 ≤ t < n) then Some (fresh d t) else None)
    as Hb2.
  { intros t. unfold m2. cbn [blocks set_blocks]. rewrite lookup_foldl_insert.
    rewrite lookup_empty.
    destruct (decide (t ∈ seqZ 0 n)) as [Ht|Ht]; rewrite elem_of_seqZ in Ht;
      case_decide; done || lia. }
  assert (TIME m2 = seqZ 0 n) as HT2 by exact HT1.
  (* the linking loop *)
  set (m3 := set_blocks
               (foldl (λ b t, <[t := _create_linking_constraints (fresh d t) (pairs d t)]> b)
                      (blocks m2) (seqZ 0 (n - 1))) m2).
  rewrite (bind_Ok _ _ m2 m3 ()); cycle 1.
  { rewrite (bind_Ok _ get m2 m2 m2) by done.
    rewrite HT2.
    rewrite py_slice_to_range by done.
    assert (seqZ 0 (n - 1) = seqZ 0 (Z.of_nat (Z.to_nat (n - 1)))) as Hlen
      by (f_equal; lia).
    rewrite Hlen, link_loop with (d := d); [by rewrite <- Hlen|].
    intros t Ht. rewrite HT2.
    rewrite elem_of_seqZ, Hb2. rewrite decide_True by lia. split; [lia|done]. }
  assert (∀ t, blocks m3 !! t = if decide (0 ≤ t < n) then Some (linked d n t) else None)
    as Hb3.
  { intros t. unfold m3. cbn [blocks set_blocks]. rewrite lookup_foldl_insert, Hb2.
    unfold linked_block.
    destruct (decide (t ∈ seqZ 0 (n - 1))) as [Ht|Ht]; rewrite elem_of_seqZ in Ht;
      repeat case_decide; done || lia. }
  assert (TIME m3 = seqZ 0 n) as HT3 by exact HT1.
  (* the periodic closure *)
  assert (∃ m4, match get_periodic_variable_pairs with
                | Some periodic =>
                    m0 ← get;
                    b_last ← blocks_process (Z.of_nat (size (blocks m0)) - 1);
                    b_first ← blocks_process 0;
                    blocks_set_process (Z.of_nat (size (blocks m0)) - 1)
                      (_create_periodic_constraints b_last (periodic b_last b_first))
                | None => mret ()
                end m3 = (m4, Ok ())
              ∧ n_time_points m4 = n ∧ TIME m4 = seqZ 0 n
              ∧ ∀ t, blocks m4 !! t =
                     if decide (0 ≤ t < n) then Some (built d n t) else None)
    as (m4 & Hper & Hn4 & HT4 & Hb4).
  { unfold built_block. destruct get_periodic_variable_pairs as [periodic|].
    - rewrite (bind_Ok _ get m3 m3 m3) by done.
      assert (Z.of_nat (size (blocks m3)) - 1 = n - 1) as ->.
      { rewrite (size_range_map _ n); [lia|]. intros t. rewrite Hb3.
        case_decide; [|split; [by intros [? ?]|done]]. split; [done|by eexists]. }
      rewrite (bind_Ok _ _ m3 m3 (linked d n (n - 1))); cycle 1.
      { apply blocks_process_Ok; [rewrite HT3, elem_of_seqZ; lia|].
        rewrite Hb3. by rewrite decide_True by lia. }
      rewrite (bind_Ok _ _ m3 m3 (linked d n 0)); cycle 1.
      { apply blocks_process_Ok; [rewrite HT3, elem_of_seqZ; lia|].
        rewrite Hb3. by rewrite decide_True by lia. }
      rewrite blocks_set_process_Ok by (rewrite HT3, elem_of_seqZ; lia).
      eexists. split; [done|]. split; [done|]. split; [exact HT3|].
      intros t. cbn [blocks set_blocks].
      destruct (decide (t = n - 1)) as [->|Hne].
      + rewrite lookup_insert_eq. by rewrite decide_True by lia.
      + rewrite lookup_insert_ne by done. apply Hb3.
    - exists m3. done. }
  rewrite (bind_Ok _ _ m3 m4 ()) by exact Hper.
  rewrite (bind_Ok _ _ m4 (set_pyomo_model true m4) ()) by done.
  rewrite (bind_Ok _ get _ _ (set_pyomo_model true m4)) by done.
  rewrite (bind_Ok _ _ _ (set_pyomo_model true m4) 0); cycle 1.
  { unfold lift. cbn [TIME set_pyomo_model]. rewrite HT4.
    rewrite seqZ_cons by lia. done. }
  eexists. split; [done|]. cbn. done.
Qed.

Lemma create_loop_inv d ts m m' :
  for_each ts (λ t,
    kw ← lift (dict_getitem d t);
    blocks_set_process t (new_process (create_process_model kw))) m = (m', Ok ()) →
  ∀ t, t ∈ ts → is_Some (d !! t).
Proof.
  revert m. induction ts as [|x ts IH]; intros m Hrun t Ht.
  - by apply elem_of_nil in Ht.
  - rewrite for_each_cons, bind_unfold in Hrun. unfold lift at 1, dict_getitem in Hrun.
    destruct (d !! x) as [k|] eqn:Hx; [|discriminate].
    apply elem_of_cons in Ht as [->|Ht]; [by eexists|].
    destruct (blocks_set_process x _ m) as [m1 [[]|e]]; [|discriminate].
    by apply (IH m1).
Qed.

(** A build that fails its assertion leaves the model as it was. *)
Lemma build_assertion_fails self model_data_kwargs :
  kwargs_assertion (effective_kwargs empty_kwargs (n_time_points self) model_data_kwargs)
    = false →
  build model_data_kwargs self = (self, Raise AssertionError).
Proof.
  intros Ha. unfold build_multi_period_model.
  rewrite (bind_Ok _ get self self self) by done.
  unfold effective_kwargs in Ha. by rewrite Ha.
Qed.

(** A build completes only on at least one period and on keyword
    arguments that pass the assertion and cover every period. *)
Lemma build_Ok_inv self model_data_kwargs m :
  let n := n_time_points self in
  let d := effective_kwargs empty_kwargs n model_data_kwargs in
  build model_data_kwargs self = (m, Ok ()) →
  1 ≤ n ∧ kwargs_assertion d = true ∧ ∀ t, 0 ≤ t < n → is_Some (d !! t).
Proof.
  intros n d Hrun.
  destruct (kwargs_assertion d) eqn:Ha; cycle 1.
  { rewrite build_assertion_fails in Hrun by done. discriminate. }
  unfold build_multi_period_model in Hrun.
  rewrite (bind_Ok _ get self self self) in Hrun by done.
  fold n in Hrun. fold (effective_kwargs empty_kwargs n model_data_kwargs) in Hrun.
  fold d in Hrun. rewrite Ha in Hrun.
  rewrite (bind_Ok _ (mret ()) self self ()) in Hrun by done.
  set (m1 := set_blocks ∅ (set_TIME (Set_initialize (py_range n)) self)) in *.
  rewrite (bind_Ok _ _ self (set_TIME (Set_initialize (py_range n)) self) ()) in Hrun
    by done.
  rewrite (bind_Ok _ _ _ m1 ()) in Hrun by done.
  assert (TIME m1 = seqZ 0 n) as HT1.
  { unfold m1, py_range. cbn. apply Set_initialize_NoDup, NoDup_seqZ. }
  rewrite bind_unfold in Hrun.
  rewrite (bind_Ok _ get m1 m1 m1) in Hrun by done. rewrite HT1 in Hrun.
  destruct (for_each (seqZ 0 n) _ m1) as [m2 [[]|e]] eqn:Hloop; [|discriminate].
  assert (∀ t, 0 ≤ t < n → is_Some (d !! t)) as Hkeys.
  { intros t Ht. apply (create_loop_inv _ _ _ _ Hloop). apply elem_of_seqZ. lia. }
  split; [|done].
  destruct (decide (1 ≤ n)) as [|Hn]; [done|]. exfalso.
  rewrite seqZ_nil in Hloop by lia. injection Hloop as <-.
  rewrite bind_unfold in Hrun.
  rewrite (bind_Ok _ get m1 m1 m1) in Hrun by done. rewrite HT1 in Hrun.
  rewrite seqZ_nil in Hrun by lia.
  unfold py_slice_to in Hrun. rewrite !take_nil in Hrun.
  destruct (decide (0 ≤ n - 1)); [lia|].
  cbn [for_each] in Hrun.
  change (@mret (Run _) _ _ () m1) with (m1, Ok ()) in Hrun. cbv beta iota in Hrun.
  destruct get_periodic_variable_pairs as [periodic|].
  - rewrite bind_unfold in Hrun.
    rewrite (bind_Ok _ get m1 m1 m1) in Hrun by done.
    rewrite bind_unfold in Hrun. unfold blocks_process at 1 in Hrun.
    rewrite HT1, seqZ_nil in Hrun by lia.
    rewrite decide_False in Hrun by apply not_elem_of_nil. discriminate.
  - rewrite (bind_Ok _ _ m1 m1 ()) in Hrun by done.
    rewrite (bind_Ok _ _ m1 (set_pyomo_model true m1) ()) in Hrun by done.
    rewrite (bind_Ok _ get _ _ (set_pyomo_model true m1)) in Hrun by done.
    rewrite bind_unfold in Hrun. unfold lift at 1 in Hrun. cbn [TIME set_pyomo_model] in Hrun.
    rewrite HT1, seqZ_nil in Hrun by lia. discriminate.
Qed.

Lemma built_block_active d n t : active (built d n t) = true.
Proof.
  unfold built_block, linked_block.
  destruct get_periodic_variable_pairs; repeat case_decide; done.
Qed.

Lemma built_block_link d n t :
  link_constraints (built d n t) =
  if decide (t < n - 1) then Some (equality_constraints (pairs d t)) else None.
Proof.
  unfold built_block, linked_block.
  destruct get_periodic_variable_pairs; repeat case_decide; done || lia.
Qed.

Lemma built_block_periodic d n t :
  periodic_constraints (built d n t) =
  match get_periodic_variable_pairs with
  | Some periodic =>
      if decide (t = n - 1)
      then Some (equality_constraints (periodic (linked d n (n - 1)) (linked d n 0)))
      else None
  | None => None
  end.
Proof.
  unfold built_block, linked_block.
  destruct get_periodic_variable_pairs; repeat case_decide; done || lia.
Qed.

Local Abbreviation invariant := (window_invariant get_periodic_variable_pairs).

(** A completed build leaves the window [0 .. n - 1], nothing shifted. *)
Lemma build_invariant self model_data_kwargs m :
  build model_data_kwargs self = (m, Ok ()) →
  invariant m 0 (n_time_points self).
Proof.
  intros Hrun. destruct (build_Ok_inv _ _ _ Hrun) as (Hn & Ha & Hkeys).
  destruct (build_spec self model_data_kwargs Hn Ha Hkeys)
    as (m' & Hrun' & Hn' & HT & Hpm & Hfirst & Hb).
  rewrite Hrun in Hrun'. injection Hrun' as <-.
  split; try done; try lia.
  - intros t. rewrite Hb. case_decide; [|split; [by intros [? ?]|lia]].
    split; [lia|by eexists].
  - intros t p. rewrite Hb. case_decide; [|done]. intros [= <-].
    rewrite built_block_active. symmetry. apply bool_decide_eq_true. lia.
  - intros t p. rewrite Hb. case_decide; [|done]. intros [= <-].
    rewrite built_block_link. case_decide; [|split; [by intros [? ?]|lia]].
    split; [lia|by eexists].
  - intros t p. rewrite Hb. case_decide; [|done]. intros [= <-].
    pose proof (built_block_periodic (effective_kwargs empty_kwargs (n_time_points self)
                                        model_data_kwargs) (n_time_points self) t) as Hp.
    destruct get_periodic_variable_pairs as [periodic|]; [|done].
    rewrite Hp. case_decide.
    + split; [split; [lia|by eexists]|]. intros c [= <-].
      rewrite equality_constraints_active. symmetry. apply bool_decide_eq_true. lia.
    + split; [split; [by intros [? ?]|lia]|]. done.
Qed.

Lemma advance_spec m k w model_data_kwargs :
  invariant m k w → 2 ≤ w →
  ∃ m' b_prev b_last,
    advance model_data_kwargs m = (m', Ok ())
    ∧ blocks m !! k = Some b_prev
    ∧ blocks m !! (k + w - 1) = Some b_last
    ∧ n_time_points m' = w
    ∧ TIME m' = TIME m ++ [k + w]
    ∧ _first_active_time m' = Some (k + 1)
    ∧ _pyomo_model m' = true
    ∧ blocks m' !! k = Some (Process_deactivate b_prev)
    ∧ (∀ t, t ≠ k → t ≠ k + w - 1 → t ≠ k + w → blocks m' !! t = blocks m !! t)
    ∧ let b_new := new_process (create_process_model model_data_kwargs) in
      let b_link :=
        _create_linking_constraints b_last (get_linking_variable_pairs b_last b_new) in
      match get_periodic_variable_pairs with
      | None =>
          blocks m' !! (k + w - 1) = Some b_link ∧ blocks m' !! (k + w) = Some b_new
      | Some periodic =>
          ∃ b_cur c,
            <[k + w - 1 := b_link]> (<[k := Process_deactivate b_prev]> (blocks m))
              !! (k + 1) = Some b_cur
            ∧ periodic_constraints b_last = Some c
            ∧ blocks m' !! (k + w - 1) =
                Some (set_periodic_constraints (Some (Constraint_deactivate c)) b_link)
            ∧ blocks m' !! (k + w) =
                Some (_create_periodic_constraints b_new (periodic b_new b_cur))
      end.
Proof.
  intros [Hk Hw Hn HT Hfirst Hpm Hdom Hact Hlink Hper] Hw2.
  destruct (proj2 (Hdom k)) as [b_prev Hprev]; [lia|].
  destruct (proj2 (Hdom (k + w - 1))) as [b_last Hlast]; [lia|].
  set (b_new := new_process (create_process_model model_data_kwargs)).
  set (b_link :=
         _create_linking_constraints b_last (get_linking_variable_pairs b_last b_new)).
  assert (∀ t, t ∈ TIME m ↔ 0 ≤ t < k + w) as Hin.
  { intros t. rewrite HT, elem_of_seqZ. lia. }
  unfold advance_time.
  rewrite (bind_Ok _ get m m m) by done. rewrite Hpm, Hfirst.
  rewrite (bind_Ok _ (mret ()) m m ()) by done.
  rewrite (bind_Ok _ _ m m k) by done.
  rewrite (bind_Ok _ _ m m (k + 1)); cycle 1.
  { unfold lift, Set_next. rewrite HT, Set_index_seqZ by lia.
    rewrite lookup_seqZ_lt by lia. do 2 f_equal; lia. }
  rewrite (bind_Ok _ _ m m b_prev) by (apply blocks_process_Ok; [apply Hin; lia|done]).
  set (m1 := set_blocks (<[k := Process_deactivate b_prev]> (blocks m)) m).
  rewrite (bind_Ok _ _ m m1 ()) by (apply blocks_set_process_Ok, Hin; lia).
  set (m2 := set_first_active_time (Some (k + 1)) m1).
  rewrite (bind_Ok _ _ m1 m2 ()) by done.
  rewrite (bind_Ok _ _ m2 m2 (k + w - 1)); cycle 1.
  { unfold lift, Set_last. rewrite HT, last_seqZ by lia. do 2 f_equal; lia. }
  replace (k + w - 1 + 1) with (k + w) by lia.
  set (m3 := set_TIME (TIME m ++ [k + w]) m2).
  rewrite (bind_Ok _ _ m2 m3 ()); cycle 1.
  { unfold modify, m3. do 2 f_equal. cbn. unfold Set_add.
    rewrite decide_False; [done|]. rewrite Hin. lia. }
  assert (∀ t, t ∈ TIME m3 ↔ 0 ≤ t < k + w + 1) as Hin3.
  { intros t. cbn. rewrite elem_of_app, Hin, list_elem_of_singleton. lia. }
  set (m4 := set_blocks (<[k + w := b_new]> (blocks m3)) m3).
  rewrite (bind_Ok _ _ m3 m4 ()) by (apply blocks_set_process_Ok, Hin3; lia).
  rewrite (bind_Ok _ _ m4 m4 b_last); cycle 1.
  { apply blocks_process_Ok; [apply Hin3; lia|]. cbn.
    rewrite lookup_insert_ne by lia. rewrite lookup_insert_ne by lia. done. }
  rewrite (bind_Ok _ _ m4 m4 b_new); cycle 1.
  { apply blocks_process_Ok; [apply Hin3; lia|]. cbn. apply lookup_insert_eq. }
  set (m5 := set_blocks (<[k + w - 1 := b_link]> (blocks m4)) m4).
  rewrite (bind_Ok _ _ m4 m5 ()) by (apply blocks_set_process_Ok, Hin3; lia).
  destruct get_periodic_variable_pairs as [periodic|] eqn:Hperiodic.
  - destruct (Hper _ _ Hlast) as [Hsome _].
    destruct (proj2 Hsome) as [c Hc]; [lia|].
    assert (∃ b_cur,
              <[k + w - 1 := b_link]> (<[k := Process_deactivate b_prev]> (blocks m))
                !! (k + 1) = Some b_cur) as [b_cur Hcur].
    { destruct (decide (k + 1 = k + w - 1)) as [->|Hne].
      - rewrite lookup_insert_eq. by eexists.
      - rewrite lookup_insert_ne by lia. rewrite lookup_insert_ne by lia.
        apply Hdom. lia. }
    rewrite (bind_Ok _ _ m5 m5 b_new); cycle 1.
    { apply blocks_process_Ok; [apply Hin3; lia|]. cbn.
      rewrite lookup_insert_ne by lia. apply lookup_insert_eq. }
    rewrite (bind_Ok _ _ m5 m5 b_cur); cycle 1.
    { apply blocks_process_Ok; [apply Hin3; lia|]. cbn.
      destruct (decide (k + 1 = k + w - 1)) as [Heq|Hne].
      - rewrite Heq in *. rewrite lookup_insert_eq in *. done.
      - rewrite lookup_insert_ne in * by lia. rewrite lookup_insert_ne by lia. done. }
    set (m6 := set_blocks
                 (<[k + w := _create_periodic_constraints b_new (periodic b_new b_cur)]>
                    (blocks m5)) m5).
    rewrite (bind_Ok _ _ m5 m6 ()) by (apply blocks_set_process_Ok, Hin3; lia).
    rewrite (bind_Ok _ _ m6 m6 b_link); cycle 1.
    { apply blocks_process_Ok; [apply Hin3; lia|]. cbn.
      rewrite lookup_insert_ne by lia. apply lookup_insert_eq. }
    replace (periodic_constraints b_link) with (Some c) by done.
    rewrite blocks_set_process_Ok by (apply Hin3; lia).
    eexists _, b_prev, b_last. split; [done|]. cbn.
    repeat split; try done.
    + rewrite !lookup_insert_ne by lia. apply lookup_insert_eq.
    + intros t ? ? ?. by rewrite !lookup_insert_ne by lia.
    + exists b_cur, c. repeat split; try done.
      * apply lookup_insert_eq.
      * rewrite lookup_insert_ne by lia. apply lookup_insert_eq.
  - eexists _, b_prev, b_last. split; [done|]. cbn.
    repeat split; try done.
    + rewrite !lookup_insert_ne by lia. apply lookup_insert_eq.
    + intros t ? ? ?. by rewrite !lookup_insert_ne by lia.
    + apply lookup_insert_eq.
    + rewrite lookup_insert_ne by lia. apply lookup_insert_eq.
Qed.

(** On a single-period window [advance_time] raises before it changes
    anything: the first active index has no successor in [TIME]. *)
Lemma advance_single_period m k model_data_kwargs :
  invariant m k 1 → advance model_data_kwargs m = (m, Raise IndexError).
Proof.
  intros [Hk Hw Hn HT Hfirst Hpm Hdom Hact Hlink Hper].
  unfold advance_time.
  rewrite (bind_Ok _ get m m m) by done. rewrite Hpm, Hfirst.
  rewrite (bind_Ok _ (mret ()) m m ()) by done.
  rewrite (bind_Ok _ _ m m k) by done.
  apply bind_Raise. unfold lift, Set_next.
  rewrite HT, Set_index_seqZ by lia. rewrite lookup_seqZ_ge by lia. done.
Qed.

Lemma advance_invariant m k w model_data_kwargs m' :
  invariant m k w → 2 ≤ w →
  advance model_data_kwargs m = (m', Ok ()) →
  invariant m' (k + 1) w.
Proof.
  intros Hinv Hw2 Hrun.
  destruct (advance_spec m k w model_data_kwargs Hinv Hw2)
    as (m'' & b_prev & b_last & Hrun' & Hprev & Hlast & Hn' & HT' & Hfirst' & Hpm'
        & Hbk & Hother & Hends).
  rewrite Hrun in Hrun'. injection Hrun' as <-.
  destruct Hinv as [Hk Hw Hn HT Hfirst Hpm Hdom Hact Hlink Hper].
  assert (active b_prev = true ∧ active b_last = true) as [Hact_prev Hact_last].
  { rewrite (Hact _ _ Hprev), (Hact _ _ Hlast), !bool_decide_eq_true. lia. }
  assert (is_Some (link_constraints b_prev)) as Hlink_prev
    by (apply (Hlink _ _ Hprev); lia).
  pose proof (Hper _ _ Hprev) as Hper_prev.
  pose proof (Hper _ _ Hlast) as Hper_last.
  assert (∀ t, t ≠ k → t ≠ k + w - 1 → t ≠ k + w → ∀ p,
            blocks m' !! t = Some p → blocks m !! t = Some p ∧ 0 ≤ t < k + w)
    as Hold.
  { intros t ? ? ? p Hp. rewrite Hother in Hp by done. split; [done|].
    apply Hdom. by eexists. }
  split; try done; try lia.
  - rewrite HT', HT. replace (k + 1 + w) with ((k + w) + 1) by lia.
    rewrite (seqZ_app 0 (k + w) 1) by lia. f_equal.
  - intros t.
    destruct (decide (t = k)) as [->|?]; [rewrite Hbk; split; [lia|by eexists]|].
    destruct (decide (t = k + w - 1)) as [->|?].
    { destruct get_periodic_variable_pairs.
      - destruct Hends as (? & ? & _ & _ & -> & _). split; [lia|by eexists].
      - destruct Hends as [-> _]. split; [lia|by eexists]. }
    destruct (decide (t = k + w)) as [->|?].
    { destruct get_periodic_variable_pairs.
      - destruct Hends as (? & ? & _ & _ & _ & ->). split; [lia|by eexists].
      - destruct Hends as [_ ->]. split; [lia|by eexists]. }
    rewrite Hother, Hdom by done. lia.
  - intros t p Hp.
    destruct (decide (t = k)) as [->|?].
    { rewrite Hbk in Hp. injection Hp as <-. cbn. symmetry.
      apply bool_decide_eq_false. lia. }
    destruct (decide (t = k + w - 1)) as [->|?].
    { rewrite (bool_decide_eq_true_2 _) by lia.
      destruct get_periodic_variable_pairs.
      - destruct Hends as (? & ? & _ & _ & Hl & _). rewrite Hl in Hp. by injection Hp as <-.
      - destruct Hends as [Hl _]. rewrite Hl in Hp. by injection Hp as <-. }
    destruct (decide (t = k + w)) as [->|?].
    { rewrite (bool_decide_eq_true_2 _) by lia.
      destruct get_periodic_variable_pairs.
      - destruct Hends as (? & ? & _ & _ & _ & Hl). rewrite Hl in Hp. by injection Hp as <-.
      - destruct Hends as [_ Hl]. rewrite Hl in Hp. by injection Hp as <-. }
    destruct (Hold t ltac:(done) ltac:(done) ltac:(done) p Hp) as [Hp' ?].
    rewrite (Hact _ _ Hp'). apply bool_decide_ext. lia.
  - intros t p Hp.
    destruct (decide (t = k)) as [->|?].
    { rewrite Hbk in Hp. injection Hp as <-. cbn. split; [lia|done]. }
    destruct (decide (t = k + w - 1)) as [->|?].
    { destruct get_periodic_variable_pairs.
      - destruct Hends as (? & ? & _ & _ & Hl & _). rewrite Hl in Hp. injection Hp as <-.
        cbn. split; [lia|by eexists].
      - destruct Hends as [Hl _]. rewrite Hl in Hp. injection Hp as <-.
        cbn. split; [lia|by eexists]. }
    destruct (decide (t = k + w)) as [->|?].
    { destruct get_periodic_variable_pairs.
      - destruct Hends as (? & ? & _ & _ & _ & Hl). rewrite Hl in Hp. injection Hp as <-.
        cbn. split; [by intros [? ?]|lia].
      - destruct Hends as [_ Hl]. rewrite Hl in Hp. injection Hp as <-.
        cbn. split; [by intros [? ?]|lia]. }
    destruct (Hold t ltac:(done) ltac:(done) ltac:(done) p Hp) as [Hp' ?].
    rewrite (Hlink _ _ Hp'). lia.
  - intros t p Hp.
    destruct (decide (t = k)) as [->|?].
    { rewrite Hbk in Hp. injection Hp as <-. cbn.
      destruct get_periodic_variable_pairs; [|done].
      destruct Hper_prev as [Hs Ha]. split; [done|]. intros c Hc.
      rewrite (Ha c Hc). apply bool_decide_ext. lia. }
    destruct (decide (t = k + w - 1)) as [->|?].
    { destruct get_periodic_variable_pairs.
      - destruct Hends as (? & ? & _ & _ & Hl & _). rewrite Hl in Hp. injection Hp as <-.
        cbn. split; [split; [lia|by eexists]|]. intros c' [= <-]. cbn.
        symmetry. apply bool_decide_eq_false. lia.
      - destruct Hends as [Hl _]. rewrite Hl in Hp. by injection Hp as <-. }
    destruct (decide (t = k + w)) as [->|?].
    { destruct get_periodic_variable_pairs.
      - destruct Hends as (? & ? & _ & _ & _ & Hl). rewrite Hl in Hp. injection Hp as <-.
        cbn. split; [split; [lia|by eexists]|]. intros c' [= <-].
        rewrite equality_constraints_active. symmetry. apply bool_decide_eq_true. lia.
      - destruct Hends as [_ Hl]. rewrite Hl in Hp. by injection Hp as <-. }
    destruct (Hold t ltac:(done) ltac:(done) ltac:(done) p Hp) as [Hp' ?].
    pose proof (Hper _ _ Hp') as Hpt.
    destruct get_periodic_variable_pairs; [|done].
    destruct Hpt as [Hs Ha]. split; [done|]. intros c Hc.
    rewrite (Ha c Hc). apply bool_decide_ext. lia.
Qed.

Lemma in_use_invariant m :
  in_use empty_kwargs create_process_model get_linking_variable_pairs
         get_periodic_variable_pairs m →
  ∃ k, invariant m k (n_time_points m).
Proof.
  induction 1 as [self kw m Hrun|m kw m' _ [k Hinv] Hrun].
  - pose proof (build_invariant _ _ _ Hrun) as Hinv. exists 0.
    by rewrite (inv_n_time_points _ _ _ _ Hinv).
  - destruct (decide (2 ≤ n_time_points m)) as [Hw|Hw].
    + pose proof (advance_invariant _ _ _ _ _ Hinv Hw Hrun) as Hinv'.
      exists (k + 1). by rewrite (inv_n_time_points _ _ _ _ Hinv').
    + assert (n_time_points m = 1) as Hn1 by (pose proof (inv_length _ _ _ _ Hinv); lia).
      rewrite Hn1 in Hinv. rewrite (advance_single_period _ _ _ Hinv) in Hrun.
      discriminate.
Qed.

(** Whatever the outcome of each call, the window invariant survives. *)
Lemma after_calls_invariant m k w calls :
  invariant m k w →
  ∃ k', invariant (after_calls create_process_model get_linking_variable_pairs
                     get_periodic_variable_pairs m calls) k' w.
Proof.
  revert m k. induction calls as [|kw calls IH]; intros m k Hinv; [by exists k|].
  cbn [after_calls foldl]. destruct (decide (2 ≤ w)) as [Hw|Hw].
  - destruct (advance_spec m k w kw Hinv Hw) as (m' & ? & ? & Hrun & _).
    rewrite Hrun. cbn [fst]. apply (IH m' (k + 1)).
    by apply (advance_invariant m k w kw).
  - assert (w = 1) as -> by (pose proof (inv_length _ _ _ _ Hinv); lia).
    rewrite (advance_single_period _ _ _ Hinv). cbn [fst]. by apply (IH m k).
Qed.

(** *** The edges of a window *)

Lemma sequential_edges_sources m k w :
  invariant m k w → (sequential_edges m).*1 = seqZ 0 (k + w - 1).
Proof.
  intros [Hk Hw Hn HT Hfirst Hpm Hdom Hact Hlink Hper].
  unfold sequential_edges. rewrite HT.
  replace (k + w) with ((k + w - 1) + 1) at 1 by lia.
  rewrite seqZ_app, omap_app, fmap_app by lia.
  rewrite omap_fst_id; cycle 1.
  { intros t Ht. apply elem_of_seqZ in Ht.
    destruct (proj2 (Hdom t)) as [p Hp]; [lia|].
    destruct (proj2 (Hlink t p Hp)) as [c Hc]; [lia|].
    exists c. by rewrite Hp; cbn; rewrite Hc. }
  rewrite omap_all_None; [by rewrite app_nil_r|].
  intros t Ht. apply elem_of_seqZ in Ht.
  destruct (blocks m !! t) as [p|] eqn:Hp; [|done]. cbn.
  destruct (link_constraints p) as [c|] eqn:Hc; [|done].
  assert (t < k + w - 1) by (apply (Hlink t p Hp); by eexists). lia.
Qed.

Lemma periodic_edges_sources m k w :
  invariant m k w → is_Some get_periodic_variable_pairs →
  (periodic_edges m).*1 = seqZ (w - 1) (k + 1).
Proof.
  intros [Hk Hw Hn HT Hfirst Hpm Hdom Hact Hlink Hper] [periodic Hperiodic].
  rewrite Hperiodic in Hper.
  unfold periodic_edges. rewrite HT.
  replace (k + w) with ((w - 1) + (k + 1)) by lia.
  rewrite seqZ_app, omap_app, fmap_app by lia.
  rewrite omap_all_None; cycle 1.
  { intros t Ht. apply elem_of_seqZ in Ht.
    destruct (blocks m !! t) as [p|] eqn:Hp; [|done]. cbn.
    destruct (periodic_constraints p) as [c|] eqn:Hc; [|done].
    assert (w - 1 ≤ t) by (apply (Hper t p Hp); by eexists). lia. }
  cbn [app]. apply omap_fst_id.
  intros t Ht. apply elem_of_seqZ in Ht.
  destruct (proj2 (Hdom t)) as [p Hp]; [lia|].
  destruct (proj2 (proj1 (Hper t p Hp))) as [c Hc]; [lia|].
  exists c. by rewrite Hp; cbn; rewrite Hc.
Qed.

Lemma active_periodic_edges_last m k w :
  invariant m k w → is_Some get_periodic_variable_pairs →
  ∃ b c, blocks m !! (k + w - 1) = Some b ∧ periodic_constraints b = Some c
         ∧ active_periodic_edges m = [(k + w - 1, c)].
Proof.
  intros [Hk Hw Hn HT Hfirst Hpm Hdom Hact Hlink Hper] [periodic Hperiodic].
  rewrite Hperiodic in Hper.
  destruct (proj2 (Hdom (k + w - 1))) as [b Hb]; [lia|].
  destruct (Hper _ _ Hb) as [Hs Ha].
  destruct (proj2 Hs) as [c Hc]; [lia|].
  exists b, c. split; [done|]. split; [done|].
  unfold active_periodic_edges, periodic_edges. rewrite HT.
  replace (k + w) with ((k + w - 1) + 1) at 1 by lia.
  rewrite seqZ_app, omap_app, filter_app by lia.
  rewrite filter_none; cycle 1.
  { intros [t c'] Hin Hactive. apply list_elem_of_omap in Hin as (t' & Ht' & Hf).
    apply elem_of_seqZ in Ht'.
    destruct (blocks m !! t') as [p|] eqn:Hp; [|done]. cbn in Hf.
    destruct (periodic_constraints p) as [c''|] eqn:Hc''; [|done].
    injection Hf as -> ->. cbn in Hactive.
    rewrite (proj2 (Hper _ _ Hp) _ Hc'') in Hactive.
    apply bool_decide_eq_true in Hactive. lia. }
  assert (seqZ (0 + (k + w - 1)) 1 = [k + w - 1]) as ->
    by (rewrite seqZ_cons, seqZ_nil by lia; f_equal; lia).
  cbn [omap list_omap]. rewrite Hb. cbn [mbind option_bind]. rewrite Hc.
  cbn [mbind option_bind app].
  rewrite filter_cons_True; [done|]. cbn. rewrite (Ha c Hc).
  apply bool_decide_eq_true. done.
Qed.

(** *** The claims on the assembly engine *)

Local Abbreviation used :=
  (in_use empty_kwargs create_process_model get_linking_variable_pairs
          get_periodic_variable_pairs).



End BuildFacts.

(** * Containers kept in declaration order *)

Section AssocFacts.
Context {A B : Type} `{EqDecision A}.
Implicit Types (l : list (A * B)) (k : A).

Lemma assoc_alter_not_in (f : B → B) k l : k ∉ l.*1 → assoc_alter f k l = l.
Proof.
  intros Hk. unfold assoc_alter. rewrite <- (list_fmap_id l) at 2.
  apply list_fmap_ext. intros i [k' v] Hi. cbn.
  rewrite decide_False; [done|]. intros ->. apply Hk.
  apply list_elem_of_fmap. exists (k, v). split; [done|].
  by apply list_elem_of_lookup_2 in Hi.
Qed.

Lemma assoc_alter_alter (f g : B → B) k l :
  assoc_alter f k (assoc_alter g k l) = assoc_alter (f ∘ g) k l.
Proof.
  unfold assoc_alter. rewrite <- list_fmap_compose. apply list_fmap_ext.
  intros i [k' v] _. cbn. destruct (decide (k' = k)) as [->|Hne]; cbn.
  - by rewrite decide_True.
  - by rewrite decide_False.
Qed.

Lemma assoc_get_alter (f : B → B) k l :
  assoc_get k (assoc_alter f k l) = f <$> assoc_get k l.
Proof.
  induction l as [|[k' v] l IH]; [done|]. cbn.
  destruct (decide (k' = k)) as [->|Hne]; cbn.
  - by rewrite decide_True.
  - by rewrite decide_False.
Qed.

Lemma assoc_alter_fst (f : B → B) k l : (assoc_alter f k l).*1 = l.*1.
Proof.
  unfold assoc_alter. rewrite <- list_fmap_compose. apply list_fmap_ext.
  intros i [k' v] _. cbn. by case_decide.
Qed.

Lemma assoc_alter_same k l (v : B) :
  NoDup l.*1 → assoc_get k l = Some v → assoc_alter (λ _, v) k l = l.
Proof.
  induction l as [|[k' v'] l IH]; [done|]. cbn -[assoc_alter].
  intros Hnd Hget. apply NoDup_cons in Hnd as [Hk' Hnd].
  unfold assoc_alter. cbn. destruct (decide (k' = k)) as [->|Hne].
  - injection Hget as ->. f_equal. by apply (assoc_alter_not_in (λ _, v)).
  - f_equal. by apply IH.
Qed.

Lemma assoc_get_alter_ne (f : B → B) k k' l :
  k ≠ k' → assoc_get k (assoc_alter f k' l) = assoc_get k l.
Proof.
  intros Hne. induction l as [|[k0 v] l IH]; [done|]. cbn.
  destruct (decide (k0 = k')) as [->|?]; cbn.
  - by rewrite !decide_False by done.
  - destruct (decide (k0 = k)); done.
Qed.

Lemma assoc_get_fmap_const (g : A → B) (ks : list A) k :
  k ∈ ks → assoc_get k ((λ k, (k, g k)) <$> ks) = Some (g k).
Proof.
  induction ks as [|k' ks IH]; intros Hk; [by apply elem_of_nil in Hk|]. cbn.
  destruct (decide (k' = k)) as [->|Hne]; [done|].
  apply IH. apply elem_of_cons in Hk as [->|]; done.
Qed.
End AssocFacts.

Section LoopFacts.
Context {S A : Type}.

(** A loop whose body only updates the state is a fold. *)
Lemma for_each_modify (l : list A) (g : A → S → S) (s : S) :
  for_each l (λ x, modify (g x)) s = (foldl (λ s x, g x s) s l, Ok ()).
Proof.
  revert s. induction l as [|x l IH]; intros s; [done|].
  rewrite for_each_cons. unfold modify at 1. apply IH.
Qed.

Lemma for_each_ext (l : list A) (body1 body2 : A → Run S unit) (s : S) :
  (∀ x s, body1 x s = body2 x s) → for_each l body1 s = for_each l body2 s.
Proof.
  intros Hb. revert s. induction l as [|x l IH]; intros s; [done|].
  rewrite !for_each_cons, Hb. destruct (body2 x s) as [s' [[]|e]]; [apply IH|done].
Qed.
End LoopFacts.

Lemma NoDup_Set_initialize {A} `{EqDecision A} (l : list A) : NoDup (Set_initialize l).
Proof.
  unfold Set_initialize.
  assert (∀ acc, NoDup acc → NoDup (foldl Set_add acc l)) as Hgen.
  { induction l as [|x l IH]; intros acc Hacc; [done|]. cbn. apply IH.
    unfold Set_add. case_decide; [done|].
    apply NoDup_app. split; [done|]. split; [|apply NoDup_singleton].
    intros y Hy Hy'. apply list_elem_of_singleton in Hy'. by subst. }
  apply Hgen. constructor.
Qed.

Lemma bind_singleton_fmap {A B} (f : A → B) (l : list A) : (x ← l; [f x]) = f <$> l.
Proof. induction l as [|x l IH]; [done|]. cbn. by rewrite IH. Qed.

(** * The stochastic build *)

Section StochasticFacts.
Context {U V FO IO UO SR J : Type}.
Variable empty_block : U.
Variable create_process_model : U → FO → U.
Variable initialization_func : option (U → IO → U).
Variable unfix_dof_func : option (U → UO → U).
Variable flowsheet_options : FO.
Variable initialization_options : IO.
Variable unfix_dof_options : UO.
Variable solve : U → U * SR.
Variable check_optimal_termination : SR → bool.
Variable to_json : U → J.
Variable from_json : U → J → U.

Implicit Types (m : @StochasticModel U V) (s : option Z) (X : @Periods U V)
  (P : list PeriodIndex).

Lemma get_put_periods s X m : valid_scenario s m → get_periods s (put_periods s X m) = X.
Proof.
  destruct s as [k|]; [|done]. intros [_ [X0 HX0]]. cbn -[assoc_alter].
  by rewrite assoc_get_alter, HX0.
Qed.

Lemma put_get_periods s m : valid_scenario s m → put_periods s (get_periods s m) m = m.
Proof.
  destruct s as [k|]; [|by destruct m]. intros [Hnd [X0 HX0]].
  unfold put_periods, get_periods, set_scenario. rewrite HX0. cbn -[assoc_alter].
  rewrite assoc_alter_same by done. by destruct m.
Qed.

Lemma put_put_periods s X Y m : put_periods s Y (put_periods s X m) = put_periods s Y m.
Proof.
  destruct s as [k|]; [|done]. unfold put_periods, set_scenario. cbn -[assoc_alter].
  by rewrite assoc_alter_alter.
Qed.

Lemma valid_put_periods s s' X m :
  valid_scenario s m → valid_scenario s (put_periods s' X m).
Proof.
  destruct s as [k|]; [|done]. intros [Hnd Hs]. destruct s' as [k'|]; [|done]. split.
  - cbn -[assoc_alter]. by rewrite assoc_alter_fst.
  - cbn -[assoc_alter].
    destruct Hs as [X0 HX0]. destruct (decide (k = k')) as [->|Hne].
    + rewrite assoc_get_alter, HX0. by eexists.
    + rewrite assoc_get_alter_ne by done. by eexists.
Qed.

Lemma valid_logs s evs m : valid_scenario s m → valid_scenario s (logs evs m).
Proof. done. Qed.

Lemma logs_logs evs1 evs2 m : logs evs2 (logs evs1 m) = logs (evs1 ++ evs2) m.
Proof. unfold logs. cbn. by rewrite app_assoc. Qed.

Lemma logs_nil m : logs [] m = m.
Proof. unfold logs. rewrite app_nil_r. by destruct m. Qed.

Lemma put_periods_logs s X evs m :
  put_periods s X (logs evs m) = logs evs (put_periods s X m).
Proof. by destruct s. Qed.

Lemma alter_in_cons p (ps : list PeriodIndex) (f : U → U) X :
  p ∉ ps →
  alter_in ps f (assoc_alter (on_user_model f) p X) = alter_in (V := V) (p :: ps) f X.
Proof.
  intros Hp. unfold alter_in, assoc_alter. rewrite <- list_fmap_compose.
  apply list_fmap_ext. intros i [q b] _. cbn.
  destruct (decide (q = p)) as [->|Hne]; cbn.
  - rewrite decide_False by done. rewrite decide_True by left. done.
  - destruct (decide (q ∈ ps)) as [Hq|Hq].
    + rewrite decide_True by (by right). done.
    + rewrite decide_False; [done|]. intros Hq'. apply elem_of_cons in Hq'. tauto.
Qed.

Lemma alter_in_nil (f : U → U) X : alter_in (V := V) [] f X = X.
Proof.
  unfold alter_in. rewrite <- (list_fmap_id X) at 2. apply list_fmap_ext.
  intros i [q b] _. cbn. rewrite decide_False; [done|]. apply not_elem_of_nil.
Qed.

Lemma alter_in_uniform P (f : U → U) (u : U) :
  alter_in P f (uniform_periods P u) = uniform_periods (V := V) P (f u).
Proof.
  unfold alter_in, uniform_periods. rewrite <- list_fmap_compose.
  apply list_fmap_ext. intros i p Hi. cbn.
  rewrite decide_True; [done|]. by apply list_elem_of_lookup_2 in Hi.
Qed.

(** One callback over the blocks [ps] of one container. *)
Lemma sweep_container (ev : PeriodIndex → event) (f : U → U) s (ps : list PeriodIndex) m :
  valid_scenario s m → NoDup ps →
  for_each ps (λ p, call_on_period (ev p) f s p) m
  = (logs (ev <$> ps) (put_periods s (alter_in ps f (get_periods s m)) m), Ok ()).
Proof.
  revert m. induction ps as [|p ps IH]; intros m Hs Hnd.
  - by rewrite alter_in_nil, put_get_periods, logs_nil.
  - apply NoDup_cons in Hnd as [Hp Hnd]. rewrite for_each_cons.
    unfold call_on_period at 1, modify.
    set (m1 := log (ev p) (put_periods s (assoc_alter (on_user_model f) p (get_periods s m)) m)).
    assert (valid_scenario s m1) as Hs1 by by apply valid_put_periods.
    rewrite IH by done. f_equal.
    assert (get_periods s m1 = assoc_alter (on_user_model f) p (get_periods s m)) as ->
      by (by apply (get_put_periods s _ m)).
    rewrite alter_in_cons by done.
    change m1 with (logs [ev p]
      (put_periods s (assoc_alter (on_user_model f) p (get_periods s m)) m)).
    by rewrite put_periods_logs, put_put_periods, logs_logs.
Qed.

(** A loop over scenarios whose body turns the container of its scenario
    from [B] into [A]. *)
Lemma scenario_loop (body : Z → Run (@StochasticModel U V) unit) (E : Z → list event)
    (A B : @Periods U V) (todo : list Z) m0 m :
  (∀ k m, k ∈ todo → set_period m = set_period m0 →
          NoDup (scenario m).*1 → assoc_get k (scenario m) = Some B →
          body k m = (logs (E k) (put_periods (Some k) A m), Ok ())) →
  set_period m = set_period m0 → NoDup todo → NoDup (scenario m).*1 →
  (∀ k, k ∈ todo → assoc_get k (scenario m) = Some B) →
  for_each todo body m
  = (logs (concat (E <$> todo))
       (set_scenario ((λ sp, if decide (sp.1 ∈ todo) then (sp.1, A) else sp)
                        <$> scenario m) m), Ok ()).
Proof.
  intros Hbody. revert m. induction todo as [|k todo IH]; intros m HP Hnd Hkeys HB.
  - assert ((λ sp : Z * Periods, if decide (sp.1 ∈ []) then (sp.1, A) else sp)
              <$> scenario m = scenario m) as ->.
    { rewrite <- (list_fmap_id (scenario m)) at 2. apply list_fmap_ext.
      intros i [q b] _. cbn. rewrite decide_False; [done|]. apply not_elem_of_nil. }
    cbn [fmap list_fmap concat]. rewrite logs_nil. by destruct m.
  - apply NoDup_cons in Hnd as [Hk Hnd]. rewrite for_each_cons.
    rewrite Hbody; [|left|done|done|apply HB; left].
    rewrite IH; cycle 1.
    + intros k' m' Hk'. apply Hbody. by right.
    + done.
    + done.
    + cbn -[assoc_alter]. by rewrite assoc_alter_fst.
    + intros k' Hk'. cbn -[assoc_alter].
      rewrite assoc_get_alter_ne by (intros ->; done). apply HB. by right.
    + f_equal. unfold logs, set_scenario, put_periods, assoc_alter. cbn.
      rewrite app_assoc. f_equal. rewrite <- list_fmap_compose.
      apply list_fmap_ext. intros i [q b] _. cbn.
      destruct (decide (q = k)) as [->|Hne]; cbn.
      * rewrite (decide_True (P := k ∈ k :: todo)) by left. by case_decide.
      * destruct (decide (q ∈ todo)) as [Hq|Hq].
        -- rewrite decide_True by (by right). done.
        -- rewrite decide_False; [done|]. intros Hq'. apply elem_of_cons in Hq'. tauto.
Qed.

Local Abbreviation build :=
  (build_stochastic_multiperiod (V := V) empty_block create_process_model
     initialization_func unfix_dof_func flowsheet_options initialization_options
     unfix_dof_options solve check_optimal_termination to_json from_json).

Lemma uniform_periods_fst P (u : U) : (uniform_periods (V := V) P u).*1 = P.
Proof.
  unfold uniform_periods. rewrite <- list_fmap_compose. apply list_fmap_id.
Qed.

Lemma slots_events (ev : option Z → PeriodIndex → event) (ss : list Z) P :
  concat ((λ k, ev (Some k) <$> P) <$> ss) = uncurry ev <$> slots (Some ss) P.
Proof.
  unfold slots. induction ss as [|k ss IH]; [done|]. cbn.
  rewrite fmap_app, IH. f_equal. rewrite bind_singleton_fmap, <- list_fmap_compose. done.
Qed.

(** One callback over every period block of every scenario of a model
    whose blocks all hold [u]. *)
Lemma for_each_period_uniform (ev : option Z → PeriodIndex → event) (f : U → U)
    m0 P (u : U) evs :
  (∀ ss, set_scenarios m0 = Some ss → NoDup ss) → NoDup P →
  for_each_period (λ s p, call_on_period (ev s p) f s p) (uniform_model m0 P u evs)
  = (uniform_model m0 P (f u)
       (evs ++ (uncurry ev <$> slots (set_scenarios m0) P)), Ok ()).
Proof.
  intros Hss HP. unfold for_each_period.
  rewrite (bind_Ok _ get _ _ (uniform_model m0 P u evs)) by done.
  unfold uniform_model at 1. cbn [set_scenarios].
  destruct (set_scenarios m0) as [ss|] eqn:Hsc.
  - rewrite (scenario_loop _ (λ k, ev (Some k) <$> P)
               (uniform_periods P (f u)) (uniform_periods P u) ss
               (uniform_model m0 P u evs)).
    + f_equal. unfold uniform_model, logs, set_scenario. rewrite Hsc. cbn.
      rewrite slots_events. f_equal. rewrite <- list_fmap_compose.
      apply list_fmap_ext. intros i k Hi. cbn.
      rewrite decide_True; [done|]. by apply list_elem_of_lookup_2 in Hi.
    + intros k m Hk _ Hnd HB.
      rewrite (bind_Ok _ get m m m) by done.
      unfold get_periods at 1. rewrite HB. cbn [from_option id]. rewrite uniform_periods_fst.
      rewrite sweep_container; [|split; [done|by eexists]|done].
      unfold get_periods. rewrite HB. cbn [from_option id]. by rewrite alter_in_uniform.
    + done.
    + by apply Hss.
    + unfold uniform_model. rewrite Hsc. cbn. rewrite <- list_fmap_compose.
      rewrite list_fmap_id. by apply Hss.
    + intros k Hk. unfold uniform_model. rewrite Hsc. cbn.
      by apply (assoc_get_fmap_const (λ _, uniform_periods P u)).
  - rewrite (bind_Ok _ get _ _ (uniform_model m0 P u evs)) by done.
    unfold uniform_model at 1. rewrite Hsc. cbn [period]. rewrite uniform_periods_fst.
    rewrite sweep_container; [|done|done]. f_equal.
    unfold uniform_model, logs, put_periods, get_periods, set_period_blocks, slots.
    rewrite Hsc. cbn -[alter_in uniform_periods].
    rewrite alter_in_uniform, bind_singleton_fmap.
    by rewrite <- list_fmap_compose.
Qed.

Lemma build_scenario_model_spec s m :
  valid_scenario s m → NoDup (set_period m) →
  _build_scenario_model empty_block create_process_model flowsheet_options s m
  = (logs (ev_create_period s <$> set_period m)
       (put_periods s
          (uniform_periods (set_period m)
             (create_process_model empty_block flowsheet_options)) m), Ok ()).
Proof.
  intros Hs HP. unfold _build_scenario_model.
  rewrite (bind_Ok _ get m m m) by done.
  set (m1 := put_periods s (uniform_periods (set_period m) empty_block) m).
  rewrite (bind_Ok _ _ m m1 ()) by done.
  rewrite sweep_container; [|by apply valid_put_periods|done]. f_equal.
  unfold m1. rewrite get_put_periods by done.
  by rewrite alter_in_uniform, put_put_periods.
Qed.

(** The state a stochastic build reaches and what it returns. *)
Lemma build_stochastic_spec m0 :
  (∀ ss, set_scenarios m0 = Some ss → NoDup ss) →
  let P := Set_initialize (compose_set_period m0) in
  let S := slots (set_scenarios m0) P in
  let u1 := create_process_model empty_block flowsheet_options in
  let evs1 := calls m0 ++ (uncurry ev_create_period <$> S) in
  build m0 =
    match initialization_func with
    | None => (uniform_model m0 P u1 evs1, Ok ())
    | Some initialize =>
        let '(blk, res) := solve (initialize u1 initialization_options) in
        let evs2 := evs1 ++ [ev_create_instance; ev_initialize; ev_solve] in
        if check_optimal_termination res then
          let u2 := from_json u1 (to_json blk) in
          let evs3 := evs2 ++ [ev_to_json] ++ (uncurry ev_from_json <$> S) in
          match unfix_dof_func with
          | None => (uniform_model m0 P u2 evs3, Ok ())
          | Some unfix =>
              (uniform_model m0 P (unfix u2 unfix_dof_options)
                 (evs3 ++ (uncurry ev_unfix_dof <$> S)), Ok ())
          end
        else (uniform_model m0 P u1 evs2, Raise AssertionError)
    end.
Proof.
  intros Hss P S u1 evs1.
  assert (NoDup P) as HP by apply NoDup_Set_initialize.
  unfold build_stochastic_multiperiod.
  rewrite (bind_Ok _ get m0 m0 m0) by done. fold P.
  set (m1 := set_set_period P m0).
  rewrite (bind_Ok _ _ m0 m1 ()) by done.
  (* the period blocks *)
  rewrite (bind_Ok _ _ m1 (uniform_model m0 P u1 evs1) ()); cycle 1.
  { unfold evs1, S, uniform_model. destruct (set_scenarios m0) as [ss|] eqn:Hsc.
    - set (m2 := set_scenario ((λ s : Z, (s, [] : @Periods U V)) <$> ss) m1).
      rewrite (bind_Ok _ _ m1 m2 ()) by done.
      rewrite (scenario_loop _ (λ k, ev_create_period (Some k) <$> P)
                 (uniform_periods P u1) [] ss m1 m2).
      + f_equal. unfold logs, set_scenario. cbn. rewrite slots_events. f_equal; [exact Hsc|].
        rewrite <- list_fmap_compose. apply list_fmap_ext. intros i k Hi. cbn.
        rewrite decide_True; [done|]. by apply list_elem_of_lookup_2 in Hi.
      + intros k m Hk HPm Hnd HB.
        rewrite build_scenario_model_spec.
        * by rewrite HPm.
        * split; [done|by eexists].
        * by rewrite HPm.
      + done.
      + by apply Hss.
      + cbn. rewrite <- list_fmap_compose, list_fmap_id. by apply Hss.
      + intros k Hk. cbn. by apply (assoc_get_fmap_const (λ _, [])).
    - rewrite build_scenario_model_spec by done. f_equal.
      unfold logs, put_periods, set_period_blocks, slots. cbn.
      rewrite bind_singleton_fmap, <- list_fmap_compose. by rewrite Hsc. }
  (* the initialization routine *)
  destruct initialization_func as [initialize|]; [|done].
  assert (∀ e evs u, modify (log e) (uniform_model m0 P u evs)
                     = (uniform_model m0 P u (evs ++ [e]), Ok ())) as Hlog by done.
  rewrite (bind_Ok _ _ _ _ () (Hlog _ _ _)).
  rewrite (bind_Ok _ _ _ _ () (Hlog _ _ _)).
  rewrite (bind_Ok _ _ _ _ () (Hlog _ _ _)).
  fold u1. destruct (solve (initialize u1 initialization_options)) as [blk res].
  rewrite <- !app_assoc. cbn [app].
  destruct (check_optimal_termination res); [|done].
  rewrite (bind_Ok _ (mret ()) _ _ ()) by done.
  rewrite (bind_Ok _ _ _ _ () (Hlog _ _ _)).
  rewrite (bind_Ok _ _ _ _ () (for_each_period_uniform _ _ _ _ _ _ Hss HP)).
  rewrite <- !app_assoc. cbn [app].
  destruct unfix_dof_func as [unfix|]; [|done].
  rewrite (for_each_period_uniform _ _ _ _ _ _ Hss HP).
  by rewrite <- !app_assoc.
Qed.

(** The blocks of a model whose blocks all hold [u]. *)
Lemma uniform_model_block m0 P (u : U) evs s p :
  (s, p) ∈ slots (set_scenarios m0) P →
  period_block s p (uniform_model m0 P u evs) = Some (new_process u).
Proof.
  unfold slots, period_block, get_periods, uniform_model.
  destruct (set_scenarios m0) as [ss|] eqn:Hsc; cbn [scenario period].
  - intros Hin. apply list_elem_of_bind in Hin as (k & Hin & Hk).
    rewrite bind_singleton_fmap in Hin. apply list_elem_of_fmap in Hin as (q & [= -> ->] & Hq).
    rewrite (assoc_get_fmap_const (λ _, uniform_periods P u)) by done. cbn.
    by apply (assoc_get_fmap_const (λ _, new_process u)).
  - rewrite bind_singleton_fmap. intros Hin.
    apply list_elem_of_fmap in Hin as (q & [= -> ->] & Hq).
    by apply (assoc_get_fmap_const (λ _, new_process u)).
Qed.

(** No period container of such a model holds a sequential edge. *)
Lemma uniform_model_no_edges m0 P (u : U) evs s X :
  (s, X) ∈ all_periods (uniform_model m0 P u evs) →
  period_sequential_edges X = [].
Proof.
  unfold all_periods, uniform_model. cbn [set_scenarios scenario period].
  destruct (set_scenarios m0) as [ss|]; intros Hin.
  - rewrite <- list_fmap_compose in Hin.
    apply list_elem_of_fmap in Hin as (k & [= -> ->] & _).
    unfold period_sequential_edges. apply omap_all_None.
    intros [q b] Hq. apply list_elem_of_fmap in Hq as (q' & [= -> ->] & _). done.
  - apply list_elem_of_singleton in Hin as [= -> ->].
    unfold period_sequential_edges. apply omap_all_None.
    intros [q b] Hq. apply list_elem_of_fmap in Hq as (q' & [= -> ->] & _). done.
Qed.

Lemma stochastic_init_scenarios n days years scenarios ss :
  set_scenarios (stochastic_init (U := U) (V := V) n days years scenarios) = Some ss →
  NoDup ss.
Proof.
  cbn. destruct scenarios as [l|]; [|done]. intros [= <-]. apply NoDup_Set_initialize.
Qed.

(** A stochastic build attaches no container to any period block. *)
Lemma stochastic_build_no_edges n days years scenarios s X :
  (s, X) ∈ all_periods (build (stochastic_init n days years scenarios)).1 →
  period_sequential_edges X = [].
Proof.
  rewrite build_stochastic_spec by apply stochastic_init_scenarios.
  destruct initialization_func as [initialize|];
    [|cbn [fst]; apply uniform_model_no_edges].
  destruct (solve _) as [blk res].
  destruct (check_optimal_termination res); [|cbn [fst]; apply uniform_model_no_edges].
  destruct unfix_dof_func; cbn [fst]; apply uniform_model_no_edges.
Qed.

(** C9.  With an initialization function, the build makes one instance
    beside the period blocks, initializes it and solves it, once each.
    If the solve is not optimal the build raises [AssertionError]: no
    snapshot was taken, [from_json] was called on no period, and every
    period block is as the factory left it.  If it is optimal the build
    completes: the snapshot of the solved instance was loaded in every
    period block of every scenario, all of these calls coming before the
    first unfix call, and each block holds the snapshot loaded on the
    factory's block, unfixed afterwards when an unfix callback is given. *)
Theorem stochastic_build_initialization n days years scenarios initialize :
  initialization_func = Some initialize →
  let m0 := stochastic_init n days years scenarios in
  let P := Set_initialize (compose_set_period m0) in
  let S := slots (set_scenarios m0) P in
  let u1 := create_process_model empty_block flowsheet_options in
  let solved := solve (initialize u1 initialization_options) in
  let snapshot := to_json solved.1 in
  let creates := uncurry ev_create_period <$> S in
  ∃ m r,
    build m0 = (m, r)
    ∧ set_period m = P
    ∧ filter (λ e, e ∈ [ev_create_instance; ev_initialize; ev_solve]) (calls m)
      = [ev_create_instance; ev_initialize; ev_solve]
    ∧ if check_optimal_termination solved.2 then
        r = Ok ()
        ∧ calls m
          = creates ++ [ev_create_instance; ev_initialize; ev_solve; ev_to_json]
              ++ (uncurry ev_from_json <$> S)
              ++ match unfix_dof_func with
                 | Some _ => uncurry ev_unfix_dof <$> S
                 | None => []
                 end
        ∧ ∀ s p, (s, p) ∈ S →
            period_block s p m
            = Some (new_process
                      match unfix_dof_func with
                      | Some unfix => unfix (from_json u1 snapshot) unfix_dof_options
                      | None => from_json u1 snapshot
                      end)
      else
        r = Raise AssertionError
        ∧ calls m = creates ++ [ev_create_instance; ev_initialize; ev_solve]
        ∧ (ev_to_json ∉ calls m)
        ∧ (∀ s p, ev_from_json s p ∉ calls m)
        ∧ ∀ s p, (s, p) ∈ S → period_block s p m = Some (new_process u1).
Proof.
  intros Hinit m0 P S u1 solved snapshot creates.
  pose proof (build_stochastic_spec m0 (stochastic_init_scenarios n days years scenarios))
    as Hspec.
  rewrite Hinit in Hspec |- *. cbv zeta in Hspec. fold P S u1 solved in Hspec.
  assert (∀ (ev : option Z → PeriodIndex → event),
            (∀ s p, ev s p ∉ [ev_create_instance; ev_initialize; ev_solve]) →
            filter (λ e, e ∈ [ev_create_instance; ev_initialize; ev_solve])
                   (uncurry ev <$> S) = []) as Hnone.
  { intros ev Hev. apply filter_none. intros e He.
    apply list_elem_of_fmap in He as ([s p] & -> & _). apply Hev. }
  assert (∀ ev : option Z → PeriodIndex → event,
            (∀ s p, (ev s p ≠ ev_create_instance) ∧ (ev s p ≠ ev_initialize)
                    ∧ (ev s p ≠ ev_solve)) →
            ∀ s p, ev s p ∉ [ev_create_instance; ev_initialize; ev_solve]) as Hnot.
  { intros ev Hev s p Hin. destruct (Hev s p) as (? & ? & ?).
    repeat (apply elem_of_cons in Hin as [?|Hin]; [done|]). by apply elem_of_nil in Hin. }
  pose proof (Hnone ev_create_period (Hnot ev_create_period ltac:(intros; repeat split; discriminate))) as Hf1.
  pose proof (Hnone ev_from_json (Hnot ev_from_json ltac:(intros; repeat split; discriminate))) as Hf2.
  pose proof (Hnone ev_unfix_dof (Hnot ev_unfix_dof ltac:(intros; repeat split; discriminate))) as Hf3.
  fold creates in Hspec, Hf1.
  assert (∀ e, (∀ s p, e ≠ ev_create_period s p) → e ≠ ev_create_instance →
               e ≠ ev_initialize → e ≠ ev_solve →
               e ∉ creates ++ [ev_create_instance; ev_initialize; ev_solve]) as Hout.
  { intros e He ? ? ? Hin. apply elem_of_app in Hin as [Hin|Hin].
    - apply list_elem_of_fmap in Hin as ([s p] & -> & _). by apply (He s p).
    - repeat (apply elem_of_cons in Hin as [?|Hin]; [done|]).
      by apply elem_of_nil in Hin. }
  change (calls m0) with (@nil event) in Hspec. rewrite app_nil_l in Hspec.
  destruct solved as [blk res] eqn:Hsolved. cbn [fst snd] in *.
  destruct (check_optimal_termination res).
  - destruct unfix_dof_func as [unfix|].
    + eexists _, _. split; [exact Hspec|]. cbn [set_period calls uniform_model].
      split; [done|]. split.
      { rewrite !filter_app, Hf1, Hf2, Hf3. done. }
      split; [done|]. split; [by rewrite <- !app_assoc|].
      intros s p Hsp. by apply uniform_model_block.
    + eexists _, _. split; [exact Hspec|]. cbn [set_period calls uniform_model].
      split; [done|]. split.
      { rewrite !filter_app, Hf1, Hf2. done. }
      split; [done|]. split; [by rewrite app_nil_r, <- !app_assoc|].
      intros s p Hsp. by apply uniform_model_block.
  - eexists _, _. split; [exact Hspec|]. cbn [set_period calls uniform_model].
    split; [done|]. split.
    { rewrite !filter_app, Hf1. done. }
    split; [done|]. split; [done|].
    split; [by apply Hout|]. split; [intros s p; by apply Hout|].
    intros s p Hsp. by apply uniform_model_block.
Qed.
End StochasticFacts.

Section PriceTakerFacts.
Import PriceTaker.
Local Open Scope nat_scope.

(** * Reshaping the raw series *)

Lemma div_bounds (len h : nat) : 0 < h → (len / h) * h ≤ len < S (len / h) * h.
Proof.
  intros Hh. pose proof (Nat.div_mod_eq len h) as Hdm.
  pose proof (Nat.mod_upper_bound len h ltac:(lia)) as Hmod. nia.
Qed.

Lemma generate_daily_loop_spec (h : nat) (raw_data : list Q) (k d0 fuel : nat)
    (df : DailyData) :
  0 < h → d0 + k = length raw_data / h → k < fuel →
  generate_daily_loop fuel h raw_data (d0 * h) (S d0 * h) (S d0) df
  = Some (foldl (λ df d, DataFrame_setitem df d (day_block h raw_data d)) df
                (seq (S d0) k)).
Proof.
  intros Hh. revert d0 fuel df. induction k as [|k IH]; intros d0 fuel df HD Hfuel.
  - destruct fuel as [|fuel]; [lia|]. cbn [generate_daily_loop seq foldl].
    rewrite decide_False; [done|]. pose proof (div_bounds (length raw_data) h Hh) as Hb.
    rewrite <- HD in Hb. nia.
  - destruct fuel as [|fuel]; [lia|]. cbn [generate_daily_loop seq foldl].
    rewrite decide_True; cycle 1.
    { pose proof (div_bounds (length raw_data) h Hh) as Hb. rewrite <- HD in Hb. nia. }
    replace (S d0 * h + h) with (S (S d0) * h) by lia.
    replace (S d0 + 1) with (S (S d0)) by lia.
    assert (py_slice raw_data (d0 * h) (S d0 * h) = day_block h raw_data (S d0)) as ->.
    { unfold day_block. by replace (S d0 - 1) with d0 by lia. }
    by rewrite IH by lia.
Qed.

Lemma generate_daily_data_fold (self : PriceTakerModel) (raw_data : list Q)
    (day_list : list nat) :
  0 < _horizon_length self →
  generate_daily_data self raw_data day_list
  = Some (foldl (λ df d, DataFrame_setitem df d
                           (day_block (_horizon_length self) raw_data d))
                (DataFrame_new day_list)
                (seq 1 (length raw_data / _horizon_length self))).
Proof.
  intros Hh. unfold generate_daily_data.
  pose proof (div_bounds (length raw_data) _ Hh) as Hb.
  pose proof (generate_daily_loop_spec (_horizon_length self) raw_data
                (length raw_data / _horizon_length self) 0 (S (length raw_data))
                (DataFrame_new day_list) Hh eq_refl ltac:(nia)) as Hloop.
  rewrite Nat.mul_0_l, Nat.mul_1_l in Hloop. exact Hloop.
Qed.

(** With horizon [0] the loop never leaves: no fuel is enough. *)
Lemma generate_daily_loop_zero (fuel : nat) (raw_data : list Q) (i day : nat)
    (df : DailyData) :
  generate_daily_loop fuel 0 raw_data i 0 day df = None.
Proof.
  revert i day df. induction fuel as [|fuel IH]; intros i day df; [done|].
  cbn [generate_daily_loop]. rewrite decide_True by lia. apply IH.
Qed.

(** ** Columns assigned one by one *)

Section SetitemFacts.
Implicit Types (df : DailyData) (d : nat) (c : list Q).

Lemma setitem_lookup df d d' c :
  assoc_get d' (DataFrame_setitem df d c)
  = if decide (d = d') then Some (Some c) else assoc_get d' df.
Proof.
  induction df as [|[d0 c0] df IH]; cbn.
  - by case_decide.
  - destruct (decide (d0 = d)) as [->|Hne]; cbn.
    + destruct (decide (d = d')); done.
    + destruct (decide (d0 = d')) as [->|Hne'].
      * by rewrite decide_False by done.
      * apply IH.
Qed.

Lemma setitem_keys df d c :
  (DataFrame_setitem df d c).*1 = if decide (d ∈ df.*1) then df.*1 else df.*1 ++ [d].
Proof.
  induction df as [|[d0 c0] df IH]; cbn.
  - rewrite decide_False; [done|]. apply not_elem_of_nil.
  - destruct (decide (d0 = d)) as [->|Hne]; cbn.
    + by rewrite decide_True by left.
    + rewrite IH. destruct (decide (d ∈ df.*1)) as [Hin|Hnin].
      * by rewrite decide_True by (by right).
      * rewrite decide_False; [done|]. intros Hin. apply elem_of_cons in Hin.
        destruct Hin; [by subst|done].
Qed.

Lemma setitem_keys_elem_of df d c d' :
  d' ∈ (DataFrame_setitem df d c).*1 ↔ d' ∈ df.*1 ∨ d' = d.
Proof.
  rewrite setitem_keys. case_decide.
  - split; [by left|]. intros [?| ->]; done.
  - rewrite elem_of_app, list_elem_of_singleton. done.
Qed.

Lemma setitem_keys_NoDup df d c : NoDup df.*1 → NoDup (DataFrame_setitem df d c).*1.
Proof.
  intros Hnd. rewrite setitem_keys. case_decide; [done|].
  apply NoDup_app. split; [done|]. split; [|apply NoDup_singleton].
  intros x Hx Hx'. apply list_elem_of_singleton in Hx'. by subst.
Qed.

Variable g : nat → list Q.

Lemma fold_setitem_lookup (ds : list nat) df d :
  assoc_get d (foldl (λ df d, DataFrame_setitem df d (g d)) df ds)
  = if decide (d ∈ ds) then Some (Some (g d)) else assoc_get d df.
Proof.
  revert df. induction ds as [|d0 ds IH]; intros df; cbn [foldl].
  - rewrite decide_False; [done|]. apply not_elem_of_nil.
  - rewrite IH, setitem_lookup. destruct (decide (d ∈ ds)) as [Hin|Hnin].
    + by rewrite decide_True by (by right).
    + destruct (decide (d0 = d)) as [->|Hne].
      * by rewrite decide_True by left.
      * rewrite decide_False; [done|]. intros Hin. apply elem_of_cons in Hin.
        destruct Hin; [by subst|done].
Qed.

Lemma fold_setitem_keys (ds : list nat) df :
  NoDup df.*1 →
  NoDup (foldl (λ df d, DataFrame_setitem df d (g d)) df ds).*1
  ∧ ∀ d, d ∈ (foldl (λ df d, DataFrame_setitem df d (g d)) df ds).*1
         ↔ d ∈ df.*1 ∨ d ∈ ds.
Proof.
  revert df. induction ds as [|d0 ds IH]; intros df Hnd; cbn [foldl].
  - split; [done|]. intros d. split; [by left|]. intros [?|Hd]; [done|].
    by apply elem_of_nil in Hd.
  - destruct (IH (DataFrame_setitem df d0 (g d0))) as [Hnd' Hin];
      [by apply setitem_keys_NoDup|].
    split; [done|]. intros d. rewrite Hin, setitem_keys_elem_of, elem_of_cons. tauto.
Qed.

(** Assigning every declared column fills the frame in its own order. *)
Lemma fold_setitem_all (ds : list nat) :
  NoDup ds →
  foldl (λ df d, DataFrame_setitem df d (g d)) (DataFrame_new ds) ds
  = (λ d, (d, Some (g d))) <$> ds.
Proof.
  intros Hnd.
  assert (∀ (done todo : list nat),
            NoDup (done ++ todo) →
            foldl (λ df d, DataFrame_setitem df d (g d))
                  (((λ d, (d, Some (g d))) <$> done) ++ DataFrame_new todo) todo
            = (λ d, (d, Some (g d))) <$> (done ++ todo)) as Hgen.
  { intros done todo. revert done. induction todo as [|d todo IH]; intros done Hnd'.
    - by rewrite !app_nil_r.
    - cbn [foldl].
      assert (DataFrame_setitem
                (((λ d, (d, Some (g d))) <$> done) ++ DataFrame_new (d :: todo)) d (g d)
              = ((λ d, (d, Some (g d))) <$> (done ++ [d])) ++ DataFrame_new todo) as ->.
      { apply NoDup_app in Hnd' as (_ & Hdis & _).
        assert (d ∉ done) as Hd by (intros Hd; apply (Hdis d Hd); left).
        clear -Hd. induction done as [|d' done IH]; cbn.
        - by rewrite decide_True.
        - rewrite decide_False by (intros ->; apply Hd; left).
          f_equal. apply IH. intros Hin. apply Hd. by right. }
      rewrite IH; [by rewrite <- app_assoc|]. by rewrite <- app_assoc. }
  apply (Hgen [] ds Hnd).
Qed.
End SetitemFacts.

Lemma day_block_length (h : nat) (raw_data : list Q) (d : nat) :
  0 < h → 1 ≤ d ≤ length raw_data / h → length (day_block h raw_data d) = h.
Proof.
  intros Hh Hd. pose proof (div_bounds (length raw_data) h Hh) as Hb.
  unfold day_block, py_slice. rewrite length_take, length_drop. nia.
Qed.

Lemma day_blocks_concat (h : nat) (raw_data : list Q) (D : nat) :
  concat (day_block h raw_data <$> seq 1 D) = take (D * h) raw_data.
Proof.
  induction D as [|D IH]; [done|].
  rewrite seq_S, fmap_app, concat_app, IH. cbn [fmap list_fmap concat].
  rewrite app_nil_r. unfold day_block, py_slice.
  replace (1 + D - 1) with D by lia.
  replace ((1 + D) * h - D * h) with h by lia.
  rewrite take_take_drop. f_equal. lia.
Qed.

(** C8.  For a positive horizon [h] and day labels taken from
    [1 .. len // h] (the caller passes all of them), [generate_daily_data]
    returns a frame of exactly [len // h] columns; the column of day [d] is
    the block of [h] consecutive samples [raw_data[(d-1)*h : d*h]]; in day
    order the columns make up the first [(len // h) * h] samples, so a last
    partial block is left out; and 48 samples with horizon 24 give exactly
    2 columns. *)
Theorem generate_daily_data_partition (self : PriceTakerModel) (raw_data : list Q)
    (day_list : list nat) :
  let h := _horizon_length self in
  let D := length raw_data / h in
  0 < h → NoDup day_list → (∀ d, d ∈ day_list → 1 ≤ d ≤ D) →
  ∃ daily_data,
    generate_daily_data self raw_data day_list = Some daily_data
    ∧ length daily_data = D
    ∧ (∀ d, 1 ≤ d ≤ D → assoc_get d daily_data = Some (Some (day_block h raw_data d)))
    ∧ (∀ d, 1 ≤ d ≤ D → length (day_block h raw_data d) = h)
    ∧ concat (day_block h raw_data <$> seq 1 D) = take (D * h) raw_data
    ∧ (length raw_data = 48 → h = 24 → length daily_data = 2).
Proof.
  intros h D Hh Hnd Hdays. eexists. split; [by apply generate_daily_data_fold|].
  fold h D.
  destruct (fold_setitem_keys (day_block h raw_data) (seq 1 D) (DataFrame_new day_list))
    as [Hnd' Hin].
  { unfold DataFrame_new. by rewrite <- list_fmap_compose, list_fmap_id. }
  assert (length (foldl (λ df d, DataFrame_setitem df d (day_block h raw_data d))
                        (DataFrame_new day_list) (seq 1 D)) = D) as Hlen.
  { rewrite <- (length_fmap fst). transitivity (length (seq 1 D)); [|apply length_seq].
    apply Permutation_length, NoDup_Permutation; [done|apply NoDup_seq|].
    intros d. rewrite Hin, !elem_of_seq. unfold DataFrame_new.
    rewrite <- list_fmap_compose, list_fmap_id. split.
    - intros [Hd|Hd]; [apply Hdays in Hd|]; lia.
    - intros Hd. right. lia. }
  split; [done|]. split.
  { intros d Hd. rewrite fold_setitem_lookup. rewrite decide_True; [done|].
    apply elem_of_seq. lia. }
  split; [intros d Hd; by apply day_block_length|].
  split; [apply day_blocks_concat|].
  intros H48 H24. rewrite Hlen. unfold D. by rewrite H48, H24.
Qed.

(** * Cluster weights *)

Lemma sum_list_alter_S (w : list nat) (l : nat) :
  l < length w → sum_list (alter S l w) = S (sum_list w).
Proof.
  revert l. induction w as [|x w IH]; intros l Hl; [cbn in Hl; lia|].
  destruct l as [|l]; cbn; [done|]. cbn in Hl. rewrite IH by lia. lia.
Qed.

(** The inner loop over [range(n_clusters)] bumps the counter of the label,
    when the label is a cluster number. *)
Lemma weight_inner_loop (k label : nat) (w : list nat) :
  foldl (λ w c, if decide (label = c) then alter S c w else w) w (seq 0 k)
  = if decide (label < k) then alter S label w else w.
Proof.
  induction k as [|k IH]; [by rewrite decide_False by lia|].
  rewrite seq_S, foldl_app, IH. cbn [foldl]. rewrite Nat.add_0_l.
  destruct (decide (label = k)) as [->|Hne].
  - rewrite decide_False by lia. by rewrite decide_True by lia.
  - destruct (decide (label < k)).
    + by rewrite decide_True by lia.
    + by rewrite decide_False by lia.
Qed.

Lemma count_weights_fold (k : nat) (labels : list nat) :
  count_weights k labels
  = foldl (λ w label, if decide (label < k) then alter S label w else w)
          (replicate k 0) labels.
Proof.
  unfold count_weights. generalize (replicate k 0).
  induction labels as [|label labels IH]; intros w; [done|].
  cbn [foldl]. by rewrite weight_inner_loop, IH.
Qed.

Section WeightFacts.
Variable k : nat.
Local Abbreviation step :=
  (λ (w : list nat) (label : nat), if decide (label < k) then alter S label w else w).

Lemma weights_length (labels : list nat) (w : list nat) :
  length (foldl step w labels) = length w.
Proof.
  revert w. induction labels as [|label labels IH]; intros w; [done|].
  cbn [foldl]. rewrite IH. case_decide; [apply length_alter|done].
Qed.

Lemma weights_sum (labels : list nat) (w : list nat) :
  length w = k →
  sum_list (foldl step w labels)
  = sum_list w + length (filter (λ label, label < k) labels).
Proof.
  revert w. induction labels as [|label labels IH]; intros w Hw; [cbn; lia|].
  cbn [foldl]. rewrite IH by (case_decide; [by rewrite length_alter|done]).
  destruct (decide (label < k)) as [Hl|Hl].
  - rewrite filter_cons_True by done. rewrite sum_list_alter_S by lia. cbn. lia.
  - by rewrite filter_cons_False by done.
Qed.

Lemma weights_lookup (labels : list nat) (w : list nat) (c : nat) :
  c < k →
  foldl step w labels !! c
  = (λ n, n + length (filter (λ label, label = c) labels)) <$> w !! c.
Proof.
  intros Hc. revert w. induction labels as [|label labels IH]; intros w.
  - cbn. destruct (w !! c); cbn; [f_equal; lia|done].
  - cbn [foldl]. rewrite IH. destruct (decide (label = c)) as [->|Hne].
    + rewrite decide_True by done. rewrite filter_cons_True by done.
      rewrite list_lookup_alter_eq. destruct (w !! c); cbn; [f_equal; lia|done].
    + rewrite filter_cons_False by done. case_decide; [|done].
      by rewrite list_lookup_alter_ne by done.
Qed.
End WeightFacts.

(** The counter of cluster [c] is the number of samples labelled [c]; the
    counters are [n_clusters] many and add up to the number of samples whose
    label is a cluster number. *)
Lemma count_weights_spec (k : nat) (labels : list nat) :
  length (count_weights k labels) = k
  ∧ sum_list (count_weights k labels) = length (filter (λ label, label < k) labels)
  ∧ ∀ c, c < k →
      count_weights k labels !! c = Some (length (filter (λ label, label = c) labels)).
Proof.
  rewrite count_weights_fold. split; [|split].
  - by rewrite weights_length, length_replicate.
  - rewrite weights_sum by apply length_replicate.
    assert (sum_list (replicate k 0) = 0) as -> by (induction k; [done|by cbn]). done.
  - intros c Hc. rewrite weights_lookup by done.
    by rewrite lookup_replicate_2 by done.
Qed.

Lemma total_weight_sum (k : nat) (weights_counter : list nat) :
  length weights_counter = k →
  total_weight k {[ 0 := map_seq 1 weights_counter ]} = sum_list weights_counter.
Proof.
  intros Hk. unfold total_weight. rewrite lookup_singleton_eq. cbn [mbind option_bind].
  f_equal. apply list_eq. intros i. rewrite list_lookup_fmap.
  destruct (decide (i < k)) as [Hi|Hi].
  - rewrite lookup_seq_lt by done. cbn.
    rewrite lookup_map_seq, option_guard_True by lia.
    replace (S i - 1) with i by lia.
    destruct (weights_counter !! i) eqn:Hw; [done|].
    apply lookup_ge_None in Hw. lia.
  - rewrite lookup_seq_ge by lia. cbn. symmetry. apply lookup_ge_None. lia.
Qed.

(** * The clustering pipeline *)

Section ClusteringFacts.
Context {L : Type} `{EqDecision L}.
Context {RNG : Type}.
Variable np_random_seed : Z → RNG.
Variable KMeans_fit : nat → list (list Q) → Run RNG KMeansFit.
Variable KneeLocator_knee : list nat → list Q → option nat.

Local Abbreviation cluster := (cluster_lmp_data (L := L) KMeans_fit).
Local Abbreviation optimal :=
  (get_optimal_n_clusters np_random_seed KMeans_fit KneeLocator_knee).

(** What [reconfigure_raw_data] returns on a frame: the blocks of the
    first scenario column, one column per complete day. *)
Lemma reconfigure_raw_data_Ok (self : PriceTakerModel) (raw_data : @DataFrame L)
    daily_data scenarios :
  DataFrame_wf raw_data →
  reconfigure_raw_data self raw_data = Ok (daily_data, scenarios) →
  0 < _horizon_length self
  ∧ ∃ column,
      length column = DataFrame_len raw_data
      ∧ daily_data
        = (λ d, (d, Some (day_block (_horizon_length self) column d)))
            <$> seq 1 (DataFrame_len raw_data / _horizon_length self).
Proof.
  intros Hwf. unfold reconfigure_raw_data.
  destruct (decide (_horizon_length self = 0)) as [|Hh]; [done|].
  destruct (take 1 (drop 2 raw_data.*1)) as [|i ?]; [done|].
  unfold DataFrame_getitem.
  destruct (list_find _ raw_data) as [[n [i' column]]|] eqn:Hfind; [|done].
  apply list_find_Some in Hfind as (Hn & _ & _).
  apply list_elem_of_lookup_2, Hwf in Hn. cbn in Hn.
  rewrite generate_daily_data_fold by lia.
  rewrite Hn, fold_setitem_all by apply NoDup_seq.
  intros [= <- <-]. split; [lia|]. by exists column.
Qed.

Lemma transpose_daily (g : nat → list Q) (days : list nat) :
  transpose ((λ d, (d, Some (g d))) <$> days) = Ok (g <$> days).
Proof.
  unfold transpose.
  assert (mapM snd ((λ d, (d, Some (g d))) <$> days) = Some (g <$> days)) as ->; [|done].
  apply mapM_Some. induction days as [|d days IH]; cbn; constructor; done.
Qed.

(** C6.  Whenever [cluster_lmp_data] returns on a frame, for a k-means
    that labels every sample with a cluster number below [n_clusters],
    the weights it returns add up to the number of complete days,
    [len(raw_data) // horizon_length], which is the number of samples
    clustered; and the weight of cluster [c + 1] is the number of days
    the fit labelled [c]. *)
Theorem cluster_lmp_data_weights (self : PriceTakerModel) (raw_data : @DataFrame L)
    (n_clusters : nat) (g g' : RNG) lmp_data weights :
  (∀ k X g0 g1 fit, KMeans_fit k X g0 = (g1, Ok fit) →
     length (labels_ fit) = length X ∧ Forall (λ label, label < k) (labels_ fit)) →
  DataFrame_wf raw_data →
  cluster self raw_data n_clusters g = (g', Ok (lmp_data, weights)) →
  total_weight n_clusters weights = DataFrame_len raw_data / _horizon_length self
  ∧ ∃ X fit,
      KMeans_fit n_clusters X g = (g', Ok fit)
      ∧ length X = DataFrame_len raw_data / _horizon_length self
      ∧ ∀ c, c < n_clusters →
          weights !! 0 ≫= (λ w, w !! S c)
          = Some (length (filter (λ label, label = c) (labels_ fit))).
Proof.
  intros Hfit Hwf. unfold cluster_lmp_data.
  rewrite bind_unfold. unfold lift at 1.
  destruct (reconfigure_raw_data self raw_data) as [[daily_data scenarios]|e] eqn:Hre;
    [|done].
  destruct (reconfigure_raw_data_Ok _ _ _ _ Hwf Hre) as (Hh & column & Hlen & ->).
  rewrite bind_unfold. unfold lift at 1. rewrite transpose_daily.
  rewrite bind_unfold.
  destruct (KMeans_fit n_clusters _ g) as [g1 [fit|e]] eqn:Hkm; [|done].
  destruct (Hfit _ _ _ _ _ Hkm) as [Hlabels Hrange].
  rewrite bind_unfold. unfold lift at 1.
  destruct (snap_centroids n_clusters (cluster_centers_ fit)) as [centroids [[]|e]];
    [|done].
  rewrite bind_unfold.
  destruct (decide (length centroids = n_clusters)); [|done].
  intros [= <- <- <-].
  destruct (count_weights_spec n_clusters (labels_ fit)) as (Hwlen & Hsum & Hcount).
  split.
  - rewrite total_weight_sum, Hsum by done.
    assert (filter (λ label, label < n_clusters) (labels_ fit) = labels_ fit) as ->.
    { clear -Hrange. induction Hrange as [|x l Hx Hl IH]; [done|].
      by rewrite filter_cons_True, IH by done. }
    by rewrite Hlabels, length_fmap, length_seq.
  - eexists _, fit. split; [done|]. split; [by rewrite length_fmap, length_seq|].
    intros c Hc. rewrite lookup_singleton_eq. cbn [mbind option_bind].
    rewrite lookup_map_seq, option_guard_True by lia.
    replace (S c - 1) with c by lia. by apply Hcount.
Qed.

(** C10.  [get_optimal_n_clusters] returns a cluster count only if the
    knee detector found one on the curve of the inertias it computed;
    when the fits succeed and the detector finds no knee ([knee] is
    [None]), the call raises [TypeError] at [n_clusters + 2 >= kmax]. *)
Theorem get_optimal_n_clusters_no_knee (self : PriceTakerModel)
    (daily_data : DailyData) (kmin kmax : option nat) (g : RNG) :
  let k_values := seq (default 4 kmin) (default 30 kmax - default 4 kmin) in
  (∀ g' n inertia_values,
     optimal self daily_data kmin kmax g = (g', Ok (n, inertia_values)) →
     inertia_loop KMeans_fit daily_data k_values [] (np_random_seed (_seed self))
       = (g', Ok inertia_values)
     ∧ KneeLocator_knee k_values inertia_values = Some n)
  ∧ (∀ g' inertia_values,
       inertia_loop KMeans_fit daily_data k_values [] (np_random_seed (_seed self))
         = (g', Ok inertia_values) →
       KneeLocator_knee k_values inertia_values = None →
       optimal self daily_data kmin kmax g = (g', Raise TypeError)).
Proof.
  intros k_values. unfold get_optimal_n_clusters. fold k_values.
  rewrite (bind_Ok _ _ g (np_random_seed (_seed self)) ()) by done.
  rewrite bind_unfold. split.
  - intros g' n inertia_values.
    destruct (inertia_loop _ _ _ _ _) as [g1 [iv|e]]; [|done].
    destruct (KneeLocator_knee k_values iv) as [n'|] eqn:Hknee; [|done].
    by intros [= <- <- <-].
  - intros g' inertia_values -> Hknee. by rewrite Hknee.
Qed.

(** [cluster_lmp_data] never reads the configured seed. *)
Lemma cluster_lmp_data_ignores_seed (seed1 seed2 : Z) (h : nat)
    (raw_data : @DataFrame L) (n_clusters : nat) (g : RNG) :
  cluster (mkPriceTaker seed1 h) raw_data n_clusters g
  = cluster (mkPriceTaker seed2 h) raw_data n_clusters g.
Proof. reflexivity. Qed.

(** [get_optimal_n_clusters] sets the generator from the seed first: its
    outcome does not depend on the generator's earlier state. *)
Lemma get_optimal_n_clusters_reseeds (self : PriceTakerModel) (daily_data : DailyData)
    (kmin kmax : option nat) (g1 g2 : RNG) :
  optimal self daily_data kmin kmax g1 = optimal self daily_data kmin kmax g2.
Proof. reflexivity. Qed.
End ClusteringFacts.

(** * The centroid clean-up *)

Lemma snap_spec (x : Q) : snap x = 0%Q ∨ (noise_threshold <= snap x)%Q.
Proof. unfold snap. destruct (Qlt_le_dec x noise_threshold); [by left|by right]. Qed.

Lemma snap_prefix_step (row : list Q) (n : nat) (x : Q) :
  row !! n = Some x →
  <[n := snap x]> ((snap <$> take n row) ++ drop n row)
  = (snap <$> take (S n) row) ++ drop (S n) row.
Proof.
  intros Hx. rewrite (take_S_r _ _ _ Hx), fmap_app, <- app_assoc. cbn [fmap list_fmap app].
  rewrite (drop_S _ _ _ Hx).
  assert (length (snap <$> take n row) = n) as Hlen.
  { rewrite length_fmap, length_take. apply lookup_lt_Some in Hx. lia. }
  rewrite <- Hlen at 1. rewrite <- (Nat.add_0_r (length _)), insert_app_r. done.
Qed.

(** The loop over [t] on row [d]. *)
Lemma snap_row_loop (d n : nat) (centroids : list (list Q)) (row : list Q) :
  centroids !! d = Some row → n ≤ length row →
  for_each (seq 0 n) (λ t, snap_entry d t) centroids
  = (<[d := (snap <$> take n row) ++ drop n row]> centroids, Ok ()).
Proof.
  intros Hd. induction n as [|n IH]; intros Hn.
  - cbn. by rewrite drop_0, list_insert_id.
  - rewrite seq_S, for_each_app, IH by lia. cbn [for_each].
    rewrite bind_unfold. unfold snap_entry.
    rewrite list_lookup_insert_eq by (by apply lookup_lt_Some in Hd).
    destruct (row !! n) as [x|] eqn:Hx; [|apply lookup_ge_None in Hx; lia].
    assert (((snap <$> take n row) ++ drop n row) !! (0 + n) = Some x) as ->.
    { rewrite lookup_app_r by (rewrite length_fmap, length_take; lia).
      rewrite length_fmap, length_take, lookup_drop.
      rewrite <- Hx. f_equal. lia. }
    rewrite <- (snap_prefix_step _ _ _ Hx). unfold snap.
    destruct (Qlt_le_dec x noise_threshold).
    + by rewrite list_insert_insert_eq.
    + rewrite (list_insert_id _ n x); [done|].
      rewrite lookup_app_r by (rewrite length_fmap, length_take; lia).
      rewrite length_fmap, length_take, lookup_drop. rewrite <- Hx. f_equal. lia.
Qed.

(** A row shorter than 24 stops the loop with [IndexError]. *)
Lemma snap_row_short (d : nat) (centroids : list (list Q)) (row : list Q) :
  centroids !! d = Some row → length row < 24 →
  ∃ centroids',
    for_each (seq 0 24) (λ t, snap_entry d t) centroids = (centroids', Raise IndexError).
Proof.
  intros Hd Hlen.
  replace 24 with (length row + S (24 - S (length row))) by lia.
  rewrite seq_app, for_each_app, (snap_row_loop d _ _ row) by done.
  cbn [seq for_each]. rewrite bind_unfold. unfold snap_entry at 1.
  rewrite list_lookup_insert_eq by (by apply lookup_lt_Some in Hd).
  rewrite firstn_all, drop_all, app_nil_r, Nat.add_0_l.
  rewrite (lookup_ge_None_2 _ (length row)) by by rewrite length_fmap.
  by eexists.
Qed.

(** The whole clean-up, on [n_clusters] centroid rows of at least 24
    entries each: every such row is cleaned on its first 24 entries. *)
Lemma snap_centroids_spec (n_clusters : nat) (centroids : list (list Q)) :
  n_clusters ≤ length centroids →
  Forall (λ row, 24 ≤ length row) (take n_clusters centroids) →
  snap_centroids n_clusters centroids
  = ((snap_row <$> take n_clusters centroids) ++ drop n_clusters centroids, Ok ()).
Proof.
  unfold snap_centroids. induction n_clusters as [|k IH]; intros Hk Hrows.
  - cbn. by rewrite drop_0.
  - destruct (centroids !! k) as [row|] eqn:Hrow; [|apply lookup_ge_None in Hrow; lia].
    rewrite (take_S_r _ _ _ Hrow) in Hrows. apply Forall_app in Hrows as [Hrows Hrow'].
    rewrite Forall_singleton in Hrow'.
    rewrite seq_S, for_each_app, IH by (done || lia). cbn [for_each].
    rewrite bind_unfold.
    assert (((snap_row <$> take k centroids) ++ drop k centroids) !! (0 + k) = Some row)
      as Hk'.
    { rewrite lookup_app_r by (rewrite length_fmap, length_take; lia).
      rewrite length_fmap, length_take, lookup_drop. rewrite <- Hrow. f_equal. lia. }
    rewrite (snap_row_loop (0 + k) 24 _ row Hk' Hrow'). cbn [Nat.add]. f_equal.
    fold (snap_row row).
    rewrite (take_S_r _ _ _ Hrow), fmap_app, <- app_assoc. cbn [fmap list_fmap app].
    rewrite (drop_S _ _ _ Hrow).
    assert (length (snap_row <$> take k centroids) = k) as Hlen
      by (rewrite length_fmap, length_take; lia).
    rewrite <- Hlen at 1. rewrite <- (Nat.add_0_r (length _)), insert_app_r. done.
Qed.

(** On rows of exactly 24 entries, every entry comes out at [0] or at least
    [1e-4]. *)
Lemma snap_row_24 (row : list Q) :
  length row = 24 → Forall (λ x, x = 0%Q ∨ (noise_threshold <= x)%Q) (snap_row row).
Proof.
  intros Hlen. unfold snap_row. rewrite drop_ge, app_nil_r by lia.
  apply Forall_fmap, Forall_forall. intros x _. apply snap_spec.
Qed.

End PriceTakerFacts.

Section Instances.
Import PriceTaker Demo.

(** * The claims on small instances *)








End Instances.

Section PriceTakerInstances.
Import PriceTaker Demo.
Local Open Scope nat_scope.


(** The stand-in k-means labels every sample with a cluster number. *)
Lemma demo_KMeans_labels (k : nat) (X : list (list Q)) (g0 g1 : nat) (fit : KMeansFit) :
  demo_KMeans k X g0 = (g1, Ok fit) →
  length (labels_ fit) = length X ∧ Forall (λ label, label < k) (labels_ fit).
Proof.
  unfold demo_KMeans. case_decide as Hk; [done|]. intros [= <- <-]. cbn. split.
  - by rewrite length_fmap, length_seq.
  - apply Forall_fmap, Forall_forall. intros i _. cbn. apply Nat.mod_upper_bound. lia.
Qed.

Lemma demo_table_wf (prices : list Q) : DataFrame_wf (demo_table prices).
Proof.
  intros column Hc. unfold demo_table in *.
  repeat (apply elem_of_cons in Hc as [->|Hc]); cbn; rewrite ?length_fmap; try done.
  by apply elem_of_nil in Hc.
Qed.

(** Two days of prices in two clusters: one day each. *)
Lemma cluster_lmp_data_weights_witness :
  ∃ lmp_data weights,
    demo_cluster 24 (demo_table two_days) 2 0 = (1, Ok (lmp_data, weights))
    ∧ total_weight 2 weights = 2.
Proof.
  destruct (demo_cluster 24 (demo_table two_days) 2 0) as [g' [[lmp_data weights]|e]]
    eqn:Hrun; [|vm_compute in Hrun; discriminate].
  assert (g' = 1) as -> by (vm_compute in Hrun; by injection Hrun as <-).
  exists lmp_data, weights. split; [reflexivity|].
  destruct (cluster_lmp_data_weights demo_KMeans (mkPriceTaker 20 24)
              (demo_table two_days) 2 0 1 lmp_data weights
              demo_KMeans_labels (demo_table_wf two_days) Hrun) as [Htotal _].
  exact Htotal.
Defined.

(** The spec's end-to-end scenario: 48 hourly prices, horizon 24. *)
Lemma generate_daily_data_partition_witness :
  ∃ daily_data,
    generate_daily_data (mkPriceTaker 20 24) two_days [1; 2] = Some daily_data
    ∧ length daily_data = 2.
Proof.
  destruct (generate_daily_data_partition (mkPriceTaker 20 24) two_days [1; 2])
    as (daily_data & Hrun & Hlen & _).
  - cbn. lia.
  - apply (NoDup_seq 1 2).
  - intros d Hd. vm_compute (length two_days / _). 
    repeat (apply elem_of_cons in Hd as [->|Hd]); [lia..|by apply elem_of_nil in Hd].
  - exists daily_data. split; [exact Hrun|]. exact Hlen.
Defined.

(** A stochastic build over two scenarios whose seed solve is not optimal. *)
Lemma stochastic_build_initialization_witness :
  ∃ m,
    demo_stochastic_build false 2 None None (Some [7; 8]%Z) = (m, Raise AssertionError)
    ∧ ∀ s p, ev_from_json s p ∉ calls m.
Proof.
  destruct (stochastic_build_initialization (V := Z) 0%Z (λ b o, (b + o)%Z)
              (Some (λ b o, (b + o)%Z)) (Some (λ b o, (b + o)%Z)) 1%Z 10%Z 100%Z
              (λ b, ((2 * b)%Z, false)) (λ r, r) (λ b, b) (λ _ j, j)
              2%Z None None (Some [7; 8]%Z) (λ b o, (b + o)%Z) eq_refl)
    as (m & r & Hrun & _ & _ & Hr & _ & _ & Hnone & _).
  exists m. cbn in Hr. subst r. split; [exact Hrun|exact Hnone].
Defined.

(** A search over k = 1, 2 on two days with a detector that finds no knee. *)
Lemma get_optimal_n_clusters_no_knee_witness :
  get_optimal_n_clusters (λ seed, Z.to_nat seed) demo_KMeans (λ _ _, None)
    (mkPriceTaker 20 24) [(1, Some [1%Q]); (2, Some [2%Q])] (Some 1) (Some 3) 0
  = (22, Raise TypeError).
Proof.
  destruct (get_optimal_n_clusters_no_knee (λ seed, Z.to_nat seed) demo_KMeans
              (λ _ _, None) (mkPriceTaker 20 24) [(1, Some [1%Q]); (2, Some [2%Q])]
              (Some 1) (Some 3) 0) as [_ Hcrash].
  apply (Hcrash 22 [0%Q; 0%Q]); [vm_compute; reflexivity|reflexivity].
Defined.

(** C5.  Two calls of [cluster_lmp_data] on the same table, one after the
    other: the generator left by the first call is the one the second
    starts from, the seed is not applied in between, and the two calls
    number the representative days differently. *)
Theorem cluster_lmp_data_repeated_calls :
  let first := demo_cluster 24 (demo_table two_days) 2 0 in
  let second := demo_cluster 24 (demo_table two_days) 2 first.1 in
  is_Ok first.2 = true ∧ is_Ok second.2 = true ∧ first.2 ≠ second.2.
Proof.
  split; [vm_compute; reflexivity|]. split; [vm_compute; reflexivity|].
  intros Heq.
  apply (f_equal (λ r, match r with
                       | Ok (lmp_data, _) => lmp_data !! 1 ≫= λ day, day !! 0
                       | Raise _ => None
                       end)) in Heq.
  vm_compute in Heq. discriminate.
Qed.

(** C7.  With horizon 25, one day whose last price is [1e-5] and one
    cluster: the representative day returned keeps [1e-5] at hour 24, a
    value that is neither [0] nor at least [1e-4]; with horizon 12 the
    clean-up raises [IndexError]. *)
Theorem cluster_lmp_data_horizon_not_24 :
  (∃ lmp_data weights,
     demo_cluster 25 (demo_table long_day) 1 0 = (1, Ok (lmp_data, weights))
     ∧ lmp_data !! 1 ≫= (λ day, day !! 24) = Some (1 # 100000)%Q
     ∧ ¬ ((1 # 100000)%Q = 0%Q ∨ (noise_threshold <= 1 # 100000)%Q))
  ∧ demo_cluster 12 (demo_table two_days) 2 0 = (1, Raise IndexError).
Proof.
  split; [|vm_compute; reflexivity].
  destruct (demo_cluster 25 (demo_table long_day) 1 0) as [g' [[lmp_data weights]|e]]
    eqn:Hrun; [|vm_compute in Hrun; discriminate].
  vm_compute in Hrun. injection Hrun as <- <- <-.
  eexists _, _. split; [reflexivity|]. split; [vm_compute; reflexivity|].
  intros [Heq|Hle]; [discriminate|]. by vm_compute in Hle.
Qed.

End PriceTakerInstances.

Import Pyomo MultiPeriod.

(** * Further properties of the assembly engine *)

Section EngineFacts.
Context {U V K : Type}.
Variable empty_kwargs : K.
Variable create_process_model : K → U.
Variable get_linking_variable_pairs : @Process U V → @Process U V → list (V * V).
Variable get_periodic_variable_pairs : option (@Process U V → @Process U V → list (V * V)).

Local Abbreviation build :=
  (build_multi_period_model empty_kwargs create_process_model
     get_linking_variable_pairs get_periodic_variable_pairs).
Local Abbreviation advance :=
  (advance_time create_process_model get_linking_variable_pairs
     get_periodic_variable_pairs).
Local Abbreviation fresh := (fresh_block (V := V) empty_kwargs create_process_model).
Local Abbreviation linked :=
  (linked_block empty_kwargs create_process_model get_linking_variable_pairs).
Local Abbreviation built :=
  (built_block empty_kwargs create_process_model get_linking_variable_pairs
     get_periodic_variable_pairs).
Local Abbreviation invariant := (window_invariant get_periodic_variable_pairs).
Local Abbreviation used :=
  (in_use empty_kwargs create_process_model get_linking_variable_pairs
     get_periodic_variable_pairs).

Implicit Types (m : @MultiPeriodModel U V) (d : gmap Z K).

Lemma built_block_user_model d n t :
  user_model (built d n t) = create_process_model (default empty_kwargs (d !! t)).
Proof.
  unfold built_block, linked_block, fresh_block.
  destruct get_periodic_variable_pairs; repeat case_decide; done.
Qed.

Lemma built_block_ext d d' n t :
  0 ≤ t < n → (∀ t, 0 ≤ t < n → d' !! t = d !! t) → built d' n t = built d n t.
Proof.
  intros Ht Hagree.
  assert (∀ t, 0 ≤ t < n → fresh d' t = fresh d t) as Hfresh.
  { intros t' Ht'. unfold fresh_block. by rewrite Hagree. }
  assert (∀ t, 0 ≤ t < n → linked d' n t = linked d n t) as Hlinked.
  { intros t' Ht'. unfold linked_block, link_pairs. case_decide.
    - rewrite !Hfresh by lia. done.
    - by rewrite Hfresh. }
  unfold built_block. destruct get_periodic_variable_pairs as [periodic|].
  - case_decide.
    + rewrite !Hlinked by lia. done.
    + by apply Hlinked.
  - by apply Hlinked.
Qed.

(** The blocks of a window, in [TIME] order. *)
Lemma window_blocks m k w :
  invariant m k w →
  ∀ a len, 0 ≤ a → a + len ≤ k + w →
    ∃ ps, omap (λ t, blocks m !! t) (seqZ a len) = ps
          ∧ length ps = Z.to_nat len
          ∧ ∀ i p, ps !! i = Some p → blocks m !! (a + Z.of_nat i) = Some p.
Proof.
  intros Hinv a len Ha Hlen.
  remember (Z.to_nat len) as j eqn:Hj. revert a len Ha Hlen Hj.
  induction j as [|j IH]; intros a len Ha Hlen Hj.
  - rewrite seqZ_nil by lia. exists []. split; [done|]. split; [done|].
    intros i p Hi. by rewrite lookup_nil in Hi.
  - rewrite seqZ_cons by lia. cbn [omap list_omap].
    destruct (proj2 (inv_blocks _ _ _ _ Hinv a)) as [p Hp]; [lia|].
    change (omap ?f ?l) with (omap f l).
    destruct (IH (Z.succ a) (Z.pred len)) as (ps & Hps & Hlenps & Hget); [lia..|].
    exists (p :: ps). rewrite Hp. split.
    { f_equal. exact Hps. }
    split; [cbn; lia|].
    intros [|i] q Hq.
    + injection Hq as <-. by rewrite Z.add_0_r.
    + cbn in Hq. rewrite <- (Hget i q Hq). f_equal. lia.
Qed.



Lemma filter_all {A} (P : A → Prop) `{∀ x, Decision (P x)} (l : list A) :
  (∀ x, x ∈ l → P x) → filter P l = l.
Proof.
  induction l as [|x l IH]; intros Hall; [done|].
  rewrite filter_cons_True by (apply Hall; left).
  f_equal. apply IH. intros y Hy. apply Hall. by right.
Qed.



End EngineFacts.

Import Pyomo MultiPeriod Views.

(** * Further properties of the stochastic build *)

Lemma elem_of_Set_add {A} `{EqDecision A} (s : list A) (x y : A) :
  y ∈ Set_add s x ↔ y ∈ s ∨ y = x.
Proof.
  unfold Set_add. case_decide as Hx.
  - split; [by left|]. intros [Hy| ->]; done.
  - rewrite elem_of_app, list_elem_of_singleton. done.
Qed.

Lemma elem_of_Set_initialize {A} `{EqDecision A} (l : list A) (x : A) :
  x ∈ Set_initialize l ↔ x ∈ l.
Proof.
  unfold Set_initialize.
  assert (∀ acc, x ∈ foldl Set_add acc l ↔ x ∈ acc ∨ x ∈ l) as Hgen.
  { induction l as [|y l IH]; intros acc; cbn [foldl].
    - rewrite elem_of_nil. tauto.
    - rewrite IH, elem_of_Set_add, elem_of_cons. tauto. }
  rewrite Hgen, elem_of_nil. tauto.
Qed.

Lemma length_bind_const {A B} (f : A → list B) (l : list A) (c : nat) :
  (∀ x, x ∈ l → length (f x) = c) → length (l ≫= f) = (length l * c)%nat.
Proof.
  induction l as [|x l IH]; intros Hc; [done|].
  cbn. rewrite length_app, IH, Hc; [lia|left|].
  intros y Hy. apply Hc. by right.
Qed.

Section StochasticStructure.
Context {U V FO IO UO SR J : Type}.
Variable empty_block : U.
Variable create_process_model : U → FO → U.
Variable initialization_func : option (U → IO → U).
Variable unfix_dof_func : option (U → UO → U).
Variable flowsheet_options : FO.
Variable initialization_options : IO.
Variable unfix_dof_options : UO.
Variable solve : U → U * SR.
Variable check_optimal_termination : SR → bool.
Variable to_json : U → J.
Variable from_json : U → J → U.

Implicit Types (m : @StochasticModel U V) (P : list PeriodIndex).

Local Abbreviation build :=
  (build_stochastic_multiperiod (V := V) empty_block create_process_model
     initialization_func unfix_dof_func flowsheet_options initialization_options
     unfix_dof_options solve check_optimal_termination to_json from_json).

Lemma compose_set_period_elem_of n days years scenarios p :
  p ∈ compose_set_period (stochastic_init (U := U) (V := V) n days years scenarios)
  ↔ period_member n days years p.
Proof.
  unfold compose_set_period, period_member, stochastic_init, RangeSet.
  cbn [set_years set_days set_time].
  destruct years as [years|], days as [days|]; cbn [fmap option_fmap option_map].
  - rewrite list_elem_of_bind. split.
    + intros (y & Hp & Hy). apply list_elem_of_bind in Hp as (d & Hp & Hd).
      apply list_elem_of_bind in Hp as (t & Hp & Ht).
      apply list_elem_of_singleton in Hp as ->.
      rewrite elem_of_Set_initialize in Hy, Hd. apply elem_of_seqZ in Ht.
      cbn. split; [lia|by split].
    + destruct p as [| | |t d y]; try done. intros (Ht & Hd & Hy).
      exists y. split; [|by apply elem_of_Set_initialize].
      apply list_elem_of_bind. exists d. split; [|by apply elem_of_Set_initialize].
      apply list_elem_of_bind. exists t. split; [by apply list_elem_of_singleton|].
      apply elem_of_seqZ. lia.
  - rewrite list_elem_of_bind. split.
    + intros (y & Hp & Hy). apply list_elem_of_bind in Hp as (t & Hp & Ht).
      apply list_elem_of_singleton in Hp as ->.
      rewrite elem_of_Set_initialize in Hy. apply elem_of_seqZ in Ht.
      cbn. split; [lia|done].
    + destruct p as [| |t y|]; try done. intros (Ht & Hy).
      exists y. split; [|by apply elem_of_Set_initialize].
      apply list_elem_of_bind. exists t. split; [by apply list_elem_of_singleton|].
      apply elem_of_seqZ. lia.
  - rewrite list_elem_of_bind. split.
    + intros (d & Hp & Hd). apply list_elem_of_bind in Hp as (t & Hp & Ht).
      apply list_elem_of_singleton in Hp as ->.
      rewrite elem_of_Set_initialize in Hd. apply elem_of_seqZ in Ht.
      cbn. split; [lia|done].
    + destruct p as [|t d| |]; try done. intros (Ht & Hd).
      exists d. split; [|by apply elem_of_Set_initialize].
      apply list_elem_of_bind. exists t. split; [by apply list_elem_of_singleton|].
      apply elem_of_seqZ. lia.
  - rewrite list_elem_of_bind. split.
    + intros (t & Hp & Ht). apply list_elem_of_singleton in Hp as ->.
      apply elem_of_seqZ in Ht. lia.
    + destruct p as [t| | |]; try done. intros Ht.
      exists t. split; [by apply list_elem_of_singleton|]. apply elem_of_seqZ. lia.
Qed.

Lemma compose_set_period_NoDup n days years scenarios :
  NoDup (compose_set_period (stochastic_init (U := U) (V := V) n days years scenarios)).
Proof.
  unfold compose_set_period, stochastic_init, RangeSet.
  cbn [set_years set_days set_time].
  pose proof (NoDup_seqZ 1 n) as HT.
  destruct years as [years|], days as [days|]; cbn [fmap option_fmap option_map].
  - pose proof (NoDup_Set_initialize years) as HY.
    pose proof (NoDup_Set_initialize days) as HD.
    apply NoDup_bind; [| |done].
    + intros y1 y2 p _ _ Hp1 Hp2.
      apply list_elem_of_bind in Hp1 as (d1 & Hp1 & _).
      apply list_elem_of_bind in Hp1 as (t1 & Hp1 & _).
      apply list_elem_of_bind in Hp2 as (d2 & Hp2 & _).
      apply list_elem_of_bind in Hp2 as (t2 & Hp2 & _).
      apply list_elem_of_singleton in Hp1, Hp2. congruence.
    + intros y _. apply NoDup_bind; [| |done].
      * intros d1 d2 p _ _ Hp1 Hp2.
        apply list_elem_of_bind in Hp1 as (t1 & Hp1 & _).
        apply list_elem_of_bind in Hp2 as (t2 & Hp2 & _).
        apply list_elem_of_singleton in Hp1, Hp2. congruence.
      * intros d _. apply NoDup_bind; [| |done].
        -- intros t1 t2 p _ _ Hp1 Hp2.
           apply list_elem_of_singleton in Hp1, Hp2. congruence.
        -- intros t _. apply NoDup_singleton.
  - pose proof (NoDup_Set_initialize years) as HY.
    apply NoDup_bind; [| |done].
    + intros y1 y2 p _ _ Hp1 Hp2.
      apply list_elem_of_bind in Hp1 as (t1 & Hp1 & _).
      apply list_elem_of_bind in Hp2 as (t2 & Hp2 & _).
      apply list_elem_of_singleton in Hp1, Hp2. congruence.
    + intros y _. apply NoDup_bind; [| |done].
      * intros t1 t2 p _ _ Hp1 Hp2.
        apply list_elem_of_singleton in Hp1, Hp2. congruence.
      * intros t _. apply NoDup_singleton.
  - pose proof (NoDup_Set_initialize days) as HD.
    apply NoDup_bind; [| |done].
    + intros d1 d2 p _ _ Hp1 Hp2.
      apply list_elem_of_bind in Hp1 as (t1 & Hp1 & _).
      apply list_elem_of_bind in Hp2 as (t2 & Hp2 & _).
      apply list_elem_of_singleton in Hp1, Hp2. congruence.
    + intros d _. apply NoDup_bind; [| |done].
      * intros t1 t2 p _ _ Hp1 Hp2.
        apply list_elem_of_singleton in Hp1, Hp2. congruence.
      * intros t _. apply NoDup_singleton.
  - apply NoDup_bind; [| |done].
    + intros t1 t2 p _ _ Hp1 Hp2.
      apply list_elem_of_singleton in Hp1, Hp2. congruence.
    + intros t _. apply NoDup_singleton.
Qed.

Lemma compose_set_period_length n days years scenarios :
  length (compose_set_period (stochastic_init (U := U) (V := V) n days years scenarios))
  = (from_option (λ l, length (Set_initialize l)) 1 years
     * (from_option (λ l, length (Set_initialize l)) 1 days * Z.to_nat n))%nat.
Proof.
  unfold compose_set_period, stochastic_init, RangeSet.
  cbn [set_years set_days set_time].
  assert (∀ (f : Z → PeriodIndex), length (seqZ 1 n ≫= λ t, [f t]) = Z.to_nat n) as HT.
  { intros f. rewrite (length_bind_const _ _ 1%nat) by done. rewrite length_seqZ. lia. }
  destruct years as [years|], days as [days|];
    cbn [fmap option_fmap option_map from_option].
  - apply length_bind_const. intros y _. apply length_bind_const. intros d _. apply HT.
  - rewrite Nat.mul_1_l. apply length_bind_const. intros y _. apply HT.
  - rewrite Nat.mul_1_l. apply length_bind_const. intros d _. apply HT.
  - rewrite !Nat.mul_1_l. apply HT.
Qed.

(** The model a build leaves is one whose period blocks all hold the
    same contents. *)
Lemma build_stochastic_uniform n days years scenarios :
  let m0 := stochastic_init n days years scenarios in
  ∃ u evs, (build m0).1 = uniform_model m0 (compose_set_period m0) u evs.
Proof.
  intros m0.
  pose proof (build_stochastic_spec empty_block create_process_model initialization_func
                unfix_dof_func flowsheet_options initialization_options unfix_dof_options
                solve check_optimal_termination to_json from_json m0
                (stochastic_init_scenarios n days years scenarios)) as Hspec.
  cbv zeta in Hspec.
  rewrite (Set_initialize_NoDup (compose_set_period m0)) in Hspec
    by apply compose_set_period_NoDup.
  rewrite Hspec.
  destruct initialization_func as [initialize|]; [|by eexists _, _].
  destruct (solve _) as [blk res].
  destruct (check_optimal_termination res); [|by eexists _, _].
  destruct unfix_dof_func; by eexists _, _.
Qed.

(** X5: [build_stochastic_multiperiod] declares as [set_period] the time points
    crossed with the day set and the year set that were given, without
    repetition, and every scenario gets one block per element of
    [set_period]. *)
Theorem stochastic_period_structure n days years scenarios :
  let m0 := stochastic_init n days years scenarios in
  let m := (build m0).1 in
  set_period m = compose_set_period m0
  ∧ NoDup (set_period m)
  ∧ (∀ p, p ∈ set_period m ↔ period_member n days years p)
  ∧ length (set_period m)
    = (from_option (λ l, length (Set_initialize l)) 1 years
       * (from_option (λ l, length (Set_initialize l)) 1 days * Z.to_nat n))%nat
  ∧ length (all_periods m) = from_option (λ l, length (Set_initialize l)) 1%nat scenarios
  ∧ ∀ s X, (s, X) ∈ all_periods m → X.*1 = set_period m.
Proof.
  intros m0 m.
  destruct (build_stochastic_uniform n days years scenarios) as (u & evs & Hm).
  fold m0 in Hm. fold m in Hm.
  assert (set_period m = compose_set_period m0) as HP by by rewrite Hm.
  split; [exact HP|]. rewrite HP.
  split; [apply compose_set_period_NoDup|].
  split; [apply compose_set_period_elem_of|].
  split; [apply compose_set_period_length|].
  rewrite Hm. clear Hm HP. unfold all_periods, uniform_model.
  cbn [set_scenarios scenario period].
  generalize (compose_set_period m0). intros P.
  unfold m0, stochastic_init. cbn [set_scenarios scenario period].
  destruct scenarios as [ss|]; cbn [fmap option_fmap option_map from_option].
  - split; [by rewrite !length_fmap|].
    intros s X HX. apply list_elem_of_fmap in HX as ([k Y] & [= -> ->] & HY).
    apply list_elem_of_fmap in HY as (k' & [= -> ->] & _).
    apply uniform_periods_fst.
  - split; [done|].
    intros s X HX. apply list_elem_of_singleton in HX as [= -> ->].
    apply uniform_periods_fst.
Qed.

(** X6: without an initialization function [build_stochastic_multiperiod]
    completes, calls the flowsheet factory once per scenario and period and
    nothing else, and leaves every block as the factory returned it. *)
Theorem stochastic_build_without_initialization n days years scenarios :
  initialization_func = None →
  let m0 := stochastic_init n days years scenarios in
  let S := slots (set_scenarios m0) (compose_set_period m0) in
  let u1 := create_process_model empty_block flowsheet_options in
  ∃ m, build m0 = (m, Ok ())
       ∧ calls m = uncurry ev_create_period <$> S
       ∧ ∀ s p, (s, p) ∈ S → period_block s p m = Some (new_process u1).
Proof.
  intros Hinit m0 S u1.
  pose proof (build_stochastic_spec empty_block create_process_model initialization_func
                unfix_dof_func flowsheet_options initialization_options unfix_dof_options
                solve check_optimal_termination to_json from_json m0
                (stochastic_init_scenarios n days years scenarios)) as Hspec.
  cbv zeta in Hspec.
  rewrite (Set_initialize_NoDup (compose_set_period m0)) in Hspec
    by apply compose_set_period_NoDup.
  rewrite Hinit in Hspec |- *. eexists. split; [exact Hspec|]. split.
  - cbn [calls uniform_model]. done.
  - intros s p Hsp. by apply uniform_model_block.
Qed.

End StochasticStructure.

Import Pyomo.

(** * Further properties of the clustering pipeline *)

Section PipelineFacts.
Import PriceTaker PriceTakerProperties Views.
Local Open Scope nat_scope.

(** X7: the [horizon_length] setter raises [ValueError] on a value that is not
    positive and otherwise stores the value and keeps the seed, after which
    [generate_daily_data] returns on every input; the constructor stores a
    zero horizon unchecked, and the loop of [generate_daily_data] then
    never ends, whatever the number of turns allowed. *)
Theorem horizon_length_setter_positive (value : Z) (self : PriceTakerModel) :
  ((value ≤ 0)%Z → horizon_length_setter value self = (self, Raise ValueError))
  ∧ (∀ self', horizon_length_setter value self = (self', Ok ()) →
       (0 < value)%Z
       ∧ Z.of_nat (horizon_length self') = value
       ∧ seed self' = seed self
       ∧ ∀ raw_data day_list, is_Some (generate_daily_data self' raw_data day_list))
  ∧ ∀ seed fuel raw_data day_list,
      let h := horizon_length (__init__ seed (Some 0)) in
      generate_daily_loop fuel h raw_data 0 h 1 (DataFrame_new day_list) = None.
Proof.
  unfold horizon_length_setter. split; [|split].
  - intros Hv. by rewrite decide_True.
  - intros self'. case_decide as Hv; [done|]. intros [= <-].
    cbn [horizon_length seed _horizon_length _seed].
    split; [lia|]. split; [lia|]. split; [done|].
    intros raw_data day_list. rewrite generate_daily_data_fold by (cbn; lia).
    by eexists.
  - intros seed0 fuel raw_data day_list. apply generate_daily_loop_zero.
Qed.

Section ClusteringStructure.
Context {L : Type} `{EqDecision L}.
Context {RNG : Type}.
Variable np_random_seed : Z → RNG.
Variable KMeans_fit : nat → list (list Q) → Run RNG KMeansFit.
Variable KneeLocator_knee : list nat → list Q → option nat.

Local Abbreviation cluster := (cluster_lmp_data (L := L) KMeans_fit).
Local Abbreviation optimal :=
  (get_optimal_n_clusters np_random_seed KMeans_fit KneeLocator_knee).

Lemma DataFrame_getitem_third (c0 c1 : L * list Q) (i : L) (column : list Q)
    (rest : @DataFrame L) :
  NoDup (c0 :: c1 :: (i, column) :: rest).*1 →
  DataFrame_getitem (c0 :: c1 :: (i, column) :: rest) i = Ok column.
Proof.
  intros Hnd. cbn in Hnd.
  apply NoDup_cons in Hnd as [H0 Hnd]. apply NoDup_cons in Hnd as [H1 _].
  unfold DataFrame_getitem. cbn [list_find].
  rewrite decide_False; cycle 1.
  { intros <-. apply H0. right. left. }
  cbn [fmap option_fmap option_map list_find].
  rewrite decide_False; cycle 1.
  { intros <-. apply H1. left. }
  cbn [fmap option_fmap option_map list_find].
  rewrite decide_True by done. done.
Qed.

(** X8: [reconfigure_raw_data] raises [ZeroDivisionError] under a zero horizon
    and [UnboundLocalError] on a table of fewer than three columns;
    otherwise it returns the day blocks of the third column only, together
    with the labels of all columns from the third on. *)
Theorem reconfigure_raw_data_outcome (self : PriceTakerModel) (raw_data : @DataFrame L) :
  let h := _horizon_length self in
  (h = 0 → reconfigure_raw_data self raw_data = Raise ZeroDivisionError)
  ∧ (0 < h → length raw_data < 3 →
     reconfigure_raw_data self raw_data = Raise UnboundLocalError)
  ∧ (0 < h → NoDup raw_data.*1 → DataFrame_wf raw_data →
     ∀ c0 c1 i column rest,
       raw_data = c0 :: c1 :: (i, column) :: rest →
       reconfigure_raw_data self raw_data
       = Ok ((λ d, (d, Some (day_block h column d))) <$> seq 1 (length column / h),
             i :: rest.*1)).
Proof.
  intros h. unfold reconfigure_raw_data. fold h. split; [|split].
  - intros Hh. by rewrite decide_True.
  - intros Hh Hlen. rewrite decide_False by lia.
    destruct raw_data as [|c0 [|c1 [|c2 rest]]]; cbn in Hlen |- *; done || lia.
  - intros Hh Hnd Hwf c0 c1 i column rest ->. rewrite decide_False by lia.
    cbn [fmap list_fmap drop take fst].
    rewrite DataFrame_getitem_third by done.
    rewrite generate_daily_data_fold by done. fold h.
    assert (length column = DataFrame_len (c0 :: c1 :: (i, column) :: rest)) as Hlen.
    { apply (Hwf (i, column)). right. right. left. }
    rewrite <- Hlen. rewrite fold_setitem_all by apply NoDup_seq. done.
Qed.

Lemma inertia_loop_chain daily_data ks acc g g' vs :
  inertia_loop KMeans_fit daily_data ks acc g = (g', Ok vs) →
  ∃ vs', vs = acc ++ vs' ∧ length vs' = length ks
         ∧ (ks ≠ [] → ∃ X, transpose daily_data = Ok X ∧ fits_chain KMeans_fit X g ks vs' g')
         ∧ (ks = [] → g' = g).
Proof.
  revert acc g. induction ks as [|k ks IH]; intros acc g Hrun.
  - cbn in Hrun. injection Hrun as <- <-. exists []. rewrite app_nil_r. done.
  - cbn [inertia_loop] in Hrun. rewrite bind_unfold in Hrun. unfold lift at 1 in Hrun.
    destruct (transpose daily_data) as [X|e] eqn:HX; [|done].
    rewrite bind_unfold in Hrun.
    destruct (KMeans_fit k X g) as [g1 [fit|e]] eqn:Hfit; [|done].
    destruct (IH _ _ Hrun) as (vs' & -> & Hlen & Hchain & Hnil).
    exists (inertia_ fit :: vs'). split; [by rewrite <- app_assoc|].
    split; [cbn; lia|]. split; [|done].
    intros _. exists X. split; [done|]. econstructor; [exact Hfit|].
    destruct ks as [|k' ks'].
    + destruct vs'; [|done]. rewrite (Hnil eq_refl). constructor.
    + destruct Hchain as (X' & [= <-] & Hchain); done.
Qed.

(** X9: a completed [get_optimal_n_clusters] returns one inertia per [k] of
    [range(kmin, kmax)], each from a fit on the transposed day table with
    the generator state the previous fit left, and the knee of that curve;
    for an empty range no fit is run. *)
Theorem get_optimal_n_clusters_inertia (self : PriceTakerModel) (daily_data : DailyData)
    (kmin kmax : option nat) (g g' : RNG) (n : nat) (inertia_values : list Q) :
  optimal self daily_data kmin kmax g = (g', Ok (n, inertia_values)) →
  let k_values := seq (default 4 kmin) (default 30 kmax - default 4 kmin) in
  length inertia_values = default 30 kmax - default 4 kmin
  ∧ KneeLocator_knee k_values inertia_values = Some n
  ∧ (default 4 kmin < default 30 kmax →
     ∃ X, transpose daily_data = Ok X
          ∧ fits_chain KMeans_fit X (np_random_seed (_seed self)) k_values inertia_values g')
  ∧ (default 30 kmax ≤ default 4 kmin →
     inertia_values = [] ∧ g' = np_random_seed (_seed self)).
Proof.
  intros Hrun k_values. unfold get_optimal_n_clusters in Hrun.
  rewrite (bind_Ok _ _ g (np_random_seed (_seed self)) ()) in Hrun by done.
  rewrite bind_unfold in Hrun. fold k_values in Hrun.
  destruct (inertia_loop _ _ _ _ _) as [g1 [vs|e]] eqn:Hloop; [|done].
  destruct (KneeLocator_knee k_values vs) as [n'|] eqn:Hknee; [|done].
  injection Hrun as <- <- <-.
  destruct (inertia_loop_chain _ _ _ _ _ _ Hloop) as (vs' & -> & Hlen & Hchain & Hnil).
  rewrite app_nil_l in *. unfold k_values in Hlen. rewrite length_seq in Hlen.
  split; [exact Hlen|]. split; [exact Hknee|]. split.
  - intros Hk. apply Hchain. unfold k_values.
    destruct (default 30 kmax - default 4 kmin) eqn:Hd; [lia|done].
  - intros Hk. assert (default 30 kmax - default 4 kmin = 0) as Hd by lia.
    rewrite Hd in Hlen. split; [by destruct vs'|].
    apply Hnil. unfold k_values. by rewrite Hd.
Qed.

(** What a completed [cluster_lmp_data] went through. *)
Lemma cluster_lmp_data_inv (self : PriceTakerModel) (raw_data : @DataFrame L)
    (n_clusters : nat) (g g' : RNG) lmp_data weights :
  DataFrame_wf raw_data →
  cluster self raw_data n_clusters g = (g', Ok (lmp_data, weights)) →
  let h := _horizon_length self in
  ∃ column fit centroids,
    0 < h
    ∧ length column = DataFrame_len raw_data
    ∧ KMeans_fit n_clusters (day_block h column <$> seq 1 (DataFrame_len raw_data / h)) g
      = (g', Ok fit)
    ∧ snap_centroids n_clusters (cluster_centers_ fit) = (centroids, Ok ())
    ∧ length centroids = n_clusters
    ∧ lmp_data = map_seq 1 (map_seq 0 <$> centroids)
    ∧ weights = {[ 0 := map_seq 1 (count_weights n_clusters (labels_ fit)) ]}.
Proof.
  intros Hwf. unfold cluster_lmp_data.
  rewrite bind_unfold. unfold lift at 1.
  destruct (reconfigure_raw_data self raw_data) as [[daily_data scenarios]|e] eqn:Hre;
    [|done].
  destruct (reconfigure_raw_data_Ok _ _ _ _ Hwf Hre) as (Hh & column & Hlen & ->).
  rewrite bind_unfold. unfold lift at 1. rewrite transpose_daily.
  rewrite bind_unfold.
  destruct (KMeans_fit n_clusters _ g) as [g1 [fit|e]] eqn:Hkm; [|done].
  rewrite bind_unfold. unfold lift at 1.
  destruct (snap_centroids n_clusters (cluster_centers_ fit)) as [centroids [[]|e]] eqn:Hsnap;
    [|done].
  rewrite bind_unfold.
  destruct (decide (length centroids = n_clusters)) as [Hn|]; [|done].
  intros [= <- <- <-]. exists column, fit, centroids. done.
Qed.

(** The clean-up completes only on rows of at least 24 entries. *)
Lemma snap_centroids_Ok_rows (n_clusters : nat) (centroids centroids' : list (list Q)) :
  snap_centroids n_clusters centroids = (centroids', Ok ()) →
  n_clusters ≤ length centroids →
  (∀ row row', row ∈ centroids → row' ∈ centroids → length row = length row') →
  n_clusters = 0 ∨ Forall (λ row, 24 ≤ length row) centroids.
Proof.
  intros Hrun Hn Hsame. destruct n_clusters as [|n]; [by left|]. right.
  destruct centroids as [|row0 centroids]; [cbn in Hn; lia|].
  destruct (decide (24 ≤ length row0)) as [Hlen|Hshort].
  - apply Forall_forall. intros row Hrow. rewrite (Hsame row row0) by (done || left). done.
  - exfalso. unfold snap_centroids in Hrun. cbn [seq] in Hrun.
    rewrite for_each_cons in Hrun.
    destruct (snap_row_short 0 (row0 :: centroids) row0 eq_refl ltac:(lia)) as [c' Hc'].
    change (for_each (seq 0 24) (λ t, snap_entry 0 t) (row0 :: centroids))
      with (for_each [0; 1; 2; 3; 4; 5; 6; 7; 8; 9; 10; 11; 12; 13; 14; 15; 16; 17; 18; 19;
                      20; 21; 22; 23] (λ t, snap_entry 0 t) (row0 :: centroids)) in Hc'.
    rewrite Hc' in Hrun. done.
Qed.

(** X10: when the k-means fit returns [n_clusters] centres of the length of a
    sample, a completed [cluster_lmp_data] returns prices keyed by the days
    [1 .. n_clusters], each day keyed by the hours [0 .. horizon - 1], and
    weights under the single key [0], keyed by the same days; it completes
    only under a horizon of at least 24, unless [n_clusters] is zero. *)
Theorem cluster_lmp_data_keys (self : PriceTakerModel) (raw_data : @DataFrame L)
    (n_clusters : nat) (g g' : RNG) lmp_data weights :
  KMeans_shapes KMeans_fit →
  DataFrame_wf raw_data →
  cluster self raw_data n_clusters g = (g', Ok (lmp_data, weights)) →
  let h := _horizon_length self in
  (n_clusters = 0 ∨ 24 ≤ h)
  ∧ (∀ d, is_Some (lmp_data !! d) ↔ 1 ≤ d ≤ n_clusters)
  ∧ (∀ d t, 1 ≤ d ≤ n_clusters →
       is_Some (lmp_data !! d ≫= λ day, day !! t) ↔ t < h)
  ∧ (∀ k, is_Some (weights !! k) ↔ k = 0)
  ∧ (∀ d, is_Some (weights !! 0 ≫= λ w, w !! d) ↔ 1 ≤ d ≤ n_clusters).
Proof.
  intros Hshapes Hwf Hrun h.
  destruct (cluster_lmp_data_inv _ _ _ _ _ _ _ Hwf Hrun)
    as (column & fit & centroids & Hh & Hlen & Hfit & Hsnap & Hn & Hlmp & Hw).
  fold h in Hh, Hfit.
  destruct (Hshapes _ _ _ _ _ Hfit) as [Hk Hrows].
  assert (Forall (λ row, length row = h) (cluster_centers_ fit)) as Hrowlen.
  { apply Forall_forall. intros row Hrow.
    rewrite Forall_forall in Hrows. destruct (Hrows row Hrow) as (smp & Hsmp & ->).
    apply list_elem_of_fmap in Hsmp as (d0 & -> & Hd0). apply elem_of_seq in Hd0.
    apply day_block_length; rewrite ?Hlen; lia. }
  rewrite Forall_forall in Hrowlen.
  assert (n_clusters = 0 ∨ 24 ≤ h) as H24.
  { destruct (snap_centroids_Ok_rows _ _ _ Hsnap) as [?|Hall]; [lia| |by left|].
    - intros row row' Hrow Hrow'. by rewrite !Hrowlen.
    - destruct (cluster_centers_ fit) as [|row0 rest] eqn:Hc; [cbn in Hk; left; lia|].
      right. apply Forall_cons in Hall as [H0 _]. rewrite <- (Hrowlen row0); [done|left]. }
  assert (centroids = snap_row <$> cluster_centers_ fit) as ->.
  { destruct H24 as [->|H24].
    - destruct (cluster_centers_ fit); [|done]. cbn in Hsnap. by injection Hsnap as <-.
    - rewrite snap_centroids_spec in Hsnap; [| lia |].
      + rewrite <- Hk, firstn_all, drop_all, app_nil_r in Hsnap. by injection Hsnap as <-.
      + apply Forall_forall. intros row Hrow.
        apply elem_of_take in Hrow as (i & Hrow & _).
        rewrite Hrowlen by (by eapply list_elem_of_lookup_2). done. }
  split; [exact H24|]. rewrite length_fmap in Hn.
  assert (∀ d, 1 ≤ d ≤ n_clusters →
            ∃ row, cluster_centers_ fit !! (d - 1) = Some row ∧ length row = h
                   ∧ lmp_data !! d = Some (map_seq 0 (snap_row row))) as Hday_d.
  { intros d Hd. destruct (lookup_lt_is_Some_2 (cluster_centers_ fit) (d - 1)) as [row Hrow];
      [lia|].
    exists row. split; [done|]. split; [apply Hrowlen; by eapply list_elem_of_lookup_2|].
    rewrite Hlmp, lookup_map_seq, option_guard_True by lia.
    rewrite !list_lookup_fmap, Hrow. done. }
  split.
  { intros d. split.
    - intros [day Hd]. rewrite Hlmp, lookup_map_seq in Hd.
      destruct (decide (1 ≤ d)) as [H1|]; [|by rewrite option_guard_False in Hd].
      rewrite option_guard_True in Hd by done.
      apply lookup_lt_Some in Hd. rewrite !length_fmap in Hd. lia.
    - intros Hd. destruct (Hday_d d Hd) as (row & _ & _ & ->). by eexists. }
  split.
  { intros d t Hd. destruct (Hday_d d Hd) as (row & _ & Hlenrow & ->).
    cbn [mbind option_bind]. rewrite lookup_map_seq_0.
    assert (length (snap_row row) = h) as Hsl.
    { unfold snap_row. rewrite length_app, length_fmap, length_take, length_drop. lia. }
    rewrite <- Hsl. split; [intros [x Hx]; by eapply lookup_lt_Some|apply lookup_lt_is_Some_2]. }
  rewrite Hw. split.
  { intros k. destruct (decide (k = 0)) as [->|Hk0].
    - rewrite lookup_singleton_eq. split; [done|by eexists].
    - rewrite lookup_singleton_ne by done. split; [by intros [? ?]|done]. }
  intros d. rewrite lookup_singleton_eq. cbn [mbind option_bind].
  rewrite lookup_map_seq.
  destruct (count_weights_spec n_clusters (labels_ fit)) as (Hwlen & _).
  destruct (decide (1 ≤ d)) as [H1|].
  - rewrite option_guard_True by done. split.
    + intros [x Hx]. apply lookup_lt_Some in Hx. lia.
    + intros Hd. apply lookup_lt_is_Some_2. lia.
  - rewrite option_guard_False by done. split; [by intros [? ?]|lia].
Qed.

(** X11: under the horizon of 24 every price [cluster_lmp_data] returns is zero
    or at least the noise threshold [1e-4]. *)
Theorem cluster_lmp_data_24_clean (self : PriceTakerModel) (raw_data : @DataFrame L)
    (n_clusters : nat) (g g' : RNG) lmp_data weights :
  KMeans_shapes KMeans_fit →
  DataFrame_wf raw_data →
  _horizon_length self = 24 →
  cluster self raw_data n_clusters g = (g', Ok (lmp_data, weights)) →
  ∀ d t x, lmp_data !! d ≫= (λ day, day !! t) = Some x →
    x = 0%Q ∨ (noise_threshold <= x)%Q.
Proof.
  intros Hshapes Hwf H24 Hrun d t x Hx.
  destruct (cluster_lmp_data_inv _ _ _ _ _ _ _ Hwf Hrun)
    as (column & fit & centroids & Hh & Hlen & Hfit & Hsnap & Hn & -> & ->).
  rewrite H24 in Hfit.
  destruct (Hshapes _ _ _ _ _ Hfit) as [Hk Hrows].
  assert (Forall (λ row, length row = 24) (cluster_centers_ fit)) as Hrowlen.
  { apply Forall_forall. intros row Hrow.
    rewrite Forall_forall in Hrows. destruct (Hrows row Hrow) as (smp & Hsmp & ->).
    apply list_elem_of_fmap in Hsmp as (d0 & -> & Hd0). apply elem_of_seq in Hd0.
    apply day_block_length; rewrite ?Hlen; lia. }
  rewrite snap_centroids_spec in Hsnap; [| lia |]; cycle 1.
  { rewrite <- Hk, firstn_all. eapply Forall_impl; [exact Hrowlen|]. cbn. lia. }
  rewrite <- Hk, firstn_all, drop_all, app_nil_r in Hsnap. injection Hsnap as <-.
  rewrite lookup_map_seq in Hx.
  destruct (decide (1 ≤ d)) as [H1|]; [|by rewrite option_guard_False in Hx].
  rewrite option_guard_True in Hx by done.
  rewrite !list_lookup_fmap in Hx.
  destruct (cluster_centers_ fit !! (d - 1)) as [row|] eqn:Hrow; [|done].
  cbn in Hx. rewrite lookup_map_seq_0 in Hx.
  assert (length row = 24) as Hrow24.
  { rewrite Forall_forall in Hrowlen. apply Hrowlen. by eapply list_elem_of_lookup_2. }
  pose proof (snap_row_24 row Hrow24) as Hclean. rewrite Forall_forall in Hclean.
  apply Hclean. by eapply list_elem_of_lookup_2.
Qed.

End ClusteringStructure.
End PipelineFacts.

Import Pyomo MultiPeriod.

(** * Price data stored on the model *)

Section DictFacts.
Import PriceTakerSetup.
Context {A B : Type} `{EqDecision A}.
Implicit Types (d l : list (A * B)) (k : A).

Lemma dict_setitem_fresh d k (v : B) : k ∉ d.*1 → dict_setitem d k v = d ++ [(k, v)].
Proof.
  induction d as [|[k' v'] d IH]; intros Hk; [done|].
  cbn in Hk |- *. apply not_elem_of_cons in Hk as [Hne Hk].
  rewrite decide_False by done. by rewrite IH.
Qed.

Lemma foldl_dict_setitem_fresh d l :
  NoDup (d ++ l).*1 → foldl (λ d kv, dict_setitem d kv.1 kv.2) d l = d ++ l.
Proof.
  revert d. induction l as [|[k v] l IH]; intros d Hnd; cbn [foldl].
  - by rewrite app_nil_r.
  - rewrite dict_setitem_fresh; cycle 1.
    { rewrite fmap_app in Hnd. apply NoDup_app in Hnd as (_ & Hnd & _).
      intros Hk. apply (Hnd k Hk). cbn. left. }
    rewrite IH; rewrite <- app_assoc; done.
Qed.

Lemma assoc_get_app d l k :
  assoc_get k (d ++ l) = match assoc_get k d with Some v => Some v | None => assoc_get k l end.
Proof.
  induction d as [|[k' v'] d IH]; [done|]. cbn. case_decide; done.
Qed.

Lemma assoc_get_None d k : k ∉ d.*1 → assoc_get k d = None.
Proof.
  induction d as [|[k' v'] d IH]; [done|]. cbn. intros Hk.
  apply not_elem_of_cons in Hk as [Hne Hk]. rewrite decide_False by done. by apply IH.
Qed.

Lemma assoc_get_Some_elem_of d k (v : B) : assoc_get k d = Some v → k ∈ d.*1.
Proof.
  induction d as [|[k' v'] d IH]; [done|]. cbn. case_decide as Hk.
  - intros _. subst. left.
  - intros Hv. right. by apply IH.
Qed.
Lemma assoc_get_zip (ks : list A) (vs : list B) (i : nat) k :
  NoDup ks → ks !! i = Some k → assoc_get k (zip ks vs) = vs !! i.
Proof.
  revert vs i. induction ks as [|k' ks IH]; intros vs i Hnd Hi; [done|].
  apply NoDup_cons in Hnd as [Hk' Hnd].
  destruct vs as [|v vs]; [by destruct i|].
  cbn [zip zip_with assoc_get]. destruct i as [|i].
  - injection Hi as ->. by rewrite decide_True.
  - cbn in Hi. rewrite decide_False; [cbn; by apply IH|].
    intros ->. apply Hk'. by eapply list_elem_of_lookup_2.
Qed.
Lemma dict_setitem_same d k (v : B) : assoc_get k d = Some v → dict_setitem d k v = d.
Proof.
  induction d as [|[k' v'] d IH]; [done|]. cbn. case_decide as Hk.
  - by intros [= ->].
  - intros Hv. by rewrite IH.
Qed.

Lemma assoc_get_snoc d k (v : B) : k ∉ d.*1 → assoc_get k (d ++ [(k, v)]) = Some v.
Proof.
  intros Hk. rewrite assoc_get_app, assoc_get_None by done. cbn. by rewrite decide_True.
Qed.
End DictFacts.

Section GridFacts.
Context {A B K V : Type} `{EqDecision K}.
Variable key : A → B → K.
Variable val : A → B → V.
Hypothesis key_inj : ∀ a b a' b', key a b = key a' b' → a = a' ∧ b = b'.

Lemma assoc_get_row (a : A) (b : B) (bs : list B) :
  b ∈ bs → assoc_get (key a b) ((λ b', (key a b', val a b')) <$> bs) = Some (val a b).
Proof.
  induction bs as [|b' bs IH]; intros Hb; [by apply elem_of_nil in Hb|].
  cbn. case_decide as Hk.
  - apply key_inj in Hk as [_ ->]. done.
  - apply elem_of_cons in Hb as [->|Hb]; [done|]. by apply IH.
Qed.

Lemma assoc_get_grid (a : A) (b : B) (l : list A) (bs : list B) :
  a ∈ l → b ∈ bs →
  assoc_get (key a b) (a' ← l; (λ b', (key a' b', val a' b')) <$> bs) = Some (val a b).
Proof.
  intros Ha Hb. induction l as [|a' l IH]; [by apply elem_of_nil in Ha|].
  cbn [mbind list_bind]. rewrite assoc_get_app.
  destruct (assoc_get (key a b) ((λ b', (key a' b', val a' b')) <$> bs)) as [v|] eqn:Hv.
  - apply assoc_get_Some_elem_of in Hv as Hin.
    rewrite <- list_fmap_compose in Hin. apply list_elem_of_fmap in Hin as (b' & Hk & _).
    cbn in Hk. apply key_inj in Hk as [-> ->]. rewrite assoc_get_row in Hv by done. done.
  - apply elem_of_cons in Ha as [->|Ha]; [|by apply IH].
    rewrite assoc_get_row in Hv by done. done.
Qed.

Lemma grid_fst (l : list A) (bs : list B) :
  (a' ← l; (λ b', (key a' b', val a' b')) <$> bs).*1 = (a' ← l; key a' <$> bs).
Proof.
  induction l as [|a l IH]; [done|]. cbn [mbind list_bind].
  rewrite fmap_app, IH. f_equal. rewrite <- list_fmap_compose. done.
Qed.

Lemma grid_NoDup (l : list A) (bs : list B) :
  NoDup l → NoDup bs → NoDup (a' ← l; key a' <$> bs).
Proof.
  intros Hl Hbs. apply NoDup_bind; [| |done].
  - intros a1 a2 k _ _ H1 H2. apply list_elem_of_fmap in H1 as (b1 & -> & _).
    apply list_elem_of_fmap in H2 as (b2 & Hk & _). by apply key_inj in Hk as [-> _].
  - intros a _. apply NoDup_fmap_2; [|done]. intros b1 b2 Hk. by apply key_inj in Hk as [_ ->].
Qed.
End GridFacts.

Section ComprehensionFacts.
Import PriceTakerSetup.
Context {A B : Type}.

Lemma comprehension_fmap (f : A → result B) (g : A → B) (l : list A) :
  (∀ x, x ∈ l → f x = Ok (g x)) → comprehension f l = Ok (g <$> l).
Proof.
  induction l as [|x l IH]; intros Hf; [done|].
  cbn. rewrite Hf by left. rewrite IH; [done|]. intros y Hy. apply Hf. by right.
Qed.

Lemma comprehension_Ok (f : A → result B) (l : list A) (ys : list B) :
  comprehension f l = Ok ys → Forall2 (λ x y, f x = Ok y) l ys.
Proof.
  revert ys. induction l as [|x l IH]; intros ys; cbn.
  - intros [= <-]. constructor.
  - destruct (f x) as [y|e] eqn:Hx; [|done].
    destruct (comprehension f l) as [ys'|e]; [|done]. intros [= <-].
    constructor; [done|]. by apply IH.
Qed.
End ComprehensionFacts.


Section AppendFacts.
Import PriceTaker PriceTakerSetup Views.
Context {F L : Type} `{EqDecision L}.
Context {RNG : Type}.
Context {U V FO IO UO SR J : Type}.
Variable read_excel : F → result (@DataFrame L).
Variable int : L → result Z.
Variable KMeans_fit : nat → list (list Q) → Run RNG KMeansFit.
Variable empty_block : U.
Variable process_model_func : U → FO → U.
Variable initialization_func : option (U → IO → U).
Variable unfix_dof_func : option (U → UO → U).
Variable flowsheet_options : FO.
Variable initialization_options : IO.
Variable unfix_dof_options : UO.
Variable solve : U → U * SR.
Variable check_optimal_termination : SR → bool.
Variable to_json : U → J.
Variable from_json : U → J → U.

Local Abbreviation Model := (@PriceTaker U V).
Local Abbreviation St := (@State RNG U V).
Local Abbreviation append := (append_lmp_data (U := U) (V := V) read_excel int KMeans_fit).
Local Abbreviation build_mp :=
  (build_multiperiod_model (RNG := RNG) empty_block process_model_func initialization_func
     unfix_dof_func flowsheet_options initialization_options unfix_dof_options solve
     check_optimal_termination to_json from_json).

Implicit Types (s : Model) (g : RNG).

Lemma setattr_run (f : Model → Model) s g :
  setattr f (s, g) = ((f s, g), Ok ()).
Proof. done. Qed.

Lemma LMP_setitem_run s g lmp k x :
  LMP s = Value lmp →
  LMP_setitem k x (s, g) = ((set_LMP (dict_setitem lmp k x) s, g), Ok ()).
Proof.
  intros Hl. unfold LMP_setitem. rewrite bind_unfold. unfold getattr.
  cbn [fst snd]. by rewrite Hl.
Qed.

Lemma WEIGHTS_setitem_run s g weights k w :
  WEIGHTS s = Value weights →
  WEIGHTS_setitem k w (s, g) = ((set_WEIGHTS (dict_setitem weights k w) s, g), Ok ()).
Proof.
  intros Hl. unfold WEIGHTS_setitem. rewrite bind_unfold. unfold getattr.
  cbn [fst snd]. by rewrite Hl.
Qed.

(** A loop storing one price per key. *)
Lemma LMP_loop (ts : list Z) (h : Z → result Q) (key : Z → PeriodIndex) s g lmp xs :
  comprehension h ts = Ok xs →
  LMP s = Value lmp → NoDup (lmp.*1 ++ (key <$> ts)) →
  for_each ts (λ t, x ← lift (h t); LMP_setitem (key t) x) (s, g)
  = ((set_LMP (lmp ++ zip (key <$> ts) xs) s, g), Ok ()).
Proof.
  revert s lmp xs. induction ts as [|t ts IH]; intros s lmp xs Hxs Hlmp Hnd.
  - cbn in Hxs. injection Hxs as <-. cbn. rewrite app_nil_r.
    destruct s. cbn in *. by subst.
  - cbn [comprehension] in Hxs.
    destruct (h t) as [x|e] eqn:Hx; [|done].
    destruct (comprehension h ts) as [xs'|e] eqn:Hxs'; [|done]. injection Hxs as <-.
    rewrite for_each_cons, bind_unfold. unfold lift at 1. rewrite Hx.
    rewrite (LMP_setitem_run _ _ lmp) by done.
    rewrite dict_setitem_fresh; cycle 1.
    { apply NoDup_app in Hnd as (_ & Hnd & _). intros Hk. apply (Hnd _ Hk). left. }
    rewrite (IH _ (lmp ++ [(key t, x)]) xs') by
      (done || (rewrite fmap_app, <- app_assoc; done)).
    cbn. rewrite <- app_assoc. done.
Qed.

Lemma LMP_loop_inv (ts : list Z) (h : Z → result Q) (key : Z → PeriodIndex) (st st' : St) :
  for_each ts (λ t, x ← lift (h t); LMP_setitem (key t) x) st = (st', Ok ()) →
  ∃ xs, comprehension h ts = Ok xs.
Proof.
  revert st. induction ts as [|t ts IH]; intros st Hrun; [by eexists|].
  rewrite for_each_cons, bind_unfold in Hrun. unfold lift at 1 in Hrun.
  cbn [comprehension].
  destruct (h t) as [x|e]; [|done].
  destruct (LMP_setitem (key t) x st) as [st1 [[]|e]]; [|done].
  destruct (IH _ Hrun) as [xs ->]. by eexists.
Qed.

Lemma zip_seqZ_getitem (key : Z → PeriodIndex) (prices : list Q) (a : Z) :
  (λ t, (key t, default 0%Q (prices !! Z.to_nat (t - a))))
    <$> seqZ a (Z.of_nat (length prices))
  = zip (key <$> seqZ a (Z.of_nat (length prices))) prices.
Proof.
  revert a. induction prices as [|x prices IH]; intros a; [done|].
  cbn [length]. rewrite seqZ_S_cons. cbn [fmap list_fmap zip zip_with].
  replace (Z.to_nat (a - a)) with 0%nat by lia. cbn [lookup list_lookup default from_option id].
  f_equal. rewrite <- IH. apply list_fmap_ext. intros i t Ht.
  apply lookup_seqZ in Ht as [-> Hi].
  replace (Z.to_nat (a + 1 + Z.of_nat i - a)) with (S (Z.to_nat (a + 1 + Z.of_nat i - (a + 1))))
    by lia.
  done.
Qed.

Lemma append_full_series_run file column_name horizon_length
    (self : PriceTakerModel) g full_data prices :
  read_excel file = Ok full_data →
  DataFrame_wf full_data →
  DataFrame_getitem full_data column_name = Ok prices →
  let N := Z.of_nat (length prices) in
  append file (col_one column_name) None horizon_length (new_model self, g)
  = ((mkPT self (Value None) (Value None) (Value N) (Value (seqZ 1 N))
        (Value (zip (idx_t <$> seqZ 1 N) prices)) Unset Unset, g), Ok ()).
Proof.
  intros Hread Hwf Hcol N.
  assert (DataFrame_len full_data = length prices) as Hlen.
  { unfold DataFrame_getitem in Hcol.
    destruct (list_find _ full_data) as [[n [i' column]]|] eqn:Hfind; [|done].
    injection Hcol as ->.
    apply list_find_Some in Hfind as (Hn & _ & _).
    apply list_elem_of_lookup_2, Hwf in Hn. done. }
  unfold append_lmp_data.
  rewrite bind_unfold. unfold lift at 1. rewrite Hread.
  do 4 rewrite (bind_Ok _ _ _ _ _ (setattr_run _ _ _)).
  rewrite bind_unfold. unfold lift at 1. rewrite Hcol.
  rewrite Hlen. fold N. unfold RangeSet.
  assert (NoDup (zip (idx_t <$> seqZ 1 N) prices).*1) as Hnd.
  { rewrite fst_zip by (rewrite length_fmap, length_seqZ; lia).
    apply NoDup_fmap_2; [by intros ?? [=]|apply NoDup_seqZ]. }
  rewrite bind_unfold. unfold lift at 1.
  rewrite (comprehension_fmap _
             (λ t, (idx_t t, default 0%Q (prices !! Z.to_nat (t - 1))))); cycle 1.
  { intros t Ht. apply elem_of_seqZ in Ht. unfold list_getitem.
    rewrite decide_True by lia.
    destruct (prices !! Z.to_nat (t - 1)) as [x|] eqn:Hx; [done|].
    apply lookup_ge_None in Hx. lia. }
  unfold N at 1. rewrite zip_seqZ_getitem. fold N.
  rewrite foldl_dict_setitem_fresh by done. rewrite app_nil_l. done.
Qed.

(** X12: [append_lmp_data] with one column name and no clusters stores the whole
    column: [LMP[t]] is the price at position [t - 1] for [t] in
    [1 .. len], the day and year sets are [None], and [WEIGHTS] is not
    set. *)
Theorem append_lmp_data_full_series file column_name horizon_length
    (self : PriceTakerModel) g full_data prices :
  read_excel file = Ok full_data →
  DataFrame_wf full_data →
  DataFrame_getitem full_data column_name = Ok prices →
  let N := Z.of_nat (length prices) in
  ∃ s, append file (col_one column_name) None horizon_length (new_model self, g)
       = ((s, g), Ok ())
       ∧ set_years s = Value None
       ∧ set_days s = Value None
       ∧ _n_time_points s = Value N
       ∧ set_time s = Value (seqZ 1 N)
       ∧ LMP s = Value (zip (idx_t <$> seqZ 1 N) prices)
       ∧ WEIGHTS s = Unset
       ∧ ∀ t, assoc_get (idx_t t) (zip (idx_t <$> seqZ 1 N) prices)
              = if decide (1 ≤ t ≤ N) then prices !! Z.to_nat (t - 1) else None.
Proof.
  intros Hread Hwf Hcol N.
  eexists. split; [by apply (append_full_series_run _ _ _ _ _ full_data)|]. cbn.
  do 6 (split; [done|]).
  intros t. case_decide as Ht.
  - destruct (prices !! Z.to_nat (t - 1)) as [x|] eqn:Hx.
    + rewrite <- Hx. replace t with (1 + Z.of_nat (Z.to_nat (t - 1))) at 1 by lia.
      apply assoc_get_zip.
      * apply NoDup_fmap_2; [by intros ?? [=]|apply NoDup_seqZ].
      * rewrite list_lookup_fmap, lookup_seqZ_lt by lia. done.
    + apply lookup_ge_None in Hx. lia.
  - apply assoc_get_None. rewrite fst_zip by (rewrite length_fmap, length_seqZ; lia).
    intros Hin. apply list_elem_of_fmap in Hin as (t' & [= <-] & Ht').
    apply elem_of_seqZ in Ht'. lia.
Qed.

Lemma fmap_seqZ_lookup (prices : list Q) (a : Z) :
  (λ t, default 0%Q (prices !! Z.to_nat (t - a))) <$> seqZ a (Z.of_nat (length prices))
  = prices.
Proof.
  revert a. induction prices as [|x prices IH]; intros a; [done|].
  cbn [length]. rewrite seqZ_S_cons. cbn [fmap list_fmap].
  replace (Z.to_nat (a - a)) with 0%nat by lia. cbn [lookup list_lookup default from_option id].
  f_equal. rewrite <- (IH (a + 1)) at 2. apply list_fmap_ext. intros i t Ht.
  apply lookup_seqZ in Ht as [-> Hi].
  replace (Z.to_nat (a + 1 + Z.of_nat i - a)) with (S (Z.to_nat (a + 1 + Z.of_nat i - (a + 1))))
    by lia.
  done.
Qed.

Lemma comprehension_Series_getitem (prices : list Q) :
  comprehension (λ t, Series_getitem prices (t - 1)) (seqZ 1 (Z.of_nat (length prices)))
  = Ok prices.
Proof.
  rewrite (comprehension_fmap _ (λ t, default 0%Q (prices !! Z.to_nat (t - 1)))).
  - by rewrite fmap_seqZ_lookup.
  - intros t Ht. apply elem_of_seqZ in Ht. unfold Series_getitem.
    rewrite decide_True by lia.
    destruct (prices !! Z.to_nat (t - 1)) as [x|] eqn:Hx; [done|].
    apply lookup_ge_None in Hx. lia.
Qed.

Lemma year_prices_fst (y : Z) (prices : list Q) :
  (year_prices (Z.of_nat (length prices)) y prices).*1
  = (λ t, idx_ty t y) <$> seqZ 1 (Z.of_nat (length prices)).
Proof. unfold year_prices. apply fst_zip. rewrite length_fmap, length_seqZ. lia. Qed.

Section MultiYear.
Variable full_data : @DataFrame L.
Variable yr : L → Z.
Variable col : L → list Q.
Let N : Z := Z.of_nat (DataFrame_len full_data).

Lemma multi_year_loop (todo : list L) s g lmp :
  LMP s = Value lmp → NoDup lmp.*1 →
  (∀ t year, year ∈ todo → idx_ty t (yr year) ∉ lmp.*1) →
  NoDup (yr <$> todo) →
  (∀ year, year ∈ todo →
     int year = Ok (yr year) ∧ DataFrame_getitem full_data year = Ok (col year)
     ∧ Z.of_nat (length (col year)) = N) →
  for_each todo (λ year,
    price_data ← lift (DataFrame_getitem full_data year);
    y ← lift (int year);
    for_each (RangeSet N) (λ t,
      x ← lift (Series_getitem price_data (t - 1));
      LMP_setitem (idx_ty t y) x)) (s, g)
  = ((set_LMP (lmp ++ (year ← todo; year_prices N (yr year) (col year))) s, g), Ok ()).
Proof.
  revert s lmp. induction todo as [|year todo IH]; intros s lmp Hlmp Hnd Hfresh Hyr Hok.
  - cbn. rewrite app_nil_r. destruct s. cbn in *. by subst.
  - destruct (Hok year) as (Hint & Hget & Hlen); [left|].
    apply NoDup_cons in Hyr as [Hy Hyr].
    rewrite for_each_cons.
    rewrite bind_unfold. unfold lift at 1. rewrite Hget.
    rewrite bind_unfold. unfold lift at 1. rewrite Hint.
    unfold RangeSet. rewrite <- Hlen.
    assert (NoDup (lmp.*1 ++ ((λ t, idx_ty t (yr year)) <$> seqZ 1 (Z.of_nat (length (col year))))))
      as Hnd'.
    { apply NoDup_app. split; [done|]. split.
      - intros k Hk Hk'. apply list_elem_of_fmap in Hk' as (t & -> & _).
        apply (Hfresh t year); [left|done].
      - apply NoDup_fmap_2; [by intros ?? [=]|apply NoDup_seqZ]. }
    rewrite (LMP_loop _ _ _ _ _ lmp (col year)
               (comprehension_Series_getitem (col year)) Hlmp Hnd').
    fold (year_prices (Z.of_nat (length (col year))) (yr year) (col year)).
    rewrite Hlen.
    rewrite (IH _ (lmp ++ year_prices N (yr year) (col year))); first last.
    + intros year' Hyear'. apply Hok. by right.
    + done.
    + intros t year' Hyear'. rewrite fmap_app, elem_of_app. intros [Hk|Hk].
      * apply (Hfresh t year'); [by right|done].
      * rewrite <- Hlen, year_prices_fst in Hk.
        apply list_elem_of_fmap in Hk as (t' & [= -> Heq] & _).
        apply Hy. rewrite <- Heq. apply list_elem_of_fmap. by exists year'.
    + rewrite fmap_app. rewrite <- Hlen at 1. rewrite year_prices_fst. exact Hnd'.
    + done.
    + cbn. rewrite <- app_assoc. destruct s. done.
Qed.

Lemma year_prices_lookup (years : list L) (year : L) (t : Z) :
  NoDup (yr <$> years) → year ∈ years →
  (∀ year, year ∈ years → Z.of_nat (length (col year)) = N) →
  1 ≤ t ≤ N →
  assoc_get (idx_ty t (yr year)) (year ← years; year_prices N (yr year) (col year))
  = col year !! Z.to_nat (t - 1).
Proof.
  intros Hnd Hin Hlen Ht. induction years as [|year' years IH]; [by apply elem_of_nil in Hin|].
  apply NoDup_cons in Hnd as [Hy Hnd].
  cbn [mbind list_bind]. rewrite assoc_get_app.
  assert (Z.of_nat (length (col year')) = N) as Hlen' by (apply Hlen; left).
  destruct (decide (yr year' = yr year)) as [Heq|Hne].
  - rewrite Heq.
    assert (col year' !! Z.to_nat (t - 1) = col year !! Z.to_nat (t - 1)
            ∧ is_Some (col year' !! Z.to_nat (t - 1))) as [Hcol [x Hx]].
    { split; [|apply lookup_lt_is_Some; lia].
      apply elem_of_cons in Hin as [->|Hin]; [done|].
      exfalso. apply Hy. rewrite Heq. apply list_elem_of_fmap. by exists year. }
    unfold year_prices at 1.
    rewrite (assoc_get_zip _ _ (Z.to_nat (t - 1)) _); cycle 1.
    { apply NoDup_fmap_2; [by intros ?? [=]|apply NoDup_seqZ]. }
    { rewrite list_lookup_fmap, lookup_seqZ_lt by lia. cbn. do 2 f_equal. lia. }
    rewrite Hx. by rewrite <- Hcol.
  - rewrite assoc_get_None; cycle 1.
    { rewrite <- Hlen', year_prices_fst. intros Hk.
      apply list_elem_of_fmap in Hk as (t' & [= -> Heq] & _). done. }
    apply IH; [done| |].
    + apply elem_of_cons in Hin as [->|Hin]; done.
    + intros y' Hy'. apply Hlen. by right.
Qed.
End MultiYear.

Lemma DataFrame_getitem_length (full_data : @DataFrame L) (c : L) (prices : list Q) :
  DataFrame_wf full_data → DataFrame_getitem full_data c = Ok prices →
  length prices = DataFrame_len full_data.
Proof.
  intros Hwf Hcol. unfold DataFrame_getitem in Hcol.
  destruct (list_find _ full_data) as [[n [i' column]]|] eqn:Hfind; [|done].
  injection Hcol as ->.
  apply list_find_Some in Hfind as (Hn & _ & _).
  apply list_elem_of_lookup_2, Hwf in Hn. done.
Qed.

Lemma append_multi_year_run file (column_name : list L) horizon_length
    (self : PriceTakerModel) g full_data (yr : L → Z) (col : L → list Q) :
  read_excel file = Ok full_data →
  DataFrame_wf full_data →
  (∀ year, year ∈ column_name →
     int year = Ok (yr year) ∧ DataFrame_getitem full_data year = Ok (col year)) →
  NoDup (yr <$> column_name) →
  let N := Z.of_nat (DataFrame_len full_data) in
  append file (col_list column_name) None horizon_length (new_model self, g)
  = ((mkPT self (Value (Some (yr <$> column_name))) (Value None) (Value N)
        (Value (seqZ 1 N))
        (Value (year ← column_name; year_prices N (yr year) (col year))) Unset Unset, g),
     Ok ()).
Proof.
  intros Hread Hwf Hok Hnd N.
  assert (∀ year, year ∈ column_name → Z.of_nat (length (col year)) = N) as Hlen.
  { intros year Hyear. destruct (Hok year Hyear) as [_ Hcol].
    unfold N. by rewrite (DataFrame_getitem_length _ _ _ Hwf Hcol). }
  unfold append_lmp_data.
  rewrite bind_unfold. unfold lift at 1. rewrite Hread.
  rewrite bind_unfold. unfold lift at 1.
  rewrite (comprehension_fmap int yr) by (intros year Hyear; by apply Hok).
  do 5 rewrite (bind_Ok _ _ _ _ _ (setattr_run _ _ _)).
  fold N.
  rewrite (multi_year_loop full_data yr col column_name _ g []); first last.
  - intros year Hyear. destruct (Hok year Hyear). split; [done|]. split; [done|].
    by apply Hlen.
  - done.
  - intros t year _. apply not_elem_of_nil.
  - apply NoDup_nil_2.
  - done.
  - by rewrite app_nil_l.
Qed.

(** X13: [append_lmp_data] with a list of year columns and no clusters stores
    [LMP[(t, year)]] as the price at position [t - 1] of that year's
    column, for every [t] in [1 .. len] of the table, and sets [set_years]
    to the years as integers. *)
Theorem append_lmp_data_multi_year file (column_name : list L) horizon_length
    (self : PriceTakerModel) g full_data (yr : L → Z) (col : L → list Q) :
  read_excel file = Ok full_data →
  DataFrame_wf full_data →
  (∀ year, year ∈ column_name →
     int year = Ok (yr year) ∧ DataFrame_getitem full_data year = Ok (col year)) →
  NoDup (yr <$> column_name) →
  let N := Z.of_nat (DataFrame_len full_data) in
  let prices := year ← column_name; year_prices N (yr year) (col year) in
  ∃ s, append file (col_list column_name) None horizon_length (new_model self, g)
       = ((s, g), Ok ())
       ∧ set_years s = Value (Some (yr <$> column_name))
       ∧ set_days s = Value None
       ∧ _n_time_points s = Value N
       ∧ set_time s = Value (seqZ 1 N)
       ∧ LMP s = Value prices
       ∧ WEIGHTS s = Unset
       ∧ ∀ year t, year ∈ column_name → 1 ≤ t ≤ N →
           assoc_get (idx_ty t (yr year)) prices = col year !! Z.to_nat (t - 1)
           ∧ is_Some (col year !! Z.to_nat (t - 1)).
Proof.
  intros Hread Hwf Hok Hnd N prices.
  assert (∀ year, year ∈ column_name → Z.of_nat (length (col year)) = N) as Hlen.
  { intros year Hyear. destruct (Hok year Hyear) as [_ Hcol].
    unfold N. by rewrite (DataFrame_getitem_length _ _ _ Hwf Hcol). }
  eexists. split; [by apply (append_multi_year_run _ _ _ _ _ full_data)|]. cbn.
  do 6 (split; [done|]).
  intros year t Hyear Ht. split.
  - by apply year_prices_lookup.
  - apply lookup_lt_is_Some. specialize (Hlen year Hyear). lia.
Qed.

(** ** Representative days *)

Lemma set_LMP_WEIGHTS_LMP l' w l s :
  set_LMP l' (set_WEIGHTS w (set_LMP l s)) = set_WEIGHTS w (set_LMP l' s).
Proof. done. Qed.

Lemma set_WEIGHTS_WEIGHTS w' w l s :
  set_WEIGHTS w' (set_WEIGHTS w (set_LMP l s)) = set_WEIGHTS w' (set_LMP l s).
Proof. done. Qed.

Section RepresentativeDays.
Variable lmp_data : gmap nat (gmap nat Q).
Variable weights : gmap nat (gmap nat nat).
Variable key : Z → Z → PeriodIndex.
Variable wkey : Z → WeightIndex.
Hypothesis key_inj : ∀ t d t' d', key t d = key t' d' → t = t' ∧ d = d'.
Hypothesis wkey_inj : ∀ d d', wkey d = wkey d' → d = d'.

Local Abbreviation body := (λ (d t : Z),
  x ← lift (getitem2 lmp_data d t);
  LMP_setitem (RNG := RNG) (U := U) (V := V) (key t d) x;;
  w ← lift (getitem2 weights 0 d);
  WEIGHTS_setitem (wkey d) w).

(** The values the two lookups give when they succeed. *)
Local Abbreviation price := (λ (d t : Z),
  default 0%Q (lmp_data !! Z.to_nat d ≫= λ row, row !! Z.to_nat t)).
Local Abbreviation weight := (λ (d : Z),
  default 0%nat (weights !! 0%nat ≫= λ row, row !! Z.to_nat d)).

Lemma getitem2_Ok {A} (dflt : A) (m : gmap nat (gmap nat A)) (i j : Z) :
  is_Ok (getitem2 m i j) = true →
  getitem2 m i j = Ok (default dflt (m !! Z.to_nat i ≫= λ row, row !! Z.to_nat j))
  ∧ is_Some (m !! Z.to_nat i ≫= λ row, row !! Z.to_nat j) ∧ 0 ≤ i ∧ 0 ≤ j.
Proof.
  unfold getitem2. case_decide as Hij; [|done].
  destruct (m !! Z.to_nat i ≫= _) as [a|]; [|done]. intros _.
  split; [done|]. split; [by eexists|done].
Qed.

Lemma rep_loops_inv (days time : list Z) (st st' : St) :
  for_each days (λ d, for_each time (body d)) st = (st', Ok ()) →
  ∀ d t, d ∈ days → t ∈ time →
    is_Ok (getitem2 lmp_data d t) = true ∧ is_Ok (getitem2 weights 0 d) = true.
Proof.
  revert st. induction days as [|d0 days IH]; intros st Hrun d t Hd Ht;
    [by apply elem_of_nil in Hd|].
  rewrite for_each_cons in Hrun. cbv beta in Hrun.
  destruct (for_each time _ st) as [st1 [[]|e]] eqn:Hinner; [|done].
  apply elem_of_cons in Hd as [->|Hd]; [|by eapply IH].
  clear Hrun IH. revert st Hinner. induction time as [|t0 time IHt]; intros st Hinner;
    [by apply elem_of_nil in Ht|].
  rewrite for_each_cons in Hinner. cbv beta in Hinner.
  match type of Hinner with
  | context [match ?c with _ => _ end] => destruct c as [st2 [[]|e]] eqn:Hbody; [|done]
  end.
  apply elem_of_cons in Ht as [->|Ht]; [|by eapply IHt].
  rewrite bind_unfold in Hbody. unfold lift at 1 in Hbody.
  destruct (getitem2 lmp_data d0 t0) as [x|e]; [|done].
  rewrite bind_unfold in Hbody.
  destruct (LMP_setitem _ _ st) as [st3 [[]|e]]; [|done].
  rewrite bind_unfold in Hbody. unfold lift at 1 in Hbody.
  destruct (getitem2 weights 0 d0) as [w|e]; done.
Qed.

Lemma rep_inner_loop (d : Z) (time : list Z) s g lmp wts W0 :
  (∀ t, t ∈ time → is_Ok (getitem2 lmp_data d t) = true) →
  (time ≠ [] → is_Ok (getitem2 weights 0 d) = true) →
  NoDup (lmp.*1 ++ ((λ t, key t d) <$> time)) →
  wkey d ∉ wts.*1 →
  W0 = wts ∨ W0 = wts ++ [(wkey d, weight d)] →
  for_each time (body d) (set_WEIGHTS W0 (set_LMP lmp s), g)
  = ((set_WEIGHTS (match time with [] => W0 | _ => wts ++ [(wkey d, weight d)] end)
        (set_LMP (lmp ++ ((λ t, (key t d, price d t)) <$> time)) s), g), Ok ()).
Proof.
  revert lmp W0. induction time as [|t time IH]; intros lmp W0 Hprice Hweight Hnd Hw HW0.
  - cbn. by rewrite app_nil_r.
  - rewrite for_each_cons.
    destruct (getitem2_Ok 0%Q lmp_data d t) as (Hx & _); [apply Hprice; left|].
    destruct (getitem2_Ok 0%nat weights 0 d) as (Hwt & _); [by apply Hweight|].
    change (Z.to_nat 0) with 0%nat in Hwt.
    rewrite bind_unfold. unfold lift at 1. rewrite Hx.
    rewrite bind_unfold. rewrite (LMP_setitem_run _ _ lmp) by done.
    rewrite bind_unfold. unfold lift at 1. rewrite Hwt.
    rewrite (WEIGHTS_setitem_run _ _ W0) by done.
    rewrite set_LMP_WEIGHTS_LMP, set_WEIGHTS_WEIGHTS.
    rewrite (dict_setitem_fresh lmp); cycle 1.
    { apply NoDup_app in Hnd as (_ & Hnd & _). intros Hk. apply (Hnd _ Hk). left. }
    assert (dict_setitem W0 (wkey d) (weight d) = wts ++ [(wkey d, weight d)]) as ->.
    { destruct HW0 as [->| ->]; [by apply dict_setitem_fresh|].
      apply dict_setitem_same. by apply assoc_get_snoc. }
    cbv beta iota.
    rewrite <- Hwt. rewrite (IH (lmp ++ [(key t d, price d t)]) (wts ++ [(wkey d, weight d)])); first last.
    + by right.
    + done.
    + rewrite fmap_app, <- app_assoc. done.
    + intros _. by apply Hweight.
    + intros t' Ht'. apply Hprice. by right.
    + cbn [fmap list_fmap]. rewrite <- app_assoc. by destruct time.
Qed.

Lemma rep_outer_loop (days time : list Z) s g lmp wts :
  (∀ d t, d ∈ days → t ∈ time →
     is_Ok (getitem2 lmp_data d t) = true ∧ is_Ok (getitem2 weights 0 d) = true) →
  NoDup days → NoDup time →
  NoDup lmp.*1 → (∀ t d, d ∈ days → key t d ∉ lmp.*1) →
  (∀ d, d ∈ days → wkey d ∉ wts.*1) →
  for_each days (λ d, for_each time (body d)) (set_WEIGHTS wts (set_LMP lmp s), g)
  = ((set_WEIGHTS (wts ++ match time with
                          | [] => []
                          | _ => (λ d, (wkey d, weight d)) <$> days
                          end)
        (set_LMP (lmp ++ (d ← days; (λ t, (key t d, price d t)) <$> time)) s), g), Ok ()).
Proof.
  intros Hok Hdays Htime. revert lmp wts.
  induction days as [|d days IH]; intros lmp wts Hnd Hfresh Hwfresh.
  - cbn. rewrite !app_nil_r. by destruct time; rewrite ?app_nil_r.
  - apply NoDup_cons in Hdays as [Hd Hdays].
    rewrite for_each_cons.
    rewrite (rep_inner_loop d time s g lmp wts wts); first last.
    + by left.
    + apply Hwfresh. left.
    + apply NoDup_app. split; [done|]. split.
      * intros k Hk Hk'. apply list_elem_of_fmap in Hk' as (t & -> & _).
        apply (Hfresh t d); [left|done].
      * apply NoDup_fmap_2; [|done]. intros t1 t2 Hk. by apply key_inj in Hk as [-> _].
    + intros Hne. destruct time as [|t0 time']; [done|].
      apply (Hok d t0); left.
    + intros t Ht. apply (Hok d t); [left|done].
    + destruct time as [|t0 time'] eqn:Htm.
      * cbn [fmap list_fmap]. rewrite app_nil_r.
        rewrite IH; first last.
        -- intros d' Hd'. apply Hwfresh. by right.
        -- intros t d' Hd'. apply Hfresh. by right.
        -- done.
        -- done.
        -- intros d' t Hd' Ht. by apply elem_of_nil in Ht.
        -- by do 3 f_equal.
      * rewrite <- Htm in *. rewrite IH; first last.
        -- intros d' Hd'. rewrite fmap_app, elem_of_app. intros [Hk|Hk].
           ++ by apply (Hwfresh d'); [right|].
           ++ apply list_elem_of_singleton in Hk. apply wkey_inj in Hk as ->. done.
        -- intros t d' Hd'. rewrite fmap_app, elem_of_app. intros [Hk|Hk].
           ++ by apply (Hfresh t d'); [right|].
           ++ rewrite <- list_fmap_compose in Hk.
              apply list_elem_of_fmap in Hk as (t' & Hk & _). cbn in Hk.
              apply key_inj in Hk as [_ ->]. done.
        -- rewrite fmap_app. apply NoDup_app. split; [done|]. split.
           ++ intros k Hk Hk'. rewrite <- list_fmap_compose in Hk'.
              apply list_elem_of_fmap in Hk' as (t & -> & _).
              apply (Hfresh t d); [left|done].
           ++ rewrite <- list_fmap_compose. apply NoDup_fmap_2; [|done].
              intros t1 t2 Hk. cbn in Hk. by apply key_inj in Hk as [-> _].
        -- done.
        -- intros d' t Hd' Ht. apply Hok; [by right|done].
        -- rewrite Htm. cbn [mbind list_bind fmap list_fmap].
           rewrite <- !app_assoc. done.
Qed.
End RepresentativeDays.

Lemma with_rng_run {A} (c : Run RNG A) s g :
  with_rng (U := U) (V := V) c (s, g) = ((s, (c g).1), (c g).2).
Proof. unfold with_rng. cbn. by destruct (c g). Qed.

(** The prices and weights stored for representative days. *)
Lemma append_representative_days_run file column_name (n_clusters : nat)
    horizon_length (self : PriceTakerModel) g full_data s' g' :
  read_excel file = Ok full_data →
  append file (col_one column_name) (Some n_clusters) horizon_length (new_model self, g)
    = ((s', g'), Ok ()) →
  let H := default 24 horizon_length in
  let days := seqZ 1 (Z.of_nat n_clusters) in
  let time := seqZ 1 (H - 1) in
  ∃ lmp_data weights,
    cluster_lmp_data KMeans_fit self full_data n_clusters g = (g', Ok (lmp_data, weights))
    ∧ (∀ d t, d ∈ days → t ∈ time →
         is_Ok (getitem2 lmp_data d t) = true ∧ is_Ok (getitem2 weights 0 d) = true)
    ∧ s' = mkPT self (Value None) (Value (Some days)) (Value H) (Value time)
             (Value (d ← days;
                     (λ t, (idx_td t d,
                            default 0%Q (lmp_data !! Z.to_nat d
                                         ≫= λ row, row !! Z.to_nat t))) <$> time))
             (Value match time with
                    | [] => []
                    | _ => (λ d, (wt_d d,
                                  default 0%nat (weights !! 0%nat
                                                 ≫= λ row, row !! Z.to_nat d))) <$> days
                    end)
             Unset.
Proof.
  intros Hread Hrun H days time.
  unfold append_lmp_data in Hrun.
  rewrite bind_unfold in Hrun. unfold lift at 1 in Hrun. rewrite Hread in Hrun.
  do 6 rewrite (bind_Ok _ _ _ _ _ (setattr_run _ _ _)) in Hrun.
  rewrite (bind_Ok _ get _ _ _ eq_refl) in Hrun.
  rewrite bind_unfold, with_rng_run in Hrun.
  cbn [fst snd base set_WEIGHTS set_LMP set_set_time set_n_time_points set_set_days
       set_set_years new_model cluster_lmp_data_on] in Hrun.
  destruct (cluster_lmp_data KMeans_fit self full_data n_clusters g)
    as [g1 [[lmp_data weights]|e]] eqn:Hcluster; [|done].
  cbn [fst snd] in Hrun.
  unfold RangeSet_from, RangeSet in Hrun.
  replace (Z.of_nat n_clusters - 1 + 1) with (Z.of_nat n_clusters) in Hrun by lia.
  fold H in Hrun. fold days in Hrun. fold time in Hrun.
  pose proof (rep_loops_inv lmp_data weights (λ t d, idx_td t d) wt_d _ _ _ _ Hrun) as Hok.
  set (s0 := mkPT self (Value None) (Value (Some days)) (Value H) (Value time)
                  Unset Unset (Unset : attr (@StochasticModel U V))) in *.
  change (mkPT self _ _ _ _ (Value []) (Value []) Unset)
    with (set_WEIGHTS [] (set_LMP [] s0)) in Hrun.
  rewrite (rep_outer_loop lmp_data weights (λ t d, idx_td t d) wt_d) in Hrun; first last.
  - intros d _. apply not_elem_of_nil.
  - intros t d _. apply not_elem_of_nil.
  - apply NoDup_nil_2.
  - apply NoDup_seqZ.
  - apply NoDup_seqZ.
  - exact Hok.
  - by intros ?? [=].
  - by intros ???? [=].
  - injection Hrun as <- <-. rewrite ?app_nil_l.
    exists lmp_data, weights. split; [done|]. split; [exact Hok|]. done.
Qed.



(** ** The multiperiod model built over the stored sets *)

Lemma build_mp_run set_scenarios s g n days years :
  _n_time_points s = Value n → set_days s = Value days → set_years s = Value years →
  build_mp set_scenarios (s, g)
  = match build_stochastic_multiperiod empty_block process_model_func initialization_func
            unfix_dof_func flowsheet_options initialization_options unfix_dof_options
            solve check_optimal_termination to_json from_json
            (stochastic_init n days years set_scenarios) with
    | (m, Ok _) => ((set_mp_model m s, g), Ok ())
    | (_, Raise e) => ((s, g), Raise e)
    end.
Proof.
  intros Hn Hd Hy. unfold build_multiperiod_model.
  rewrite bind_unfold. unfold getattr at 1. cbn [fst]. rewrite Hn.
  rewrite bind_unfold. unfold getattr at 1. cbn [fst]. rewrite Hd.
  rewrite bind_unfold. unfold getattr at 1. cbn [fst]. rewrite Hy.
  by destruct (build_stochastic_multiperiod _ _ _ _ _ _ _ _ _ _ _ _) as [m [[]|e]].
Qed.

Lemma build_mp_set_period set_scenarios s g n days years (st' : St) :
  _n_time_points s = Value n → set_days s = Value days → set_years s = Value years →
  build_mp set_scenarios (s, g) = (st', Ok ()) →
  ∃ m, st' = (set_mp_model m s, g)
       ∧ set_period m
         = compose_set_period (stochastic_init (U := U) (V := V) n days years set_scenarios).
Proof.
  intros Hn Hd Hy. rewrite (build_mp_run _ _ _ n days years) by done.
  destruct (build_stochastic_uniform (V := V) empty_block process_model_func initialization_func
              unfix_dof_func flowsheet_options initialization_options unfix_dof_options
              solve check_optimal_termination to_json from_json n days years set_scenarios)
    as (u & evs & Hm).
  destruct (build_stochastic_multiperiod _ _ _ _ _ _ _ _ _ _ _ _) as [m [[]|e]]; [|done].
  intros [= <-]. exists m. split; [done|]. cbn [fst] in Hm. by rewrite Hm.
Qed.

(** X16: after [append_lmp_data] stored whole series (one column or a list of
    year columns), the periods of the model [build_multiperiod_model]
    builds are exactly the keys of [LMP], in the same order. *)
Theorem multiperiod_periods_priced file horizon_length (self : PriceTakerModel) g
    full_data set_scenarios :
  read_excel file = Ok full_data →
  DataFrame_wf full_data →
  (∀ column_name prices,
     DataFrame_getitem full_data column_name = Ok prices →
     ∃ s1, append file (col_one column_name) None horizon_length (new_model self, g)
           = ((s1, g), Ok ())
       ∧ ∀ st2, build_mp set_scenarios (s1, g) = (st2, Ok ()) →
           ∃ m lmp, mp_model st2.1 = Value m ∧ LMP st2.1 = Value lmp
                    ∧ set_period m = lmp.*1
                    ∧ length lmp = length prices)
  ∧ (∀ (column_name : list L) (yr : L → Z) (col : L → list Q),
       (∀ year, year ∈ column_name →
          int year = Ok (yr year) ∧ DataFrame_getitem full_data year = Ok (col year)) →
       NoDup (yr <$> column_name) →
       ∃ s1, append file (col_list column_name) None horizon_length (new_model self, g)
             = ((s1, g), Ok ())
         ∧ ∀ st2, build_mp set_scenarios (s1, g) = (st2, Ok ()) →
             ∃ m lmp, mp_model st2.1 = Value m ∧ LMP st2.1 = Value lmp
                      ∧ set_period m = lmp.*1
                      ∧ length lmp = (length column_name * DataFrame_len full_data)%nat).
Proof.
  intros Hread Hwf. split.
  - intros column_name prices Hcol.
    eexists. split; [by apply (append_full_series_run _ _ _ _ _ full_data)|].
    intros st2 Hbuild.
    apply (build_mp_set_period _ _ _ (Z.of_nat (length prices)) None None) in Hbuild
      as (m & -> & HP); [|done..].
    eexists m, _. split; [done|]. split; [done|]. rewrite HP.
    rewrite fst_zip by (rewrite length_fmap, length_seqZ; lia).
    split.
    + unfold compose_set_period, stochastic_init, RangeSet. cbn [MultiPeriod.set_years MultiPeriod.set_days MultiPeriod.set_time].
      apply bind_singleton_fmap.
    + rewrite length_zip_with, length_fmap, length_seqZ. lia.
  - intros column_name yr col Hok Hnd.
    assert (∀ year, year ∈ column_name → length (col year) = DataFrame_len full_data) as Hlen.
    { intros year Hyear. destruct (Hok year Hyear) as [_ Hcol].
      by apply DataFrame_getitem_length in Hcol. }
    eexists. split; [by apply (append_multi_year_run _ _ _ _ _ full_data)|].
    intros st2 Hbuild.
    apply (build_mp_set_period _ _ _ (Z.of_nat (DataFrame_len full_data)) None
             (Some (yr <$> column_name))) in Hbuild as (m & -> & HP); [|done..].
    eexists m, _. split; [done|]. split; [done|]. rewrite HP.
    unfold compose_set_period, stochastic_init, RangeSet. cbn [MultiPeriod.set_years MultiPeriod.set_days MultiPeriod.set_time].
    cbn [fmap option_fmap option_map]. rewrite Set_initialize_NoDup by done.
    clear HP Hnd Hok. split.
    + induction column_name as [|year years IH]; [done|].
      cbn [fmap list_fmap mbind list_bind]. rewrite fmap_app. f_equal.
      * rewrite <- (Hlen year) by left. rewrite year_prices_fst.
        by rewrite bind_singleton_fmap.
      * apply IH. intros y Hy. apply Hlen. by right.
    + induction column_name as [|year years IH]; [done|].
      cbn [mbind list_bind length]. rewrite length_app, IH.
      * unfold year_prices. rewrite length_zip_with, length_fmap, length_seqZ.
        rewrite (Hlen year) by left. lia.
      * intros y Hy. apply Hlen. by right.
Qed.

(** X17: after [append_lmp_data] stored representative days, the model that
    [build_multiperiod_model] builds has the periods [(t, d)] for [t] in
    [1 .. horizon], while [LMP] holds prices for [t] in [1 .. horizon - 1]
    only: the last hour of every day is a period without a price. *)
Theorem representative_days_last_hour file column_name (n_clusters : nat)
    horizon_length (self : PriceTakerModel) g full_data s1 g1 set_scenarios st2 :
  read_excel file = Ok full_data →
  append file (col_one column_name) (Some n_clusters) horizon_length (new_model self, g)
    = ((s1, g1), Ok ()) →
  build_mp set_scenarios (s1, g1) = (st2, Ok ()) →
  let H := default 24 horizon_length in
  ∃ m lmp,
    mp_model st2.1 = Value m
    ∧ LMP st2.1 = Value lmp
    ∧ set_period m = (d ← seqZ 1 (Z.of_nat n_clusters); (λ t, idx_td t d) <$> seqZ 1 H)
    ∧ lmp.*1 = (d ← seqZ 1 (Z.of_nat n_clusters); (λ t, idx_td t d) <$> seqZ 1 (H - 1))
    ∧ ∀ d, 1 ≤ d ≤ Z.of_nat n_clusters → 1 ≤ H →
        idx_td H d ∈ set_period m ∧ assoc_get (idx_td H d) lmp = None.
Proof.
  intros Hread Hrun Hbuild H.
  destruct (append_representative_days_run _ _ _ _ _ _ _ _ _ Hread Hrun)
    as (lmp_data & weights & Hcluster & Hok & ->).
  fold H in Hbuild.
  apply (build_mp_set_period _ _ _ H (Some (seqZ 1 (Z.of_nat n_clusters))) None) in Hbuild
    as (m & -> & HP); [|done..].
  eexists m, _. split; [done|]. split; [done|].
  assert (set_period m
          = (d ← seqZ 1 (Z.of_nat n_clusters); (λ t, idx_td t d) <$> seqZ 1 H)) as HP'.
  { rewrite HP. unfold compose_set_period, stochastic_init, RangeSet.
    cbn [MultiPeriod.set_years MultiPeriod.set_days MultiPeriod.set_time fmap
         option_fmap option_map].
    rewrite Set_initialize_NoDup by apply NoDup_seqZ.
    apply list_bind_ext; [|done]. intros d. apply bind_singleton_fmap. }
  split; [exact HP'|].
  split; [apply (grid_fst (λ d t, idx_td t d))|].
  intros d Hd HH. split.
  - rewrite HP'. apply list_elem_of_bind. exists d. split; [|apply elem_of_seqZ; lia].
    apply list_elem_of_fmap. exists H. split; [done|]. apply elem_of_seqZ. lia.
  - apply assoc_get_None. rewrite (grid_fst (λ d t, idx_td t d)).
    intros Hin. apply list_elem_of_bind in Hin as (d' & Hin & _).
    apply list_elem_of_fmap in Hin as (t & [= -> ->] & Ht).
    apply elem_of_seqZ in Ht. lia.
Qed.

End AppendFacts.


(** * Attribute paths *)

Section DeepGetAttrFacts.
Import String Ascii DeepGetAttr.
Context {O : Type}.
Variable getattr : O → string → result O.

Lemma split_dot_nonempty (s : string) : split_dot s ≠ [].
Proof.
  induction s as [|c s IH]; [done|]. cbn.
  destruct (Ascii.eqb c "."); [done|]. by destruct (split_dot s).
Qed.

Lemma split_dot_app (a b : string) :
  split_dot (a ++ String "." b) = split_dot a ++ split_dot b.
Proof.
  induction a as [|c a IH]; [done|].
  change (String c a ++ String "." b)%string with (String c (a ++ String "." b)%string).
  cbn [split_dot].
  destruct (Ascii.eqb c ".") eqn:Hc.
  - by rewrite IH.
  - rewrite IH. pose proof (split_dot_nonempty a) as Ha.
    by destruct (split_dot a).
Qed.

Lemma split_dot_dotless (s : string) : dotless s = true → split_dot s = [s].
Proof.
  induction s as [|c s IH]; [done|]. cbn.
  destruct (Ascii.eqb c "."); [done|]. cbn. intros Hs. by rewrite IH.
Qed.

Lemma reduce_app {A B} (f : A → B → result A) (l1 l2 : list B) (init : A) :
  reduce f (l1 ++ l2) init
  = match reduce f l1 init with
    | Ok a => reduce f l2 a
    | Raise e => Raise e
    end.
Proof.
  revert init. induction l1 as [|x l1 IH]; intros init; [done|].
  cbn. destruct (f init x); [apply IH|done].
Qed.

(** X18: [deepgetattr] on [path.name] is [deepgetattr] on [path] followed by
    [deepgetattr] on [name], an exception of the first part being the
    result; on a name without a dot, and on the empty string, it is one
    [getattr]. *)
Theorem deepgetattr_path (obj : O) (path name : string) :
  deepgetattr getattr obj (path ++ String "." name)
  = match deepgetattr getattr obj path with
    | Ok o => deepgetattr getattr o name
    | Raise e => Raise e
    end
  ∧ (dotless name = true → deepgetattr getattr obj name = getattr obj name)
  ∧ (dotless name = true →
     deepgetattr getattr obj (path ++ String "." name)
     = match deepgetattr getattr obj path with
       | Ok o => getattr o name
       | Raise e => Raise e
       end)
  ∧ deepgetattr getattr obj EmptyString = getattr obj EmptyString.
Proof.
  assert (∀ o, dotless name = true → deepgetattr getattr o name = getattr o name) as Hone.
  { intros o Hname. unfold deepgetattr. rewrite split_dot_dotless by done.
    cbn. by destruct (getattr o name). }
  assert (deepgetattr getattr obj (path ++ String "." name)
          = match deepgetattr getattr obj path with
            | Ok o => deepgetattr getattr o name
            | Raise e => Raise e
            end) as Hpath.
  { unfold deepgetattr. by rewrite split_dot_app, reduce_app. }
  split; [exact Hpath|]. split; [apply Hone|]. split.
  - intros Hname. rewrite Hpath. destruct (deepgetattr getattr obj path); [|done].
    by apply Hone.
  - unfold deepgetattr. cbn. by destruct (getattr obj "").
Qed.

End DeepGetAttrFacts.


(** * The plotting helpers *)

Section PlotFacts.
Import Plotting.
Context {K T R B YL : Type}.
Variable str : K → String.string.
Variable time_getitem : T → K → result T.
Variable range_index : R → Z → result B.
Variable range_contains : R → K → result bool.
Variable range_contains_int : R → Z → result bool.
Variable range_getitem : R → K → result R.
Variable label_contains : YL → K → result bool.
Variable label_getitem : YL → K → result String.string.

Local Abbreviation signal :=
  (plot_lmp_signal str time_getitem range_index range_contains range_contains_int
     range_getitem).
Local Abbreviation schedule_plot :=
  (plot_lmp_and_schedule (T := T) str range_index range_contains range_getitem
     label_contains label_getitem).

(** The body of the dict loop raises, and records nothing. *)
Lemma signal_dict_body_raises (time : option T) (x_range y_range : option R) (i : K)
    (values : list Q) (log : list (@call T B)) :
  ∃ e, signal_dict_body str time_getitem range_contains range_getitem
         time x_range y_range i values log = (log, Raised e).
Proof.
  unfold signal_dict_body, bind, ret, throw, try.
  destruct time as [time|].
  - destruct (time_getitem time i) as [t|e]; [|by eexists].
    cbn. destruct x_range as [r|]; [|by eexists].
    destruct (range_contains r i) as [[]|e]; [|by eexists..].
    destruct (range_getitem r i); by eexists.
  - cbn. destruct x_range as [r|]; [|by eexists].
    destruct (range_contains r i) as [[]|e]; [|by eexists..].
    destruct (range_getitem r i); by eexists.
Qed.

(** X19: [plot_lmp_signal] on a non-empty dict always raises before any figure
    is created; on a list without [x_range] it raises [TypeError] after
    drawing and before [show]; on any other type it raises
    [UnboundLocalError] after creating the figure.  It completes only on a
    list with [x_range] given, or on an empty dict with [grid] given. *)
Theorem plot_lmp_signal_outcome (time : option T) (draw_style : String.string)
    (x_range y_range : option R) (grid : option (Z * Z)) :
  (∀ d, d ≠ [] →
     ∃ e, signal (lmp_dict d) time draw_style x_range y_range grid [] = ([], Raised e))
  ∧ (∀ l, ∃ log,
       signal (lmp_list l) time draw_style None y_range grid [] = (log, Raised (Builtin TypeError))
       ∧ figure ∈ log ∧ show ∉ log)
  ∧ signal lmp_other time draw_style x_range y_range grid []
    = ([figure], Raised (Builtin UnboundLocalError))
  ∧ (∀ lmp log,
       signal lmp time draw_style x_range y_range grid [] = (log, Done ()) →
       (∃ l r, lmp = lmp_list l ∧ x_range = Some r)
       ∨ (lmp = lmp_dict [] ∧ is_Some grid ∧ log = [figure; tight_layout; show])).
Proof.
  assert (∀ d, d ≠ [] →
     ∃ e, signal (lmp_dict d) time draw_style x_range y_range grid [] = ([], Raised e))
    as Hdict.
  { intros d Hd. unfold plot_lmp_signal. unfold bind at 1.
    case_decide; [by eexists|]. unfold ret at 1. unfold bind at 1.
    assert (∃ r, match grid with
                 | Some g => ret g
                 | None => try (grid_shape 6 (length d))
                 end ([] : list (@call T B)) = ([], r)) as [r ->].
    { destruct grid; [by eexists|]. unfold try. destruct (grid_shape _ _); by eexists. }
    destruct r as [g|e]; [|by eexists].
    unfold bind at 1. destruct d as [|[i values] d]; [done|].
    cbn [signal_dict_loop]. unfold bind at 1.
    destruct (signal_dict_body_raises time x_range y_range i values []) as [e ->].
    by eexists. }
  split; [exact Hdict|]. split; [|split].
  - intros l. unfold plot_lmp_signal, signal_draw. cbn.
    eexists. split; [reflexivity|]. split.
    + left.
    + intros Hin. repeat (apply elem_of_cons in Hin as [Hin|Hin]; [discriminate|]).
      by apply elem_of_nil in Hin.
  - done.
  - intros lmp log Hrun. destruct lmp as [l|d|].
    + left. destruct x_range as [r|]; [by eexists _, _|].
      unfold plot_lmp_signal, signal_draw in Hrun. cbn in Hrun. done.
    + right. destruct d as [|kv d].
      * split; [done|]. unfold plot_lmp_signal in Hrun. cbn in Hrun.
        destruct grid as [g|]; [|done]. cbn in Hrun. split; [by eexists|].
        by injection Hrun as <-.
      * destruct (Hdict (kv :: d)) as [e He]; [done|]. rewrite He in Hrun. done.
    + done.
Qed.

Lemma each_calls {A} (l : list A) (body : A → Plot (T := T) (B := B) unit)
    (calls : A → list call) (log : list call) :
  (∀ x log, x ∈ l → body x log = ((log ++ calls x)%list, Done ())) →
  each l body log = ((log ++ concat (calls <$> l))%list, Done ()).
Proof.
  revert log. induction l as [|x l IH]; intros log Hbody.
  - cbn. by rewrite app_nil_r.
  - cbn [each]. unfold bind at 1. rewrite Hbody by left.
    rewrite IH by (intros y log' Hy; apply Hbody; by right).
    cbn. by rewrite <- app_assoc.
Qed.

(** X20: [plot_lmp_and_schedule] raises before any figure is created when the
    prices or the schedule are missing or the schedule has more than four
    entries, and [KeyError] on an empty schedule without [grid]; with one
    to four entries and the default options it draws, per entry and in
    order, the price curve and the schedule curve on a twin axis, then
    calls [tight_layout] and [show]. *)
Theorem plot_lmp_and_schedule_outcome {CK : Type} (time : option T) (y_label : option YL)
    (x_range lmp_range y_range : option R) (x_label lmp_label : String.string)
    (color : option (list (CK * String.string))) (draw_style : String.string) (grid : option (Z * Z)) :
  (∀ schedule,
     schedule_plot None schedule time y_label x_range lmp_range y_range x_label lmp_label
       color draw_style grid [] = ([], Raised Exception))
  ∧ (∀ lmp,
       schedule_plot (Some lmp) None time y_label x_range lmp_range y_range x_label
         lmp_label color draw_style grid [] = ([], Raised Exception))
  ∧ (∀ lmp schedule, (4 < length schedule)%nat →
       schedule_plot (Some lmp) (Some schedule) time y_label x_range lmp_range y_range
         x_label lmp_label color draw_style grid [] = ([], Raised Exception))
  ∧ (∀ lmp,
       schedule_plot (Some lmp) (Some []) time y_label x_range lmp_range y_range x_label
         lmp_label color draw_style None [] = ([], Raised (Builtin KeyError)))
  ∧ (∀ lmp schedule g,
       (1 ≤ length schedule ≤ 4)%nat →
       (grid = Some g ∨ grid = None ∧ grid_shape 4 (length schedule) = Ok g) →
       let x := match time with
                | None => x_count (length lmp)
                | Some time => x_given time
                end in
       schedule_plot (Some lmp) (Some schedule) time None None None None x_label
         lmp_label (None : option (list (CK * String.string))) draw_style grid []
       = ((figure ::
           concat ((λ ikc, schedule_subplot_calls str g x lmp x_label lmp_label draw_style
                            ikc.1.1 ikc.1.2.1 ikc.1.2.2 ikc.2)
                     <$> zip (zip (seqZ 1 (Z.of_nat (length schedule))) schedule)
                             default_colors)
            ++ [tight_layout; show])%list, Done ())).
Proof.
  split; [done|]. split; [done|]. split; [|split].
  - intros lmp schedule Hlen. unfold plot_lmp_and_schedule, bind at 1.
    by rewrite decide_True.
  - done.
  - intros lmp schedule g Hlen Hgrid x.
    unfold plot_lmp_and_schedule. unfold bind at 1.
    rewrite decide_False by lia. unfold ret at 1. unfold bind at 1.
    assert (match grid with
            | Some grid0 => ret grid0
            | None => try (grid_shape 4 (length schedule))
            end ([] : list (@call T B)) = ([], Done g)) as ->.
    { destruct Hgrid as [->|[-> Hg]]; [done|]. unfold try. by rewrite Hg. }
    unfold bind at 1. unfold record at 1. cbn [app]. unfold bind at 1.
    fold x.
    destruct schedule as [|kv1 [|kv2 [|kv3 [|kv4 [|kv5 rest]]]]]; cbn in Hlen; try lia;
      reflexivity.
Qed.

End PlotFacts.

Import Pyomo MultiPeriod.

(** * The further properties on small instances *)

Section EngineInstances.
Import PriceTaker Demo.





(** A build over two scenarios without an initialization function, the
    unfix callback given. *)
Lemma stochastic_build_without_initialization_witness :
  ∃ m,
    build_stochastic_multiperiod (V := Z) 0 (λ b o, b + o) None (Some (λ b o, b + o))
      1 10 100 (λ b : Z, (b, true)) (λ r : bool, r) (λ b : Z, b) (λ _ j : Z, j)
      (stochastic_init 2 None None (Some [7; 8])) = (m, Ok ())
    ∧ length (calls m) = 4%nat.
Proof.
  destruct (stochastic_build_without_initialization (V := Z) 0 (λ b o, b + o) None
              (Some (λ b o, b + o)) 1 10 100 (λ b : Z, (b, true)) (λ r : bool, r)
              (λ b : Z, b) (λ _ j : Z, j) 2 None None (Some [7; 8]) eq_refl)
    as (m & Hrun & Hcalls & _).
  exists m. split; [exact Hrun|]. rewrite Hcalls. vm_compute. reflexivity.
Defined.

End EngineInstances.

Section PipelineInstances.
Import PriceTaker PriceTakerProperties PriceTakerSetup Views Demo DemoSetup.
Local Open Scope nat_scope.

(** The two-day table under horizon 24. *)
Lemma reconfigure_raw_data_outcome_witness :
  ∃ daily_data,
    reconfigure_raw_data (mkPriceTaker 20 24) (demo_table two_days) = Ok (daily_data, [2])
    ∧ daily_data.*1 = [1; 2].
Proof.
  destruct (reconfigure_raw_data_outcome (mkPriceTaker 20 24) (demo_table two_days))
    as (_ & _ & Hok).
  assert (0 < _horizon_length (mkPriceTaker 20 24)) as Hh by (cbn; lia).
  assert (NoDup (demo_table two_days).*1) as Hnd by apply (NoDup_seq 0 3).
  specialize (Hok Hh Hnd (demo_table_wf two_days)).
  eexists. split.
  - let t := eval vm_compute in (demo_table two_days) in
    match t with
    | ?c0 :: ?c1 :: (?i, ?column) :: ?rest =>
        rewrite (Hok c0 c1 i column rest ltac:(vm_compute; reflexivity))
    end.
    reflexivity.
  - vm_compute. reflexivity.
Defined.

(** A search over k = 1, 2 on two days, the detector answering 1. *)
Lemma get_optimal_n_clusters_inertia_witness :
  get_optimal_n_clusters (λ seed, Z.to_nat seed) demo_KMeans (λ _ _, Some 1)
    (mkPriceTaker 20 24) [(1, Some [1%Q]); (2, Some [2%Q])] (Some 1) (Some 3) 0
  = (22, Ok (1, [0%Q; 0%Q]))
  ∧ length [0%Q; 0%Q] = 2.
Proof.
  assert (get_optimal_n_clusters (λ seed, Z.to_nat seed) demo_KMeans (λ _ _, Some 1)
            (mkPriceTaker 20 24) [(1, Some [1%Q]); (2, Some [2%Q])] (Some 1) (Some 3) 0
          = (22, Ok (1, [0%Q; 0%Q]))) as Hrun by (vm_compute; reflexivity).
  split; [exact Hrun|].
  destruct (get_optimal_n_clusters_inertia _ _ _ _ _ _ _ _ _ _ _ Hrun) as (Hlen & _).
  exact Hlen.
Defined.

(** The stand-in k-means returns one centre per cluster, each a sample. *)
Lemma demo_KMeans_shapes : KMeans_shapes demo_KMeans.
Proof.
  intros k X g0 g1 fit. unfold demo_KMeans. case_decide as Hk; [done|].
  intros [= <- <-]. cbn [cluster_centers_]. split.
  - rewrite length_rotate, length_take. lia.
  - apply Forall_forall. intros row Hrow. exists row. split; [|done].
    apply elem_of_rotate in Hrow. apply elem_of_take in Hrow as (i & Hi & _).
    by eapply list_elem_of_lookup_2.
Qed.

(** Two days in two clusters. *)
Lemma cluster_lmp_data_keys_witness :
  ∃ lmp_data weights,
    demo_cluster 24 (demo_table two_days) 2 0 = (1, Ok (lmp_data, weights))
    ∧ ∀ d, is_Some (lmp_data !! d) ↔ 1 ≤ d ≤ 2.
Proof.
  destruct (demo_cluster 24 (demo_table two_days) 2 0) as [g' [[lmp_data weights]|e]]
    eqn:Hrun; [|vm_compute in Hrun; discriminate].
  assert (g' = 1) as -> by (vm_compute in Hrun; by injection Hrun as <-).
  exists lmp_data, weights. split; [reflexivity|].
  destruct (cluster_lmp_data_keys demo_KMeans (mkPriceTaker 20 24)
              (demo_table two_days) 2 0 1 lmp_data weights
              demo_KMeans_shapes (demo_table_wf two_days) Hrun) as (_ & Hkeys & _).
  exact Hkeys.
Defined.

Lemma cluster_lmp_data_24_clean_witness :
  ∃ lmp_data weights,
    demo_cluster 24 (demo_table two_days) 2 0 = (1, Ok (lmp_data, weights))
    ∧ ∀ d t x, lmp_data !! d ≫= (λ day, day !! t) = Some x →
        x = 0%Q ∨ (noise_threshold <= x)%Q.
Proof.
  destruct (demo_cluster 24 (demo_table two_days) 2 0) as [g' [[lmp_data weights]|e]]
    eqn:Hrun; [|vm_compute in Hrun; discriminate].
  assert (g' = 1) as -> by (vm_compute in Hrun; by injection Hrun as <-).
  exists lmp_data, weights. split; [reflexivity|].
  exact (cluster_lmp_data_24_clean demo_KMeans (mkPriceTaker 20 24)
           (demo_table two_days) 2 0 1 lmp_data weights
           demo_KMeans_shapes (demo_table_wf two_days) eq_refl Hrun).
Defined.

Lemma demo_sheet_wf (sheet : nat) (full_data : list (nat * list Q)) :
  demo_read_excel sheet = Ok full_data → DataFrame_wf full_data.
Proof.
  destruct sheet as [|[|sheet]]; [| |done]; intros [= <-].
  - apply demo_table_wf.
  - intros column Hc.
    repeat (apply elem_of_cons in Hc as [->|Hc]); try done. by apply elem_of_nil in Hc.
Qed.

(** The price column of the first sheet, the whole series. *)
Lemma append_lmp_data_full_series_witness :
  ∃ s, demo_append 0 (col_one 2) None None demo_model = ((s, 0), Ok ())
       ∧ _n_time_points s = Value 48%Z.
Proof.
  assert (DataFrame_getitem (demo_table two_days) 2 = Ok two_days) as Hcol
    by (vm_compute; reflexivity).
  destruct (append_lmp_data_full_series demo_read_excel demo_int demo_KMeans
              (U := Z) (V := Z) 0 2 None (mkPriceTaker 20 24) 0
              (demo_table two_days) two_days eq_refl (demo_table_wf two_days) Hcol)
    as (s & Hrun & _ & _ & Hn & _).
  exists s. split; [exact Hrun|exact Hn].
Defined.

(** The two year columns of the second sheet. *)
Lemma append_lmp_data_multi_year_witness :
  ∃ s, demo_append 1 (col_list [2020; 2021]) None None demo_model = ((s, 0), Ok ())
       ∧ set_years s = Value (Some [2020; 2021]%Z).
Proof.
  destruct (append_lmp_data_multi_year demo_read_excel demo_int demo_KMeans
              (U := Z) (V := Z) 1 [2020; 2021] None (mkPriceTaker 20 24) 0
              [(2020, [(10 # 1)%Q; (20 # 1)%Q; (30 # 1)%Q]);
               (2021, [(11 # 1)%Q; (21 # 1)%Q; (31 # 1)%Q])]
              Z.of_nat
              (λ year, if decide (year = 2020) then [(10 # 1)%Q; (20 # 1)%Q; (30 # 1)%Q]
                       else [(11 # 1)%Q; (21 # 1)%Q; (31 # 1)%Q])
              eq_refl (demo_sheet_wf 1 _ eq_refl))
    as (s & Hrun & Hyears & _).
  - intros year Hyear.
    repeat (apply elem_of_cons in Hyear as [->|Hyear]); [done..|].
    by apply elem_of_nil in Hyear.
  - apply NoDup_cons. split; [|apply NoDup_singleton].
    intros Hin. apply list_elem_of_singleton in Hin. discriminate.
  - exists s. split; [exact Hrun|exact Hyears].
Defined.



(** The full series of the first sheet, then the multiperiod model. *)
Lemma multiperiod_periods_priced_witness :
  ∃ s1 st2 m lmp,
    demo_append 0 (col_one 2) None None demo_model = ((s1, 0), Ok ())
    ∧ demo_build_multiperiod_model (s1, 0) = (st2, Ok ())
    ∧ mp_model st2.1 = Value m ∧ LMP st2.1 = Value lmp
    ∧ MultiPeriod.set_period m = lmp.*1.
Proof.
  destruct (multiperiod_periods_priced demo_read_excel demo_int demo_KMeans
              (U := Z) (V := Z) 0%Z (λ b o, (b + o)%Z) None None 1%Z 10%Z 100%Z
              (λ b : Z, (b, true)) (λ r : bool, r) (λ b : Z, b) (λ _ j : Z, j)
              0 None (mkPriceTaker 20 24) 0 (demo_table two_days) None
              eq_refl (demo_table_wf two_days)) as [Hone _].
  destruct (Hone 2 two_days eq_refl) as (s1 & Hrun & Hbuild).
  destruct (demo_build_multiperiod_model (s1, 0)) as [st2 [[]|e]] eqn:Hmp; cycle 1.
  { exfalso. unfold demo_append, demo_model in Hrun.
    assert (is_Ok (demo_build_multiperiod_model
              (demo_append 0 (col_one 2) None None demo_model).1).2 = true) as Hok
      by (vm_compute; reflexivity).
    unfold demo_append, demo_model in Hok. rewrite Hrun in Hok. cbn [fst] in Hok.
    rewrite Hmp in Hok. discriminate. }
  destruct (Hbuild st2 Hmp) as (m & lmp & Hm & Hlmp & HP & _).
  exists s1, st2, m, lmp. done.
Defined.

(** Two representative days, then the multiperiod model: hour 24 of day
    1 is a period without a price. *)
Lemma representative_days_last_hour_witness :
  ∃ s1 st2 m lmp,
    demo_append 0 (col_one 2) (Some 2) None demo_model = ((s1, 1), Ok ())
    ∧ demo_build_multiperiod_model (s1, 1) = (st2, Ok ())
    ∧ mp_model st2.1 = Value m ∧ LMP st2.1 = Value lmp
    ∧ idx_td 24 1 ∈ MultiPeriod.set_period m
    ∧ assoc_get (idx_td 24 1) lmp = None.
Proof.
  destruct (demo_append 0 (col_one 2) (Some 2) None demo_model) as [[s1 g1] [[]|e]] eqn:Hrun;
    [|vm_compute in Hrun; discriminate].
  assert (g1 = 1) as -> by (vm_compute in Hrun; by injection Hrun as <-).
  destruct (demo_build_multiperiod_model (s1, 1)) as [st2 [[]|e]] eqn:Hmp; cycle 1.
  { exfalso.
    assert (is_Ok (demo_build_multiperiod_model
              (demo_append 0 (col_one 2) (Some 2) None demo_model).1).2 = true) as Hok
      by (vm_compute; reflexivity).
    rewrite Hrun in Hok. cbn [fst] in Hok. rewrite Hmp in Hok. discriminate. }
  destruct (representative_days_last_hour demo_read_excel demo_int demo_KMeans
              (U := Z) (V := Z) 0%Z (λ b o, (b + o)%Z) None None 1%Z 10%Z 100%Z
              (λ b : Z, (b, true)) (λ r : bool, r) (λ b : Z, b) (λ _ j : Z, j)
              0 2 2 None (mkPriceTaker 20 24) 0 (demo_table two_days) s1 1 None st2
              eq_refl Hrun Hmp)
    as (m & lmp & Hm & Hlmp & _ & _ & Hlast).
  destruct (Hlast 1%Z) as [Hin Hnone]; [lia|cbn; lia|].
  exists s1, st2, m, lmp. done.
Defined.

End PipelineInstances.

Import Pyomo MultiPeriod.

(** * Operational constraints *)

Section SetFacts.
Import PriceTakerSetup OperationalConstraints.
Context {A B : Type} `{EqDecision A}.

Lemma Set_getitem_Ok (s : list A) (i : Z) :
  1 ≤ i ≤ Z.of_nat (length s) →
  ∃ x, s !! Z.to_nat (i - 1) = Some x ∧ Set_getitem s i = Ok x.
Proof.
  intros Hi. unfold Set_getitem. rewrite decide_True by lia.
  destruct (lookup_lt_is_Some_2 s (Z.to_nat (i - 1))) as [x Hx]; [lia|].
  exists x. by rewrite Hx.
Qed.

Lemma Set_getitem_beyond (s : list A) (i : Z) :
  Z.of_nat (length s) < i → Set_getitem s i = Raise IndexError.
Proof.
  intros Hi. unfold Set_getitem. rewrite decide_True by lia.
  rewrite lookup_ge_None_2; [done|lia].
Qed.

Lemma assoc_get_is_Some (d : list (A * B)) (k : A) :
  k ∈ d.*1 → is_Some (assoc_get k d).
Proof.
  induction d as [|[k' v'] d IH]; cbn.
  - intros Hk. by apply elem_of_nil in Hk.
  - intros Hk. case_decide as Hkk; [by eexists|].
    apply elem_of_cons in Hk as [->|Hk]; [done|]. by apply IH.
Qed.

Lemma dict_getitem_Ok (d : list (A * B)) (k : A) :
  k ∈ d.*1 → ∃ v, assoc_get k d = Some v ∧ dict_getitem d k = Ok v.
Proof.
  intros Hk. destruct (assoc_get_is_Some d k Hk) as [v Hv].
  exists v. unfold dict_getitem. by rewrite Hv.
Qed.
End SetFacts.

Section ConstructFacts.
Import PriceTakerSetup OperationalConstraints.
Context {U R : Type}.
Implicit Types (rule : Z → result (option (@relation U R))) (index : list Z).

(** The constraint a rule declares for an index, if any. *)
Local Abbreviation declared rule :=
  (λ t : Z, match rule t with Ok (Some r) => Some (t, r) | _ => None end).

Lemma Constraint_construct_Ok rule index :
  (∀ t, t ∈ index → ∃ r, rule t = Ok r) →
  Constraint_construct index rule = Ok (omap (declared rule) index).
Proof.
  unfold Constraint_construct.
  induction index as [|t index IH]; intros Hrule; [done|].
  destruct (Hrule t) as [r Hr]; [left|].
  cbn [comprehension omap list_omap]. rewrite Hr. cbn [and_then].
  specialize (IH (λ t' Ht', Hrule t' (list_elem_of_further _ _ _ Ht'))).
  destruct (comprehension _ index) as [rows|e]; [|done].
  cbn [and_then] in IH |- *. injection IH as IH. rewrite <- IH.
  by destruct r.
Qed.

Lemma Constraint_construct_Raise rule index (e : exn) :
  (∀ t, t ∈ index → rule t = Raise e ∨ ∃ r, rule t = Ok r) →
  (∃ t, t ∈ index ∧ rule t = Raise e) →
  Constraint_construct index rule = Raise e.
Proof.
  unfold Constraint_construct.
  induction index as [|t index IH]; intros Hrule (t' & Ht' & He).
  { by apply elem_of_nil in Ht'. }
  cbn [comprehension]. destruct (Hrule t) as [Hr|[r Hr]]; [left| |].
  - rewrite Hr. done.
  - rewrite Hr. cbn [and_then].
    apply elem_of_cons in Ht' as [->|Ht']; [congruence|].
    specialize (IH (λ t'' Ht'', Hrule t'' (list_elem_of_further _ _ _ Ht''))
                   (ex_intro _ t' (conj Ht' He))).
    destruct (comprehension _ index) as [rows|e']; [done|].
    cbn [and_then] in IH |- *. done.
Qed.

Lemma declared_keys rule index (skip : Z → Prop) `{∀ t, Decision (skip t)} :
  (∀ t, t ∈ index →
     if decide (skip t) then rule t = Ok None else ∃ r, rule t = Ok (Some r)) →
  (omap (declared rule) index).*1 = filter (λ t, ¬ skip t) index.
Proof.
  induction index as [|t index IH]; intros Hrule; [done|].
  specialize (IH (λ t' Ht', Hrule t' (list_elem_of_further _ _ _ Ht'))).
  specialize (Hrule t (list_elem_of_here _ _)).
  cbn [omap list_omap]. rewrite filter_cons.
  destruct (decide (skip t)) as [Hs|Hs].
  - rewrite Hrule. rewrite decide_False by tauto. done.
  - destruct Hrule as [r ->]. rewrite decide_True by done. cbn. by rewrite IH.
Qed.

Lemma declared_elem_of rule index t r :
  (t, r) ∈ omap (declared rule) index ↔ t ∈ index ∧ rule t = Ok (Some r).
Proof.
  rewrite list_elem_of_omap. split.
  - intros (t' & Ht' & Hd). destruct (rule t') as [[r'|]|e] eqn:Hr; try done.
    injection Hd as <- <-. done.
  - intros [Ht Hr]. exists t. split; [done|]. by rewrite Hr.
Qed.

Lemma Constraint_construct_spec rule index (skip : Z → Prop) `{∀ t, Decision (skip t)} :
  (∀ t, t ∈ index →
     if decide (skip t) then rule t = Ok None else ∃ r, rule t = Ok (Some r)) →
  ∃ c, Constraint_construct index rule = Ok c
       ∧ c.*1 = filter (λ t, ¬ skip t) index
       ∧ ∀ t r, (t, r) ∈ c → t ∈ index ∧ rule t = Ok (Some r).
Proof.
  intros Hrule. exists (omap (declared rule) index). split; [|split].
  - apply Constraint_construct_Ok. intros t Ht. specialize (Hrule t Ht).
    case_decide; [by eexists|]. destruct Hrule as [r Hr]. by eexists.
  - by apply declared_keys.
  - intros t r. apply declared_elem_of.
Qed.

Lemma filter_seqZ_from_2 (n : Z) : filter (λ t, ¬ t = 1) (seqZ 1 n) = seqZ 2 (n - 1).
Proof.
  destruct (decide (n ≤ 0)) as [Hn|Hn]; [by rewrite !seqZ_nil by lia|].
  rewrite seqZ_cons by lia. rewrite filter_cons_False by tauto.
  replace (Z.succ 1) with 2 by lia. replace (Z.pred n) with (n - 1) by lia.
  apply filter_all. intros t Ht. apply elem_of_seqZ in Ht. lia.
Qed.

End ConstructFacts.

Section OperationalFacts.
Import String.
Import PriceTakerSetup DeepGetAttr OperationalConstraints.
Local Abbreviation length := List.length.
Context {U V R : Type}.
Variable getattr : U → string → result U.
Variable float_sub : R → R → R.
Variable this : U.
Implicit Types (self : @PriceTaker U V) (m : @StochasticModel U V).
Implicit Types (d : @Dict U) (P : list PeriodIndex).

Local Abbreviation Rel := (@relation U R).
Local Abbreviation obj := (@e_obj U R).

Lemma get_period_scenarios m :
  is_Some (set_scenarios m) → get_period m = Raise AttributeError.
Proof.
  intros Hs. unfold get_period, _stochastic_model. by rewrite bool_decide_true.
Qed.

Lemma get_period_None m : set_scenarios m = None → get_period m = Ok (period m).
Proof.
  intros Hs. unfold get_period, _stochastic_model. rewrite bool_decide_false; [done|].
  rewrite Hs. by intros [? ?].
Qed.

Lemma attr_dict_scenarios self m path :
  mp_model self = Value m → is_Some (set_scenarios m) →
  attr_dict getattr self path = Raise AttributeError.
Proof.
  intros Hm Hs. unfold attr_dict, get_mp_model. rewrite Hm. cbn [and_then].
  by rewrite get_period_scenarios.
Qed.

Lemma attr_dict_keys self m path d :
  mp_model self = Value m → set_scenarios m = None →
  attr_dict getattr self path = Ok d → d.*1 = (period m).*1.
Proof.
  intros Hm Hs. unfold attr_dict, get_mp_model. rewrite Hm. cbn [and_then].
  rewrite get_period_None by done. cbn [and_then].
  intros Hd. apply comprehension_Ok in Hd.
  induction Hd as [|t [t' o] ks d' Hf _ IH]; [done|].
  cbn [fmap list_fmap fst]. f_equal; [|exact IH].
  destruct (dict_getitem (period m) t) as [b|e]; [|done]. cbn [and_then] in Hf.
  destruct (deepgetattr getattr (user_model b) path) as [o'|e]; [|done].
  cbn [and_then] in Hf. by injection Hf as <- _.
Qed.

(** Positions within the period set are served by a dict that has the
    keys of the period set. *)
Lemma at_position_Ok P d (i : Z) :
  d.*1 = P → 1 ≤ i ≤ Z.of_nat (length P) →
  ∃ o, fetched P d i o ∧ at_position (R := R) P d i = Ok (obj o).
Proof.
  intros Hd Hi. destruct (Set_getitem_Ok P i Hi) as (p & Hp & Hget).
  destruct (dict_getitem_Ok d p) as (o & Ho & Hitem).
  { rewrite Hd. by eapply list_elem_of_lookup_2. }
  exists o. split.
  - exists p. split; [lia|]. done.
  - unfold at_position. rewrite Hget. cbn [and_then]. rewrite Hitem. done.
Qed.

Lemma at_position_beyond P d (i : Z) :
  Z.of_nat (length P) < i → at_position (R := R) P d i = Raise IndexError.
Proof.
  intros Hi. unfold at_position. by rewrite Set_getitem_beyond.
Qed.

Lemma at_positions_Ok P d (l : list Z) :
  d.*1 = P → (∀ i, i ∈ l → 1 ≤ i ≤ Z.of_nat (length P)) →
  ∃ os, Forall2 (fetched P d) l os
        ∧ comprehension (at_position (R := R) P d) l = Ok (obj <$> os).
Proof.
  intros Hd. induction l as [|i l IH]; intros Hl.
  { exists []. split; [constructor|done]. }
  destruct (at_position_Ok P d i Hd) as (o & Ho & Hi); [apply Hl; left|].
  destruct IH as (os & Hos & Hc); [intros j Hj; apply Hl; by right|].
  exists (o :: os). split; [by constructor|].
  cbn [comprehension]. rewrite Hi, Hc. done.
Qed.

Lemma elem_of_range (a b i : Z) : i ∈ range a b ↔ a ≤ i < b.
Proof. unfold range. rewrite elem_of_seqZ. lia. Qed.

Lemma last_piece_Ok (op_blk : string) : ∃ piece, last_piece op_blk = Ok piece.
Proof.
  unfold last_piece. destruct (last (split_dot op_blk)) as [piece|] eqn:Hl; [by eexists|].
  apply last_None in Hl. by apply split_dot_nonempty in Hl.
Qed.

(** ** The rules of [add_startup_shutdown] *)

Section StartupShutdown.
Variables (P : list PeriodIndex) (start_up op_mode shut_down : @Dict U) (build : U).
Hypothesis start_up_keys : start_up.*1 = P.
Hypothesis op_mode_keys : op_mode.*1 = P.
Hypothesis shut_down_keys : shut_down.*1 = P.
Let N : Z := Z.of_nat (length P).

Lemma design_op_relationship_Ok (t : Z) :
  1 ≤ t ≤ N →
  ∃ a b c, fetched P start_up t a ∧ fetched P shut_down t b ∧ fetched P op_mode t c
    ∧ design_op_relationship (R := R) P start_up op_mode shut_down build t
      = Ok (Some (r_le (e_add (e_add (obj a) (obj b)) (obj c)) (obj build))).
Proof.
  intros Ht.
  destruct (at_position_Ok P start_up t start_up_keys Ht) as (a & Ha & Hat).
  destruct (at_position_Ok P shut_down t shut_down_keys Ht) as (b & Hb & Hbt).
  destruct (at_position_Ok P op_mode t op_mode_keys Ht) as (c & Hc & Hct).
  exists a, b, c. split; [done|]. split; [done|]. split; [done|].
  unfold design_op_relationship. rewrite Hat, Hbt, Hct. done.
Qed.

Lemma minimum_up_time_con_spec (up_time t : Z) :
  1 ≤ t ≤ N →
  if decide (t < up_time ∨ N ≤ t)
  then minimum_up_time_con (R := R) P start_up op_mode up_time N t = Ok None
  else ∃ terms o,
         Forall2 (fetched P start_up) (range (t - up_time + 2) (t + 1)) terms
         ∧ fetched P op_mode (t + 1) o
         ∧ minimum_up_time_con P start_up op_mode up_time N t
           = Ok (Some (r_le (py_sum (obj <$> terms)) (obj o))).
Proof.
  intros Ht. unfold minimum_up_time_con. case_decide as Hskip; [done|].
  destruct (at_positions_Ok P start_up (range (t - up_time + 2) (t + 1)) start_up_keys)
    as (terms & Hterms & Hc).
  { intros i Hi. apply elem_of_range in Hi. unfold N in *. lia. }
  destruct (at_position_Ok P op_mode (t + 1) op_mode_keys) as (o & Ho & Hot).
  { unfold N in *. lia. }
  exists terms, o. split; [done|]. split; [done|]. rewrite Hc. cbn [and_then].
  rewrite Hot. done.
Qed.

Lemma minimum_down_time_con_spec (down_time t : Z) :
  0 ≤ down_time → 1 ≤ t ≤ N →
  if decide (t < down_time ∨ N ≤ t)
  then minimum_down_time_con (R := R) P start_up op_mode down_time N t = Ok None
  else ∃ terms o,
         Forall2 (fetched P start_up) (range (t - down_time + 1) (t + 2)) terms
         ∧ fetched P op_mode (t - down_time + 1) o
         ∧ minimum_down_time_con P start_up op_mode down_time N t
           = Ok (Some (r_le (py_sum (obj <$> terms)) (e_sub (e_int 1) (obj o)))).
Proof.
  intros Hd Ht. unfold minimum_down_time_con. case_decide as Hskip; [done|].
  destruct (at_positions_Ok P start_up (range (t - down_time + 1) (t + 2)) start_up_keys)
    as (terms & Hterms & Hc).
  { intros i Hi. apply elem_of_range in Hi. unfold N in *. lia. }
  destruct (at_position_Ok P op_mode (t - down_time + 1) op_mode_keys) as (o & Ho & Hot).
  { unfold N in *. lia. }
  exists terms, o. split; [done|]. split; [done|]. rewrite Hc. cbn [and_then].
  rewrite Hot. done.
Qed.

(** With a negative [down_time] the rule reads [op_mode] at a position
    after [t + 1]. *)
Lemma minimum_down_time_con_negative (down_time t : Z) :
  down_time < 0 → 1 ≤ t ≤ N →
  minimum_down_time_con (R := R) P start_up op_mode down_time N t
  = if decide (N ≤ t) then Ok None
    else if decide (t - down_time + 1 ≤ N)
         then minimum_down_time_con P start_up op_mode down_time N t
         else Raise IndexError.
Proof.
  intros Hd Ht. case_decide as Hskip.
  { unfold minimum_down_time_con. by rewrite decide_True by lia. }
  case_decide as Hq; [done|].
  unfold minimum_down_time_con. rewrite decide_False by lia.
  unfold range. rewrite seqZ_nil by lia. cbn [comprehension and_then].
  rewrite at_position_beyond; [done|]. unfold N in *. lia.
Qed.

Lemma minimum_down_time_con_negative_Ok (down_time t : Z) :
  down_time < 0 → 1 ≤ t ≤ N →
  minimum_down_time_con (R := R) P start_up op_mode down_time N t = Raise IndexError
  ∨ ∃ r, minimum_down_time_con (R := R) P start_up op_mode down_time N t = Ok r.
Proof.
  intros Hd Ht. rewrite minimum_down_time_con_negative by done.
  case_decide as Hskip; [right; by eexists|].
  case_decide as Hq; [|by left]. right.
  unfold minimum_down_time_con. rewrite decide_False by lia.
  unfold range. rewrite seqZ_nil by lia. cbn [comprehension and_then].
  destruct (at_position_Ok P op_mode (t - down_time + 1) op_mode_keys) as (o & Ho & Hot).
  { unfold N in *. lia. }
  rewrite Hot. by eexists.
Qed.

End StartupShutdown.

(** X21: [add_startup_shutdown] raises [AttributeError] on a model built with
    scenarios.  Without scenarios and with attribute paths that resolve, it
    raises [IndexError] for a negative [down_time] as soon as there are two
    periods, and otherwise completes: [design_op_relationship] is declared
    at every position [1 .. N] of the period set, [minimum_up_time_con]
    exactly at [up_time <= t < N] and [minimum_down_time_con] exactly at
    [down_time <= t < N]; the up-time constraint at [t] bounds the sum of
    [start_up] over the positions [t - up_time + 2 .. t] by [op_mode] at
    [t + 1], the down-time constraint bounds the sum of [start_up] over
    [t - down_time + 1 .. t + 1] by [1 - op_mode] at [t - down_time + 1]. *)
Theorem add_startup_shutdown_outcome self m (op_blk design_blk build_binary_var : string)
    (up_time down_time : Z) :
  mp_model self = Value m →
  let P := set_period m in
  let N := Z.of_nat (length P) in
  let run := add_startup_shutdown (R := R) getattr this self op_blk design_blk
               build_binary_var up_time down_time in
  (is_Some (set_scenarios m) → run = Raise AttributeError)
  ∧ (set_scenarios m = None → (period m).*1 = P →
     ∀ start_up op_mode shut_down build,
       attr_dict getattr self (op_blk ++ ".startup")%string = Ok start_up →
       attr_dict getattr self (op_blk ++ ".op_mode")%string = Ok op_mode →
       attr_dict getattr self (op_blk ++ ".shutdown")%string = Ok shut_down →
       deepgetattr getattr this ((design_blk ++ ".") ++ build_binary_var)%string = Ok build →
       (down_time < 0 → 2 ≤ N → run = Raise IndexError)
       ∧ (0 ≤ down_time ∨ N ≤ 1 →
          ∃ piece c1 c2 c3,
            last (split_dot op_blk) = Some piece
            ∧ run = Ok (mkBlock (seqZ 1 N) (piece ++ "_startup_shutdown")%string
                          [("design_op_relationship"%string, c1);
                           ("minimum_up_time_con"%string, c2);
                           ("minimum_down_time_con"%string, c3)])
            ∧ c1.*1 = seqZ 1 N
            ∧ c2.*1 = filter (λ t, up_time ≤ t < N) (seqZ 1 N)
            ∧ c3.*1 = filter (λ t, down_time ≤ t < N) (seqZ 1 N)
            ∧ (∀ t r, (t, r) ∈ c1 →
                 ∃ a b c, fetched P start_up t a ∧ fetched P shut_down t b
                          ∧ fetched P op_mode t c
                          ∧ r = r_le (e_add (e_add (obj a) (obj b)) (obj c)) (obj build))
            ∧ (∀ t r, (t, r) ∈ c2 →
                 ∃ terms o,
                   Forall2 (fetched P start_up) (range (t - up_time + 2) (t + 1)) terms
                   ∧ fetched P op_mode (t + 1) o
                   ∧ r = r_le (py_sum (obj <$> terms)) (obj o))
            ∧ (∀ t r, (t, r) ∈ c3 →
                 ∃ terms o,
                   Forall2 (fetched P start_up) (range (t - down_time + 1) (t + 2)) terms
                   ∧ fetched P op_mode (t - down_time + 1) o
                   ∧ r = r_le (py_sum (obj <$> terms)) (e_sub (e_int 1) (obj o))))).
Proof.
  intros Hm P N run. split.
  { intros Hs. unfold run, add_startup_shutdown.
    by rewrite (attr_dict_scenarios self m _ Hm Hs). }
  intros Hs Hkeys start_up op_mode shut_down build Hsu Hom Hsd Hbuild.
  pose proof (attr_dict_keys self m _ _ Hm Hs Hsu) as Ksu.
  pose proof (attr_dict_keys self m _ _ Hm Hs Hom) as Kom.
  pose proof (attr_dict_keys self m _ _ Hm Hs Hsd) as Ksd.
  rewrite Hkeys in Ksu, Kom, Ksd.
  destruct (last_piece_Ok op_blk) as [piece Hpiece].
  assert (∀ t, t ∈ RangeSet N → 1 ≤ t ≤ N) as Hrange.
  { intros t Ht. unfold RangeSet in Ht. apply elem_of_seqZ in Ht. lia. }
  assert (Constraint_construct (RangeSet N)
            (design_op_relationship (R := R) P start_up op_mode shut_down build)
          = Ok (omap (λ t, match design_op_relationship (R := R) P start_up op_mode
                                   shut_down build t with
                           | Ok (Some r) => Some (t, r)
                           | _ => None
                           end) (RangeSet N))) as H1.
  { apply Constraint_construct_Ok. intros t Ht.
    destruct (design_op_relationship_Ok P start_up op_mode shut_down build Ksu Kom Ksd t)
      as (a & b & c & _ & _ & _ & Hr); [by apply Hrange|]. by eexists. }
  assert (Constraint_construct (RangeSet N)
            (minimum_up_time_con (R := R) P start_up op_mode up_time N)
          = Ok (omap (λ t, match minimum_up_time_con (R := R) P start_up op_mode
                                   up_time N t with
                           | Ok (Some r) => Some (t, r)
                           | _ => None
                           end) (RangeSet N))) as H2.
  { apply Constraint_construct_Ok. intros t Ht.
    pose proof (minimum_up_time_con_spec P start_up op_mode Ksu Kom up_time t
                  (Hrange t Ht)) as Hspec.
        cbv zeta in Hspec. fold N in Hspec.
    case_decide; [by eexists|]. destruct Hspec as (terms & o & _ & _ & Hr). by eexists. }
  assert (run
          = and_then (Constraint_construct (RangeSet N)
                        (minimum_down_time_con (R := R) P start_up op_mode down_time N))
              (λ c3, Ok (mkBlock (RangeSet N) (piece ++ "_startup_shutdown")%string
                           [("design_op_relationship"%string,
                             omap (λ t, match design_op_relationship (R := R) P start_up
                                                op_mode shut_down build t with
                                        | Ok (Some r) => Some (t, r)
                                        | _ => None
                                        end) (RangeSet N));
                            ("minimum_up_time_con"%string,
                             omap (λ t, match minimum_up_time_con (R := R) P start_up
                                                op_mode up_time N t with
                                        | Ok (Some r) => Some (t, r)
                                        | _ => None
                                        end) (RangeSet N));
                            ("minimum_down_time_con"%string, c3)]))) as Hrun.
  { unfold run, add_startup_shutdown. rewrite Hsu, Hom, Hsd, Hbuild. cbn [and_then].
    unfold get_mp_model. rewrite Hm. cbn [and_then]. rewrite Hpiece. cbn [and_then].
    fold P. fold N. rewrite H1. cbn [and_then]. rewrite H2. cbn [and_then]. done. }
  split.
  - intros Hd HN. rewrite Hrun.
    rewrite (Constraint_construct_Raise _ _ IndexError); [done| |].
    + intros t Ht.
      apply (minimum_down_time_con_negative_Ok P start_up op_mode Kom down_time t Hd).
      by apply Hrange.
    + exists (N - 1). split.
      { unfold RangeSet. apply elem_of_seqZ. lia. }
      pose proof (minimum_down_time_con_negative P start_up op_mode down_time (N - 1) Hd)
        as Hneg.
      cbv zeta in Hneg. fold N in Hneg. rewrite Hneg by lia.
      rewrite decide_False by lia. by rewrite decide_False by lia.
  - intros Hd.
    assert (∀ t, t ∈ RangeSet N →
              if decide (t < down_time ∨ N ≤ t)
              then minimum_down_time_con (R := R) P start_up op_mode down_time N t
                   = Ok None
              else ∃ terms o,
                     Forall2 (fetched P start_up) (range (t - down_time + 1) (t + 2)) terms
                     ∧ fetched P op_mode (t - down_time + 1) o
                     ∧ minimum_down_time_con P start_up op_mode down_time N t
                       = Ok (Some (r_le (py_sum (obj <$> terms))
                                     (e_sub (e_int 1) (obj o))))) as Hdown.
    { intros t Ht. pose proof (Hrange t Ht) as Ht'.
      destruct (decide (0 ≤ down_time)) as [Hd0|Hd0].
      - by apply minimum_down_time_con_spec.
      - rewrite decide_True by lia. unfold minimum_down_time_con.
        by rewrite decide_True by lia. }
    rewrite Hrun. rewrite Constraint_construct_Ok; cycle 1.
    { intros t Ht. specialize (Hdown t Ht). case_decide; [by eexists|].
      destruct Hdown as (terms & o & _ & _ & Hr). by eexists. }
    cbn [and_then]. eexists piece, _, _, _.
    split. { unfold last_piece in Hpiece. by destruct (last (split_dot op_blk)) as [?|];
             [injection Hpiece as ->|]. }
    split; [done|].
    split.
    { rewrite (declared_keys _ _ (λ _, False)).
      - unfold RangeSet. apply filter_all. intros; tauto.
      - intros t Ht. rewrite decide_False by tauto.
        destruct (design_op_relationship_Ok P start_up op_mode shut_down build Ksu Kom
                    Ksd t) as (a & b & c & _ & _ & _ & Hr); [by apply Hrange|].
        by eexists. }
    split.
    { rewrite (declared_keys _ _ (λ t, t < up_time ∨ N ≤ t)).
      - unfold RangeSet. apply list_filter_iff. intros t. lia.
      - intros t Ht.
        pose proof (minimum_up_time_con_spec P start_up op_mode Ksu Kom up_time t
                      (Hrange t Ht)) as Hspec.
        cbv zeta in Hspec. fold N in Hspec.
        case_decide; [done|]. destruct Hspec as (terms & o & _ & _ & Hr). by eexists. }
    split.
    { rewrite (declared_keys _ _ (λ t, t < down_time ∨ N ≤ t)).
      - unfold RangeSet. apply list_filter_iff. intros t. lia.
      - intros t Ht. specialize (Hdown t Ht). case_decide; [done|].
        destruct Hdown as (terms & o & _ & _ & Hr). by eexists. }
    split.
    { intros t r Htr. apply declared_elem_of in Htr as [Ht Hr].
      destruct (design_op_relationship_Ok P start_up op_mode shut_down build Ksu Kom
                  Ksd t) as (a & b & c & Ha & Hb & Hc & Hr'); [by apply Hrange|].
      exists a, b, c. rewrite Hr' in Hr. by injection Hr as <-. }
    split.
    { intros t r Htr. apply declared_elem_of in Htr as [Ht Hr].
      pose proof (minimum_up_time_con_spec P start_up op_mode Ksu Kom up_time t
                    (Hrange t Ht)) as Hspec.
        cbv zeta in Hspec. fold N in Hspec.
      case_decide; [by rewrite Hspec in Hr|].
      destruct Hspec as (terms & o & Hterms & Ho & Hr'). exists terms, o.
      rewrite Hr' in Hr. by injection Hr as <-. }
    intros t r Htr. apply declared_elem_of in Htr as [Ht Hr].
    specialize (Hdown t Ht). case_decide; [by rewrite Hdown in Hr|].
    destruct Hdown as (terms & o & Hterms & Ho & Hr'). exists terms, o.
    rewrite Hr' in Hr. by injection Hr as <-.
Qed.

(** ** The rules of [add_ramping_constraints] *)

Section Ramping.
Variables (P : list PeriodIndex).
Let N : Z := Z.of_nat (length P).

Lemma mccor1_Ok (aux binary : @Dict U) (capacity capacity_ub : U) (t : Z) :
  aux.*1 = P → binary.*1 = P → 1 ≤ t ≤ N →
  ∃ a b, fetched P aux t a ∧ fetched P binary t b
    ∧ mccor1 (R := R) P aux binary capacity capacity_ub t
      = Ok (Some (r_ge (obj a)
                    (e_sub (e_add (obj capacity) (e_mul (obj b) (obj capacity_ub)))
                       (obj capacity_ub)))).
Proof.
  intros Ka Kb Ht.
  destruct (at_position_Ok P aux t Ka Ht) as (a & Ha & Hat).
  destruct (at_position_Ok P binary t Kb Ht) as (b & Hb & Hbt).
  exists a, b. split; [done|]. split; [done|].
  unfold mccor1. rewrite Hat, Hbt. done.
Qed.

Lemma mccor2_Ok (aux binary : @Dict U) (capacity_ub : U) (t : Z) :
  aux.*1 = P → binary.*1 = P → 1 ≤ t ≤ N →
  ∃ a b, fetched P aux t a ∧ fetched P binary t b
    ∧ mccor2 (R := R) P aux binary capacity_ub t
      = Ok (Some (r_le (obj a) (e_mul (obj b) (obj capacity_ub)))).
Proof.
  intros Ka Kb Ht.
  destruct (at_position_Ok P aux t Ka Ht) as (a & Ha & Hat).
  destruct (at_position_Ok P binary t Kb Ht) as (b & Hb & Hbt).
  exists a, b. split; [done|]. split; [done|].
  unfold mccor2. rewrite Hat, Hbt. done.
Qed.

Lemma ramp_up_con_spec (var aux_startup aux_op_mode : @Dict U)
    (op_range_lb_percentage startup_limit_percentage ramp_up_limit : R) (t : Z) :
  var.*1 = P → aux_startup.*1 = P → aux_op_mode.*1 = P → 1 ≤ t ≤ N →
  if decide (t = 1)
  then ramp_up_con float_sub P var aux_startup aux_op_mode op_range_lb_percentage
         startup_limit_percentage ramp_up_limit t = Ok None
  else ∃ v v' su su' om om',
         fetched P var t v ∧ fetched P var (t - 1) v'
         ∧ fetched P aux_startup t su ∧ fetched P aux_startup (t - 1) su'
         ∧ fetched P aux_op_mode t om ∧ fetched P aux_op_mode (t - 1) om'
         ∧ ramp_up_con float_sub P var aux_startup aux_op_mode op_range_lb_percentage
             startup_limit_percentage ramp_up_limit t
           = Ok (Some (r_le (e_sub (obj v) (obj v'))
               (e_sub
                  (e_add
                     (e_sub (e_mul (e_float startup_limit_percentage) (obj su))
                            (e_mul (e_float op_range_lb_percentage) (obj su')))
                     (e_mul (e_float (float_sub ramp_up_limit op_range_lb_percentage))
                            (obj om)))
                  (e_mul (e_float op_range_lb_percentage) (obj om'))))).
Proof.
  intros Kv Ksu Kom Ht. unfold ramp_up_con. case_decide as Ht1; [done|].
  destruct (at_position_Ok P var t Kv Ht) as (v & Hv & ->).
  destruct (at_position_Ok P var (t - 1) Kv) as (v' & Hv' & ->); [unfold N in *; lia|].
  destruct (at_position_Ok P aux_startup t Ksu Ht) as (su & Hsu & ->).
  destruct (at_position_Ok P aux_startup (t - 1) Ksu) as (su' & Hsu' & ->);
    [unfold N in *; lia|].
  destruct (at_position_Ok P aux_op_mode t Kom Ht) as (om & Hom & ->).
  destruct (at_position_Ok P aux_op_mode (t - 1) Kom) as (om' & Hom' & ->);
    [unfold N in *; lia|].
  exists v, v', su, su', om, om'. done.
Qed.

Lemma ramp_down_con_spec (var aux_shutdown aux_startup aux_op_mode : @Dict U)
    (op_range_lb_percentage shutdown_limit_percentage ramp_down_limit : R) (t : Z) :
  var.*1 = P → aux_shutdown.*1 = P → aux_startup.*1 = P → aux_op_mode.*1 = P →
  1 ≤ t ≤ N →
  if decide (t = 1)
  then ramp_down_con float_sub P var aux_shutdown aux_startup aux_op_mode
         op_range_lb_percentage shutdown_limit_percentage ramp_down_limit t = Ok None
  else ∃ v v' sd su su' om om',
         fetched P var t v ∧ fetched P var (t - 1) v'
         ∧ fetched P aux_shutdown t sd
         ∧ fetched P aux_startup t su ∧ fetched P aux_startup (t - 1) su'
         ∧ fetched P aux_op_mode t om ∧ fetched P aux_op_mode (t - 1) om'
         ∧ ramp_down_con float_sub P var aux_shutdown aux_startup aux_op_mode
             op_range_lb_percentage shutdown_limit_percentage ramp_down_limit t
           = Ok (Some (r_le (e_sub (obj v') (obj v))
               (e_add
                  (e_add
                     (e_add
                        (e_sub
                           (e_mul (e_float (float_sub shutdown_limit_percentage
                                              op_range_lb_percentage)) (obj sd))
                           (e_mul (e_float op_range_lb_percentage) (obj su)))
                        (e_mul (e_float op_range_lb_percentage) (obj su')))
                     (e_mul (e_float (float_sub ramp_down_limit op_range_lb_percentage))
                            (obj om)))
                  (e_mul (e_float op_range_lb_percentage) (obj om'))))).
Proof.
  intros Kv Ksd Ksu Kom Ht. unfold ramp_down_con. case_decide as Ht1; [done|].
  destruct (at_position_Ok P var (t - 1) Kv) as (v' & Hv' & ->); [unfold N in *; lia|].
  destruct (at_position_Ok P var t Kv Ht) as (v & Hv & ->).
  destruct (at_position_Ok P aux_shutdown t Ksd Ht) as (sd & Hsd & ->).
  destruct (at_position_Ok P aux_startup t Ksu Ht) as (su & Hsu & ->).
  destruct (at_position_Ok P aux_startup (t - 1) Ksu) as (su' & Hsu' & ->);
    [unfold N in *; lia|].
  destruct (at_position_Ok P aux_op_mode t Kom Ht) as (om & Hom & ->).
  destruct (at_position_Ok P aux_op_mode (t - 1) Kom) as (om' & Hom' & ->);
    [unfold N in *; lia|].
  exists v, v', sd, su, su', om, om'. done.
Qed.

End Ramping.

(** X22: [add_ramping_constraints] raises [AttributeError] on a model built with
    scenarios.  Without scenarios and with attribute paths that resolve it
    completes: the six linearization constraints are declared at every
    position [1 .. N] of the period set, each on the objects of that
    position, and [ramp_up_con] and [ramp_down_con] exactly at the
    positions [2 .. N], each relating the objects of position [t] to those
    of position [t - 1]; position [1] has no ramping constraint. *)
Theorem add_ramping_constraints_outcome self m (op_blk design_blk var : string)
    (op_range_lb_percentage startup_limit_percentage shutdown_limit_percentage : R)
    (ramp_up_limit ramp_down_limit : R) :
  mp_model self = Value m →
  let P := set_period m in
  let N := Z.of_nat (length P) in
  let run := add_ramping_constraints getattr float_sub this self op_blk design_blk var
               op_range_lb_percentage startup_limit_percentage
               shutdown_limit_percentage ramp_up_limit ramp_down_limit in
  (is_Some (set_scenarios m) → run = Raise AttributeError)
  ∧ (set_scenarios m = None → (period m).*1 = P →
     ∀ start_up op_mode shut_down aux_shutdown aux_startup aux_op_mode vars
       capacity capacity_ub,
       attr_dict getattr self (op_blk ++ ".startup")%string = Ok start_up →
       attr_dict getattr self (op_blk ++ ".op_mode")%string = Ok op_mode →
       attr_dict getattr self (op_blk ++ ".shutdown")%string = Ok shut_down →
       attr_dict getattr self (op_blk ++ ".aux_shutdown")%string = Ok aux_shutdown →
       attr_dict getattr self (op_blk ++ ".aux_startup")%string = Ok aux_startup →
       attr_dict getattr self (op_blk ++ ".aux_op_mode")%string = Ok aux_op_mode →
       deepgetattr getattr this (design_blk ++ ".capacity")%string = Ok capacity →
       deepgetattr getattr this (design_blk ++ ".capacity.ub")%string = Ok capacity_ub →
       attr_dict getattr self ((op_blk ++ ".") ++ var)%string = Ok vars →
       let lower aux binary (c : list (Z * Rel)) :=
         c.*1 = seqZ 1 N
         ∧ ∀ t r, (t, r) ∈ c →
             ∃ a b, fetched P aux t a ∧ fetched P binary t b
                    ∧ r = r_ge (obj a)
                            (e_sub (e_add (obj capacity) (e_mul (obj b) (obj capacity_ub)))
                               (obj capacity_ub)) in
       let upper aux binary (c : list (Z * Rel)) :=
         c.*1 = seqZ 1 N
         ∧ ∀ t r, (t, r) ∈ c →
             ∃ a b, fetched P aux t a ∧ fetched P binary t b
                    ∧ r = r_le (obj a) (e_mul (obj b) (obj capacity_ub)) in
       ∃ piece c1 c2 c3 c4 c5 c6 c7 c8,
         last (split_dot op_blk) = Some piece
         ∧ run = Ok (mkBlock (seqZ 1 N) (piece ++ "_rampup_rampdown")%string
                       [("startup_mccor1"%string, c1);
                        ("startup_mccor2"%string, c2);
                        ("shutdown_mccor1"%string, c3);
                        ("shutdown_mccor2"%string, c4);
                        ("op_mode_mccor1"%string, c5);
                        ("op_mode_mccor2"%string, c6);
                        ("ramp_up_con"%string, c7);
                        ("ramp_down_con"%string, c8)])
         ∧ lower aux_startup start_up c1 ∧ upper aux_startup start_up c2
         ∧ lower aux_shutdown shut_down c3 ∧ upper aux_shutdown shut_down c4
         ∧ lower aux_op_mode op_mode c5 ∧ upper aux_op_mode op_mode c6
         ∧ c7.*1 = seqZ 2 (N - 1)
         ∧ c8.*1 = seqZ 2 (N - 1)
         ∧ (∀ t r, (t, r) ∈ c7 →
              ∃ v v' su su' om om',
                fetched P vars t v ∧ fetched P vars (t - 1) v'
                ∧ fetched P aux_startup t su ∧ fetched P aux_startup (t - 1) su'
                ∧ fetched P aux_op_mode t om ∧ fetched P aux_op_mode (t - 1) om'
                ∧ r = r_le (e_sub (obj v) (obj v'))
                        (e_sub
                           (e_add
                              (e_sub (e_mul (e_float startup_limit_percentage) (obj su))
                                     (e_mul (e_float op_range_lb_percentage) (obj su')))
                              (e_mul (e_float (float_sub ramp_up_limit
                                                 op_range_lb_percentage)) (obj om)))
                           (e_mul (e_float op_range_lb_percentage) (obj om'))))
         ∧ (∀ t r, (t, r) ∈ c8 →
              ∃ v v' sd su su' om om',
                fetched P vars t v ∧ fetched P vars (t - 1) v'
                ∧ fetched P aux_shutdown t sd
                ∧ fetched P aux_startup t su ∧ fetched P aux_startup (t - 1) su'
                ∧ fetched P aux_op_mode t om ∧ fetched P aux_op_mode (t - 1) om'
                ∧ r = r_le (e_sub (obj v') (obj v))
                        (e_add
                           (e_add
                              (e_add
                                 (e_sub
                                    (e_mul (e_float (float_sub shutdown_limit_percentage
                                                       op_range_lb_percentage)) (obj sd))
                                    (e_mul (e_float op_range_lb_percentage) (obj su)))
                                 (e_mul (e_float op_range_lb_percentage) (obj su')))
                              (e_mul (e_float (float_sub ramp_down_limit
                                                 op_range_lb_percentage)) (obj om)))
                           (e_mul (e_float op_range_lb_percentage) (obj om'))))).
Proof.
  intros Hm P N run. split.
  { intros Hs. unfold run, add_ramping_constraints, get_mp_model. rewrite Hm.
    cbn [and_then]. by rewrite (attr_dict_scenarios self m _ Hm Hs). }
  intros Hs Hkeys start_up op_mode shut_down aux_shutdown aux_startup aux_op_mode vars
    capacity capacity_ub Hsu Hom Hsd Hasd Hasu Haom Hcap Hub Hvars lower upper.
  pose proof (attr_dict_keys self m _ _ Hm Hs Hsu) as Ksu.
  pose proof (attr_dict_keys self m _ _ Hm Hs Hom) as Kom.
  pose proof (attr_dict_keys self m _ _ Hm Hs Hsd) as Ksd.
  pose proof (attr_dict_keys self m _ _ Hm Hs Hasd) as Kasd.
  pose proof (attr_dict_keys self m _ _ Hm Hs Hasu) as Kasu.
  pose proof (attr_dict_keys self m _ _ Hm Hs Haom) as Kaom.
  pose proof (attr_dict_keys self m _ _ Hm Hs Hvars) as Kv.
  rewrite Hkeys in Ksu, Kom, Ksd, Kasd, Kasu, Kaom, Kv.
  destruct (last_piece_Ok op_blk) as [piece Hpiece].
  assert (∀ t, t ∈ RangeSet N → 1 ≤ t ≤ N) as Hrange.
  { intros t Ht. unfold RangeSet in Ht. apply elem_of_seqZ in Ht. lia. }
  assert (∀ aux binary, aux.*1 = P → binary.*1 = P →
            ∃ c, Constraint_construct (RangeSet N)
                   (mccor1 (R := R) P aux binary capacity capacity_ub) = Ok c
                 ∧ lower aux binary c) as Hlower.
  { intros aux binary Ka Kb.
    destruct (Constraint_construct_spec
                (mccor1 (R := R) P aux binary capacity capacity_ub) (RangeSet N)
                (λ _, False)) as (c & Hc & Hk & He).
    { intros t Ht. rewrite decide_False by tauto.
      destruct (mccor1_Ok P aux binary capacity capacity_ub t Ka Kb (Hrange t Ht))
        as (a & b & _ & _ & Hr). by eexists. }
    exists c. split; [done|]. split.
    - rewrite Hk. apply filter_all. intros; tauto.
    - intros t r Htr. apply He in Htr as [Ht Hr].
      destruct (mccor1_Ok P aux binary capacity capacity_ub t Ka Kb (Hrange t Ht))
        as (a & b & Ha & Hb & Hr'). exists a, b. rewrite Hr' in Hr.
      by injection Hr as <-. }
  assert (∀ aux binary, aux.*1 = P → binary.*1 = P →
            ∃ c, Constraint_construct (RangeSet N)
                   (mccor2 (R := R) P aux binary capacity_ub) = Ok c
                 ∧ upper aux binary c) as Hupper.
  { intros aux binary Ka Kb.
    destruct (Constraint_construct_spec
                (mccor2 (R := R) P aux binary capacity_ub) (RangeSet N)
                (λ _, False)) as (c & Hc & Hk & He).
    { intros t Ht. rewrite decide_False by tauto.
      destruct (mccor2_Ok P aux binary capacity_ub t Ka Kb (Hrange t Ht))
        as (a & b & _ & _ & Hr). by eexists. }
    exists c. split; [done|]. split.
    - rewrite Hk. apply filter_all. intros; tauto.
    - intros t r Htr. apply He in Htr as [Ht Hr].
      destruct (mccor2_Ok P aux binary capacity_ub t Ka Kb (Hrange t Ht))
        as (a & b & Ha & Hb & Hr'). exists a, b. rewrite Hr' in Hr.
      by injection Hr as <-. }
  destruct (Hlower aux_startup start_up Kasu Ksu) as (c1 & H1 & L1).
  destruct (Hupper aux_startup start_up Kasu Ksu) as (c2 & H2 & L2).
  destruct (Hlower aux_shutdown shut_down Kasd Ksd) as (c3 & H3 & L3).
  destruct (Hupper aux_shutdown shut_down Kasd Ksd) as (c4 & H4 & L4).
  destruct (Hlower aux_op_mode op_mode Kaom Kom) as (c5 & H5 & L5).
  destruct (Hupper aux_op_mode op_mode Kaom Kom) as (c6 & H6 & L6).
  assert (∀ t, t ∈ RangeSet N → _) as Hup
    by exact (λ t Ht, ramp_up_con_spec P vars aux_startup aux_op_mode
                        op_range_lb_percentage startup_limit_percentage ramp_up_limit t
                        Kv Kasu Kaom (Hrange t Ht)).
  assert (∀ t, t ∈ RangeSet N → _) as Hdn
    by exact (λ t Ht, ramp_down_con_spec P vars aux_shutdown aux_startup aux_op_mode
                        op_range_lb_percentage shutdown_limit_percentage ramp_down_limit
                        t Kv Kasd Kasu Kaom (Hrange t Ht)).
  destruct (Constraint_construct_spec
              (ramp_up_con float_sub P vars aux_startup aux_op_mode
                 op_range_lb_percentage startup_limit_percentage ramp_up_limit)
              (RangeSet N) (λ t, t = 1)) as (c7 & H7 & K7 & E7).
  { intros t Ht. specialize (Hup t Ht). cbv beta in Hup. case_decide; [done|].
    destruct Hup as (v & v' & su & su' & om & om' & _ & _ & _ & _ & _ & _ & Hr).
    by eexists. }
  destruct (Constraint_construct_spec
              (ramp_down_con float_sub P vars aux_shutdown aux_startup aux_op_mode
                 op_range_lb_percentage shutdown_limit_percentage ramp_down_limit)
              (RangeSet N) (λ t, t = 1)) as (c8 & H8 & K8 & E8).
  { intros t Ht. specialize (Hdn t Ht). cbv beta in Hdn. case_decide; [done|].
    destruct Hdn as (v & v' & sd & su & su' & om & om' & _ & _ & _ & _ & _ & _ & _ & Hr).
    by eexists. }
  exists piece, c1, c2, c3, c4, c5, c6, c7, c8.
  split. { unfold last_piece in Hpiece. by destruct (last (split_dot op_blk)) as [?|];
           [injection Hpiece as ->|]. }
  split.
  { unfold run, add_ramping_constraints, get_mp_model. rewrite Hm. cbn [and_then].
    rewrite Hsu, Hom, Hsd, Hasd, Hasu, Haom, Hcap, Hub, Hvars. cbn [and_then].
    rewrite Hpiece. cbn [and_then]. fold P. fold N.
    rewrite H1, H2, H3, H4, H5, H6, H7, H8. done. }
  do 6 (split; [done|]).
  split. { rewrite K7. apply filter_seqZ_from_2. }
  split. { rewrite K8. apply filter_seqZ_from_2. }
  split.
  - intros t r Htr. apply E7 in Htr as [Ht Hr]. specialize (Hup t Ht). cbv beta in Hup.
    case_decide; [by rewrite Hup in Hr|].
    destruct Hup as (v & v' & su & su' & om & om' & ? & ? & ? & ? & ? & ? & Hr').
    exists v, v', su, su', om, om'. rewrite Hr' in Hr. by injection Hr as <-.
  - intros t r Htr. apply E8 in Htr as [Ht Hr]. specialize (Hdn t Ht). cbv beta in Hdn.
    case_decide; [by rewrite Hdn in Hr|].
    destruct Hdn as (v & v' & sd & su & su' & om & om' & ? & ? & ? & ? & ? & ? & ? & Hr').
    exists v, v', sd, su, su', om, om'. rewrite Hr' in Hr. by injection Hr as <-.
Qed.

End OperationalFacts.

Section GridLookup.
Context {A B K : Type}.
Variable key : A → B → K.

Lemma grid_lookup (l : list A) (bs : list B) (i j : nat) (a : A) (b : B) :
  l !! i = Some a → bs !! j = Some b →
  (a' ← l; key a' <$> bs) !! (i * length bs + j)%nat = Some (key a b).
Proof.
  revert i. induction l as [|a' l IH]; intros i Ha Hb; [done|].
  cbn [mbind list_bind]. destruct i as [|i].
  - injection Ha as ->. cbn [Nat.mul Nat.add].
    rewrite lookup_app_l by (rewrite length_fmap; by eapply lookup_lt_Some).
    by rewrite list_lookup_fmap, Hb.
  - rewrite lookup_app_r by (rewrite length_fmap; lia).
    rewrite length_fmap. replace (S i * length bs + j - length bs)%nat
      with (i * length bs + j)%nat by lia.
    by apply IH.
Qed.
End GridLookup.

(** ** Ramping over representative days *)

Section RampingOverDays.
Import String.
Import PriceTaker PriceTakerSetup DeepGetAttr OperationalConstraints.
Local Abbreviation length := List.length.
Context {F L : Type} `{EqDecision L}.
Context {RNG : Type}.
Context {U V FO IO UO SR J R : Type}.
Variable read_excel : F → result (@DataFrame L).
Variable int : L → result Z.
Variable KMeans_fit : nat → list (list Q) → Run RNG KMeansFit.
Variable empty_block : U.
Variable process_model_func : U → FO → U.
Variable initialization_func : option (U → IO → U).
Variable unfix_dof_func : option (U → UO → U).
Variable flowsheet_options : FO.
Variable initialization_options : IO.
Variable unfix_dof_options : UO.
Variable solve : U → U * SR.
Variable check_optimal_termination : SR → bool.
Variable to_json : U → J.
Variable from_json : U → J → U.
Variable float_sub : R → R → R.

Local Abbreviation append := (append_lmp_data (U := U) (V := V) read_excel int KMeans_fit).
Local Abbreviation build_mp :=
  (build_multiperiod_model (RNG := RNG) empty_block process_model_func initialization_func
     unfix_dof_func flowsheet_options initialization_options unfix_dof_options solve
     check_optimal_termination to_json from_json).
Local Abbreviation obj := (@e_obj U R).

(** X23: on a model of representative days, built by [append_lmp_data] and
    [build_multiperiod_model], the ramp-up constraint at position
    [d * horizon + 1] bounds the variable of the first hour of day [d + 1]
    minus the variable of the last hour of day [d]: consecutive
    representative days are ramped into one another. *)
Theorem ramping_couples_representative_days file column_name (n_clusters : nat)
    horizon_length (self : PriceTakerModel) g full_data s1 g1 set_scenarios st2 :
  read_excel file = Ok full_data →
  append file (col_one column_name) (Some n_clusters) horizon_length (new_model self, g)
    = ((s1, g1), Ok ()) →
  build_mp set_scenarios (s1, g1) = (st2, Ok ()) →
  let H := default 24 horizon_length in
  1 ≤ H →
  ∃ m, mp_model st2.1 = Value m
    ∧ ∀ d, 1 ≤ d < Z.of_nat n_clusters →
      ∀ (vars aux_startup aux_op_mode : @Dict U)
        (op_range_lb_percentage startup_limit_percentage ramp_up_limit : R),
        vars.*1 = set_period m → aux_startup.*1 = set_period m →
        aux_op_mode.*1 = set_period m →
        ∃ v v' su su' om om',
          assoc_get (idx_td 1 (d + 1)) vars = Some v
          ∧ assoc_get (idx_td H d) vars = Some v'
          ∧ assoc_get (idx_td 1 (d + 1)) aux_startup = Some su
          ∧ assoc_get (idx_td H d) aux_startup = Some su'
          ∧ assoc_get (idx_td 1 (d + 1)) aux_op_mode = Some om
          ∧ assoc_get (idx_td H d) aux_op_mode = Some om'
          ∧ ramp_up_con float_sub (set_period m) vars aux_startup aux_op_mode
              op_range_lb_percentage startup_limit_percentage ramp_up_limit (d * H + 1)
            = Ok (Some (r_le (e_sub (obj v) (obj v'))
                (e_sub
                   (e_add
                      (e_sub (e_mul (e_float startup_limit_percentage) (obj su))
                             (e_mul (e_float op_range_lb_percentage) (obj su')))
                      (e_mul (e_float (float_sub ramp_up_limit op_range_lb_percentage))
                             (obj om)))
                   (e_mul (e_float op_range_lb_percentage) (obj om'))))).
Proof.
  intros Hread Hrun Hbuild H HH.
  destruct (append_representative_days_run _ _ _ _ _ _ _ _ _ _ _ _ Hread Hrun)
    as (lmp_data & weights & Hcluster & Hok & ->).
  fold H in Hbuild.
  apply (build_mp_set_period _ _ _ _ _ _ _ _ _ _ _ _ _ _ H
           (Some (seqZ 1 (Z.of_nat n_clusters))) None) in Hbuild
    as (m & -> & HP); [|done..].
  exists m. split; [done|].
  assert (set_period m
          = (d ← seqZ 1 (Z.of_nat n_clusters); (λ t, idx_td t d) <$> seqZ 1 H)) as HP'.
  { rewrite HP. unfold compose_set_period, stochastic_init, RangeSet.
    cbn [MultiPeriod.set_years MultiPeriod.set_days MultiPeriod.set_time fmap
         option_fmap option_map].
    rewrite Set_initialize_NoDup by apply NoDup_seqZ.
    apply list_bind_ext; [|done]. intros d. apply bind_singleton_fmap. }
  assert (Z.of_nat (length (set_period m)) = Z.of_nat n_clusters * H) as Hlen.
  { rewrite HP'. rewrite (length_bind_const _ _ (Z.to_nat H)).
    - rewrite length_seqZ. lia.
    - intros d. by rewrite length_fmap, length_seqZ. }
  intros d Hd vars aux_startup aux_op_mode lb sl ru Kv Ksu Kom.
  assert (set_period m !! Z.to_nat (d * H + 1 - 1) = Some (idx_td 1 (d + 1))) as Hfirst.
  { rewrite HP'.
    replace (Z.to_nat (d * H + 1 - 1)) with (Z.to_nat d * length (seqZ 1 H) + 0)%nat.
    - apply (grid_lookup (λ d t, idx_td t d)).
      + apply lookup_seqZ. lia.
      + apply lookup_seqZ. lia.
    - rewrite length_seqZ, Nat.add_0_r, <- Z2Nat.inj_mul by lia. f_equal. lia. }
  assert (set_period m !! Z.to_nat (d * H + 1 - 1 - 1) = Some (idx_td H d)) as Hlast.
  { rewrite HP'.
    replace (Z.to_nat (d * H + 1 - 1 - 1))
      with (Z.to_nat (d - 1) * length (seqZ 1 H) + Z.to_nat (H - 1))%nat.
    - apply (grid_lookup (λ d t, idx_td t d)).
      + apply lookup_seqZ. lia.
      + apply lookup_seqZ. lia.
    - rewrite length_seqZ, <- Z2Nat.inj_mul, <- Z2Nat.inj_add by nia. f_equal. lia. }
  pose proof (ramp_up_con_spec float_sub (set_period m) vars aux_startup aux_op_mode
                lb sl ru (d * H + 1) Kv Ksu Kom) as Hspec.
  cbv zeta in Hspec. rewrite decide_False in Hspec by nia.
  destruct Hspec as (v & v' & su & su' & om & om' & Hv & Hv' & Hsu & Hsu' & Hom & Hom'
                     & Hr); [nia|].
  exists v, v', su, su', om, om'.
  assert (∀ (dict : @Dict U) o, fetched (set_period m) dict (d * H + 1) o →
            assoc_get (idx_td 1 (d + 1)) dict = Some o) as Hat.
  { intros dict o (p & _ & Hp & Ho). rewrite Hfirst in Hp. by injection Hp as <-. }
  assert (∀ (dict : @Dict U) o, fetched (set_period m) dict (d * H + 1 - 1) o →
            assoc_get (idx_td H d) dict = Some o) as Hat'.
  { intros dict o (p & _ & Hp & Ho). rewrite Hlast in Hp. by injection Hp as <-. }
  repeat (split; [by (apply Hat || apply Hat')|]). exact Hr.
Qed.

End RampingOverDays.

Section OperationalInstances.
Import String.
Import PriceTaker PriceTakerSetup DeepGetAttr OperationalConstraints.
Import Demo DemoSetup DemoOperation.
Local Abbreviation length := List.length.

(** Six periods, [up_time = 2] and [down_time = 1]. *)
Lemma add_startup_shutdown_outcome_witness :
  ∃ m c1 c2 c3,
    mp_model demo_priced = Value m
    ∧ add_startup_shutdown (R := Q) demo_getattr 0 demo_priced "fs.op" "design" "build" 2 1
      = Ok (mkBlock (seqZ 1 6) "op_startup_shutdown"
              [("design_op_relationship"%string, c1);
               ("minimum_up_time_con"%string, c2);
               ("minimum_down_time_con"%string, c3)])
    ∧ c2.*1 = [2; 3; 4; 5].
Proof.
  pose (m := match mp_model demo_priced with
             | Value m => m
             | Unset => stochastic_init 0 None None None
             end).
  assert (mp_model demo_priced = Value m) as Hm by (vm_compute; reflexivity).
  destruct (add_startup_shutdown_outcome (R := Q) demo_getattr 0 demo_priced m
              "fs.op" "design" "build" 2 1 Hm) as [_ Hok].
  pose (d := λ path, match attr_dict demo_getattr demo_priced path with
                     | Ok d => d
                     | Raise _ => []
                     end).
  destruct (Hok ltac:(vm_compute; reflexivity) ltac:(vm_compute; reflexivity)
              (d "fs.op.startup"%string) (d "fs.op.op_mode"%string)
              (d "fs.op.shutdown"%string) 11
              ltac:(vm_compute; reflexivity) ltac:(vm_compute; reflexivity)
              ltac:(vm_compute; reflexivity) ltac:(vm_compute; reflexivity))
    as [_ Hrun].
  destruct Hrun as (piece & c1 & c2 & c3 & Hpiece & Hrun & _ & K2 & _); [left; lia|].
  assert (piece = "op"%string) as ->.
  { assert (last (split_dot "fs.op") = Some "op"%string) as Hl by (vm_compute; reflexivity).
    rewrite Hl in Hpiece. by injection Hpiece as <-. }
  exists m, c1, c2, c3. split; [exact Hm|]. split; [exact Hrun|].
  rewrite K2. vm_compute. reflexivity.
Defined.

(** The same model: the ramping constraints start at the second
    position. *)
Lemma add_ramping_constraints_outcome_witness :
  ∃ m blk,
    mp_model demo_priced = Value m
    ∧ add_ramping_constraints (R := Q) demo_getattr Qminus 0 demo_priced "fs.op" "design"
        "power" (1 # 5)%Q (1 # 2)%Q (1 # 2)%Q (4 # 5)%Q (4 # 5)%Q = Ok blk
    ∧ (λ c : list (Z * @relation Z Q), c.*1)
        <$> assoc_get "ramp_up_con"%string (constraints blk) = Some [2; 3; 4; 5; 6].
Proof.
  pose (m := match mp_model demo_priced with
             | Value m => m
             | Unset => stochastic_init 0 None None None
             end).
  assert (mp_model demo_priced = Value m) as Hm by (vm_compute; reflexivity).
  destruct (add_ramping_constraints_outcome demo_getattr Qminus 0 demo_priced m
              "fs.op" "design" "power" (1 # 5)%Q (1 # 2)%Q (1 # 2)%Q (4 # 5)%Q (4 # 5)%Q
              Hm) as [_ Hok].
  pose (d := λ path, match attr_dict demo_getattr demo_priced path with
                     | Ok d => d
                     | Raise _ => []
                     end).
  destruct (Hok ltac:(vm_compute; reflexivity) ltac:(vm_compute; reflexivity)
              (d "fs.op.startup"%string) (d "fs.op.op_mode"%string)
              (d "fs.op.shutdown"%string) (d "fs.op.aux_shutdown"%string)
              (d "fs.op.aux_startup"%string) (d "fs.op.aux_op_mode"%string)
              (d "fs.op.power"%string) 14 16
              ltac:(vm_compute; reflexivity) ltac:(vm_compute; reflexivity)
              ltac:(vm_compute; reflexivity) ltac:(vm_compute; reflexivity)
              ltac:(vm_compute; reflexivity) ltac:(vm_compute; reflexivity)
              ltac:(vm_compute; reflexivity) ltac:(vm_compute; reflexivity)
              ltac:(vm_compute; reflexivity))
    as (piece & c1 & c2 & c3 & c4 & c5 & c6 & c7 & c8 & _ & Hrun & _ & _ & _ & _ & _ & _
        & K7 & _).
  eexists m, _. split; [exact Hm|]. split; [exact Hrun|].
  vm_compute. vm_compute in K7. rewrite K7. reflexivity.
Defined.

(** Two representative days of 24 hours: position 25 is the first hour
    of day 2, position 24 the last hour of day 1. *)
Lemma ramping_couples_representative_days_witness :
  ∃ s1 st2 (m : @StochasticModel Z Z) (v v' : Z),
    demo_append 0 (col_one 2%nat) (Some 2%nat) None demo_model = ((s1, 1%nat), Ok ())
    ∧ demo_build_multiperiod_model (s1, 1%nat) = (st2, Ok ())
    ∧ mp_model st2.1 = Value m
    ∧ let dict := (λ p : PeriodIndex * @Process Z Z, (p.1, user_model p.2)) <$> period m in
      assoc_get (idx_td 1 2) dict = Some v ∧ assoc_get (idx_td 24 1) dict = Some v'.
Proof.
  destruct (demo_append 0 (col_one 2%nat) (Some 2%nat) None demo_model)
    as [[s1 g1] [[]|e]] eqn:Hrun; [|vm_compute in Hrun; discriminate].
  assert (g1 = 1%nat) as -> by (vm_compute in Hrun; by injection Hrun as <-).
  destruct (demo_build_multiperiod_model (s1, 1%nat)) as [st2 [[]|e]] eqn:Hmp; cycle 1.
  { exfalso.
    assert (is_Ok (demo_build_multiperiod_model
              (demo_append 0 (col_one 2%nat) (Some 2%nat) None demo_model).1).2 = true)
      as Hok by (vm_compute; reflexivity).
    rewrite Hrun in Hok. cbn [fst] in Hok. rewrite Hmp in Hok. discriminate. }
  destruct (ramping_couples_representative_days (R := Q) demo_read_excel demo_int
              demo_KMeans (U := Z) (V := Z) 0 (λ b o, b + o) None None 1 10 100
              (λ b : Z, (b, true)) (λ r : bool, r) (λ b : Z, b) (λ _ j : Z, j) Qminus
              0%nat 2%nat 2%nat None (mkPriceTaker 20 24) 0%nat (demo_table two_days)
              s1 1%nat None st2 eq_refl Hrun Hmp ltac:(cbn; lia))
    as (m & Hm & Hramp).
  assert ((period m).*1 = set_period m) as Hkeys.
  { assert (st2 = (demo_build_multiperiod_model
                     (demo_append 0 (col_one 2%nat) (Some 2%nat) None demo_model).1).1)
      as Hst by (rewrite Hrun; cbn [fst]; by rewrite Hmp).
    assert (match mp_model
                    (demo_build_multiperiod_model
                       (demo_append 0 (col_one 2%nat) (Some 2%nat) None demo_model).1).1.1
            with
            | Value m' => bool_decide ((period m').*1 = set_period m')
            | Unset => false
            end = true) as Hdec by (vm_compute; reflexivity).
    rewrite <- Hst, Hm in Hdec. by apply bool_decide_eq_true in Hdec. }
  pose (dict := (λ p : PeriodIndex * @Process Z Z, (p.1, user_model p.2)) <$> period m).
  assert (dict.*1 = set_period m) as Kd.
  { unfold dict. rewrite <- list_fmap_compose. exact Hkeys. }
  destruct (Hramp 1 ltac:(lia) dict dict dict (1 # 5)%Q (1 # 2)%Q (4 # 5)%Q Kd Kd Kd)
    as (v & v' & _ & _ & _ & _ & Hv & Hv' & _).
  exists s1, st2, m, v, v'. done.
Defined.

End OperationalInstances.
